(* ===== verification/_CoqProject ===== *)
-Q . S2P
Prelude.v
ArgParse.v
Encoders.v
Depend.v
FailureActions.v
Registry.v
WinScm.v
Lifecycle.v
Config.v
Query.v
Failure.v
Main.v
Handles.v
StateMachine.v
Conformance.v
Session.v
