(* ===== verification/Prelude.v ===== *)
(** * Verification of scclone, a clone of the Windows service-control tool

    The program (src/main-scclone.cpp, one file) is a command-line tool:
    [main] dispatches on a command name to handlers that call the Windows
    service control manager (SCM).  Its parts, and how they interact:
    - the argument parser [ParseArgs] turns the tokens after the command
      into a [std::map] of options, read by [create], [config] and
      [failure];
    - field encoders map option strings to SCM constants (start type,
      service type, error control) and build the NUL-separated dependency
      list; [failure] parses a reset period and a list of actions;
    - the lifecycle handlers [StartService] and [StopService] send a request
      and poll the service status every 250 ms until the target state or a
      30 s timeout;
    - the configuration handlers [create] and [config] build one request
      from the options, send it, then send the description and the
      delayed-auto-start flag as separate, non-fatal requests;
    - the query handlers render the status with fixed strings.
    Every handler opens the SCM and a service handle, and closes them on
    every exit path.

    ** Files and what they model
    - [Prelude] (this file): notations ([scc_scope]: [⌊z⌋₃₂], [⌊z⌋₆₄] for
      DWORD/ULONGLONG wrap-around, [=ₛ?] for string equality), the state
      monad [St] used with stdpp's [x ← m; k] notation, the fuel loop
      [loop_fuel] for the [while (true)] loops, [std::string] helpers
      ([char0] for [s[0]], [substr1], [remove_char]) and shared lemmas,
      tactics and the hint databases [scc] and [scc_rw].
    - [ArgParse]: [ParseArgs] (lines 120-141) as [parse_tokens] over the
      token list, into a [gmap string string], with lemmas on the value of
      each key (last occurrence wins, an option followed by an option or
      by nothing gets the empty value), the key set, and the shape of the
      values; the claims about the parser are stated on whole command
      lines in [Session].
    - [Encoders]: the constants of winsvc.h ([Win]), the start-type,
      service-type and error-control chains of [CreateService] and
      [ConfigService] (each with its own default, as in the source), and the
      renderers [GetServiceStateString], [GetServiceTypeString],
      [GetServiceStartTypeString], with lemmas on the fallbacks, the type
      invariant of the spec, the [interact] rejection and the
      [delayed-auto] divergence between [create] and [config].  C24, C25:
      the ["UNKNOWN"] cases of the renderers.
    - [Depend]: the [find]/[replace] loop of lines 364-377 with fuel,
      [std::string::find], [c_str()].  C6-C8: the loop terminates and
      equals a [map] (fuel [length + 1] suffices: each iteration consumes a
      position), the spec's decoding inverts it, and the SCM's reading stops
      at the first empty name.
    - [FailureActions]: [std::stoi] (MSVC: 32-bit [long]), the reset
      period, the split/trim of [/actions] and the [size_t] loop of lines
      994-1023 with fuel [length + 1].  C9-C15: pairs in order, a trailing
      token ignored, the empty-vector undefined behaviour of
      [pairs.size() - 1], the [int] overflow of [stoi(..) * 1000], the reset
      period as a DWORD.
    - [Registry]: the SCM interface.  The SCM is Windows, not code of the
      repository: a typed event family [scmE] (one constructor per call the
      program makes, failing calls return [Err code] instead of setting
      [GetLastError]) and a class [Registry W] answering calls on a state
      [W].  A command runs on a [machine]: the registry state, a mocked
      millisecond clock (only [Sleep] advances it; SCM calls take no time)
      and the trace of calls with their replies and printed lines.  A
      scripted instance ([Registry.Scripted]) is the simulated registry of
      the spec's tests.
    - [Lifecycle]: [StartService] (521-584) and [StopService] (593-674),
      their shared loop [poll_body]/[wait_for_state].  C1-C5, for every SCM:
      the loop ends within [poll_fuel = 122] iterations (at the 122nd query
      the elapsed time is [121 * 250 = 30250 > 30000]), so the fuel is never
      the reason it stops, and more fuel changes nothing; a start that never
      runs times out after exactly 122 queries; success after [n + 1]
      queries; [stop] on a stopped service sends no control request.  The
      tick counter is read modulo [2^64] and the elapsed time is the
      unsigned difference, so the results hold across its wrap-around.

    - [Config]: [CreateService] (299-455) and [ConfigService] (724-891)
      over [Registry]: the parameter checks, the fields built by the
      encoders ([create_request], [change_request]), the create/change
      request, the non-fatal [ChangeServiceConfig2A] follow-ups
      ([secondary_updates]), the output lines and the handle closing.  The
      uncaught [std::out_of_range] of [args.at("type")] (line 845) ends the
      process: the result [None].  C26-C30: [create] without its required
      options or with [interact] alone makes no SCM call; once the service
      is created, [create] succeeds whatever the follow-ups answer and never
      deletes it (no two-phase commit); [config] without [/type] aborts
      after two calls with both handles open; otherwise its result is that
      of the change request.

    - [WinScm]: a reference SCM (not repository code): services by name,
      open handles with the access they were granted, the access right
      each call needs, buffer sizes for the sized queries (each sized call
      writes the size the data takes to [pcbBytesNeeded], on success as on
      [ERROR_INSUFFICIENT_BUFFER], as the SCM of Windows and ReactOS does),
      pending states completing once observed.  Each call has a step lemma ([status_run],
      [create_run], ...) and the tactic [win_call] runs a handler on an
      arbitrary world of it.  Witnesses run on it, and C35 and the
      [Session] claims are proved for every world of it.
    - [Query]: [QueryService] (212-290), [QueryServiceDescription]
      (464-512) with the probe-then-fill protocol ([Registry.probe_size]),
      [DeleteService] (683-714).  C31-C33: the six report lines with
      "(none)"; a service without description prints "(no description)";
      a description is printed.
    - [Failure]: [SetServiceFailureActions] (902-1093) with the output of
      its parsing ([actions_loopM], shown to compute
      [FailureActions.actions_loop]), [commit] and [verify_readback].
      C34: the one change request carries exactly the parsed actions and
      decides the result.  C35: on the reference SCM the read-back with a
      buffer of one [SERVICE_FAILURE_ACTIONSA] always fails once an action
      is set.
    - [Main]: [main] (1104-1185): argc checks, dispatch, exit codes.
    - [Handles]: a Hoare logic for the state monad over traces
      ([tr_spec], rules for bind, call, emit, loops; the tactic [vc] runs
      a program symbolically) and the stack reading [hstack] of handle
      events.  C37: every run of [main] that returns leaves the stack of
      open handles as it found it (section 5 of the spec).
    - [StateMachine]: the controller of section 4.4 of the spec as a
      labelled step relation [lc_step] and its runs [lc_steps]; [labels]
      reads a trace as its labels.  C39, C40: every trace of [start] and
      [stop], for every SCM, is a run from [Idle] ending in a terminal
      state, [Settled] exactly when the command succeeds.  The loop's fuel
      is never the reason it stops ([Lifecycle.wait_total_from]).
    - [Conformance]: [main] against the command table of the spec
      (section 6, [cli_table]).  C36: with its arguments present, a
      command runs exactly its handler on the argument positions of the
      table, and exits with 0 on success, 1 on failure; C21: missing
      arguments and unknown commands exit with 1 after their message (and
      the usage text), without any SCM call.
    - [Session]: command lines run one after the other ([session]: each a
      fresh process, the SCM persisting) on the reference SCM.  C16, C17,
      C20: round trips, what [create] or [config] sent is what [query]
      reports and the description of [create] is what [qdescription]
      prints; C18: [query] after [delete] fails; C19: [stop] brings a
      running service to the stopped state one poll later; C22: a second
      [create] of the same name fails and changes nothing; C23: [/start
      bogus] is reported as demand start; C38: [qdescription] of a service
      created without a description prints ["(no description)"].  The
      byte-for-byte round trip C16 is stated for 7-bit ASCII strings
      ([ascii7]), where the code-page conversions are the identity.

    ** Not modelled, and why
    [StringToWString]/[WStringToString] (UTF-8/UTF-16 conversion by the
    Windows API; the strings of the configuration are taken as converted,
    which is exact on 7-bit ASCII strings, the domain of C16),
    and the text of [GetLastErrorAsString] (an error code is recorded
    instead: [FormatMessageA] renders it from a system table).  [PrintUsage]
    is modelled as its twelve output lines ([Registry.usage_lines]).  The SCM
    itself is Windows: only its interface and a reference model are given.

    ** Bounds and fuel
    The poll loop has fuel [poll_fuel = 122], proved never to run out
    (C1); the [find]/[replace] loop and the action loop have fuel
    [length + 1], proved enough (C6, C12).  DWORD and ULONGLONG values are
    [Z] reduced modulo [2^32] and [2^64] where the source converts.

    ** Plan of the next steps
    [failure] run end to end on the reference SCM (the actions stored,
    the read-back warning), and the reference SCM's handle table shown
    unchanged by every command line (the counterpart of C37 on the
    world). *)

From Stdlib Require Import ZArith Lia String Ascii DecimalString.
From stdpp Require Import base list gmap strings.

(** ** Scope and notations of the development *)

Declare Scope scc_scope.
Delimit Scope scc_scope with scc.

(** Machine widths.  A [DWORD] is an unsigned 32-bit value, a [ULONGLONG]
    an unsigned 64-bit value; [int] is the signed 32-bit type of MSVC. *)
Definition to_dword (z : Z) : Z := (z mod 2 ^ 32)%Z.
Definition to_u64 (z : Z) : Z := (z mod 2 ^ 64)%Z.
Definition int32_fits (z : Z) : bool := (- 2 ^ 31 <=? z)%Z && (z <? 2 ^ 31)%Z.

Notation "⌊ z ⌋₃₂" := (to_dword z) (at level 0, format "⌊ z ⌋₃₂") : scc_scope.
Notation "⌊ z ⌋₆₄" := (to_u64 z) (at level 0, format "⌊ z ⌋₆₄") : scc_scope.
Notation "s =ₛ? t" := (String.eqb s t) (at level 70, no associativity) : scc_scope.

Open Scope scc_scope.

(** ** Characters and strings as [std::string] handles them *)

Definition NUL : ascii := Ascii.zero.

(** The double-quote character. *)
Definition QUOTE : ascii := ascii_of_nat 34.

(** [s[0]] on a [std::string] (or [argv[i][0]] on a C string): the first
    character, and the terminating NUL for the empty string. *)
Definition char0 (s : string) : ascii :=
  match s with EmptyString => NUL | String c _ => c end.

(** [s.substr(1)], only ever applied to a non-empty string. *)
Definition substr1 (s : string) : string :=
  match s with EmptyString => EmptyString | String _ t => t end.

(** [s.erase(std::remove(s.begin(), s.end(), c), s.end())]. *)
Fixpoint remove_char (c : ascii) (s : string) : string :=
  match s with
  | EmptyString => EmptyString
  | String x t => if Ascii.eqb x c then remove_char c t else String x (remove_char c t)
  end.

(** Membership of a character in a string. *)
Fixpoint str_has (c : ascii) (s : string) : bool :=
  match s with
  | EmptyString => false
  | String x t => Ascii.eqb x c || str_has c t
  end.

(** [std::cout << n] for an unsigned value, and for an [int]. *)
Definition dec_string (z : Z) : string := NilEmpty.string_of_uint (N.to_uint (Z.to_N z)).
Definition int_string (z : Z) : string :=
  if (z <? 0)%Z then String "-" (dec_string (- z)) else dec_string z.

(** A 7-bit ASCII string.  The strings of the model are the bytes of the
    program's narrow strings; the SCM converts the ANSI strings of
    [CreateServiceA] to UTF-16 and [WStringToString] (lines 79-87) converts
    them back to UTF-8.  Both conversions are the identity exactly on such
    strings, which is where a byte-for-byte round trip holds. *)
Definition ascii7 (s : string) : bool :=
  forallb (λ c, nat_of_ascii c <? 128)%nat (list_ascii_of_string s).

(** ** A state monad, with stdpp's [x ← m; k] and [m ;; k] notations *)

Definition St (S A : Type) : Type := S → A * S.

#[export] Instance St_ret {S} : MRet (St S) := λ A a s, (a, s).
#[export] Instance St_bind {S} : MBind (St S) :=
  λ A B f m s, let '(a, s') := m s in f a s'.

Definition st_get {S} : St S S := λ s, (s, s).
Definition st_put {S} (s : S) : St S unit := λ _, (tt, s).

(** Bounded iteration: [loop_fuel] models a [while (true)] loop whose body
    returns [inl] to go on and [inr] to leave. *)
Fixpoint loop_fuel {S A B} (fuel : nat) (dflt : B) (body : A → St S (A + B)) (a : A) : St S B :=
  match fuel with
  | O => mret dflt
  | S n => r ← body a; match r with inl a' => loop_fuel n dflt body a' | inr b => mret b end
  end.

(** ** Generic lemmas *)

Lemma loop_fuel_S {St0 A B} n (dflt : B) (body : A → St St0 (A + B)) a s :
  loop_fuel (S n) dflt body a s =
  let '(r, s') := body a s in match r with inl a' => loop_fuel n dflt body a' s' | inr b => (b, s') end.
Proof. simpl. unfold mbind, St_bind. by destruct (body a s) as [[] ?]. Qed.

Lemma bind_ret_l {S A B} (a : A) (f : A → St S B) (s : S) :
  (mret a ≫= f) s = f a s.
Proof. reflexivity. Qed.

Lemma bind_assoc {S A B C} (m : St S A) (f : A → St S B) (g : B → St S C) (s : S) :
  ((m ≫= f) ≫= g) s = (m ≫= (λ a, f a ≫= g)) s.
Proof. unfold mbind, St_bind. destruct (m s). reflexivity. Qed.

Lemma bind_run {S A B} (m : St S A) (f : A → St S B) (s : S) :
  (m ≫= f) s = let '(a, s') := m s in f a s'.
Proof. reflexivity. Qed.

Lemma remove_char_not_has c s : str_has c (remove_char c s) = false.
Proof.
  induction s as [|x t IH]; simpl; [done|].
  destruct (Ascii.eqb_spec x c); simpl; [done|].
  rewrite IH. destruct (Ascii.eqb_spec x c); done.
Qed.

Lemma remove_char_id c s : str_has c s = false → remove_char c s = s.
Proof.
  induction s as [|x t IH]; simpl; [done|].
  destruct (Ascii.eqb_spec x c); simpl; [done|]. intros H. by rewrite IH.
Qed.

Lemma str_has_app c s1 s2 : str_has c (s1 ++ s2)%string = str_has c s1 || str_has c s2.
Proof. induction s1 as [|x t IH]; simpl; [done|]. by rewrite IH, orb_assoc. Qed.

(** A string outside a list differs from every member of it. *)
Lemma streq_notin (s t : string) (l : list string) : s ∉ l → t ∈ l → String.eqb s t = false.
Proof. intros Hs Ht. apply String.eqb_neq. intros ->. done. Qed.

(** The unsigned 64-bit difference of two readings of a wrapping counter is
    the true elapsed amount, whatever the counter's wrap-around. *)
Lemma u64_sub_wrap (a b : Z) :
  to_u64 (to_u64 a - to_u64 b) = to_u64 (a - b).
Proof. unfold to_u64. by rewrite <- Zminus_mod. Qed.

Lemma u64_small (z : Z) : (0 <= z < 2 ^ 64)%Z → to_u64 z = z.
Proof. intros H. unfold to_u64. by apply Z.mod_small. Qed.

Lemma dword_small (z : Z) : (0 <= z < 2 ^ 32)%Z → to_dword z = z.
Proof. intros H. unfold to_dword. by apply Z.mod_small. Qed.

Lemma dword_range (z : Z) : (0 <= to_dword z < 2 ^ 32)%Z.
Proof. unfold to_dword. apply Z.mod_pos_bound. lia. Qed.

Lemma int32_fits_iff (z : Z) : int32_fits z = true ↔ (- 2 ^ 31 <= z < 2 ^ 31)%Z.
Proof. unfold int32_fits. rewrite andb_true_iff, Z.leb_le, Z.ltb_lt. done. Qed.

(** Strong induction on lists, for loops that consume two elements at a
    time. *)
Lemma list_strong_ind {A} (P : list A → Prop) :
  P [] → (∀ x l, (∀ l', length l' ≤ length l → P l') → P (x :: l)) → ∀ l, P l.
Proof.
  intros Hnil Hcons l. remember (length l) as n eqn:Hn.
  revert l Hn. induction n as [n IH] using lt_wf_ind. intros [|x l] Hn; [done|].
  apply Hcons. intros l' Hl'. apply (IH (length l')); [simpl in Hn; lia|done].
Qed.

(** ** Automation *)

Create HintDb scc discriminated.
Create Rewrite HintDb scc_rw.
#[export] Hint Rewrite @bind_ret_l @bind_assoc : scc_rw.
#[export] Hint Resolve dword_range remove_char_not_has : scc.

(** Case analysis on every string comparison of the goal. *)
Ltac case_streq :=
  repeat match goal with
  | |- context [String.eqb ?a ?b] => destruct (String.eqb_spec a b); subst
  | |- context [Ascii.eqb ?a ?b] => destruct (Ascii.eqb_spec a b); subst
  end.

(** Run one step of a monadic program: expose the first action. *)
Ltac st_step := rewrite ?bind_run; simpl.
