(* ===== verification/ArgParse.v ===== *)
(** * ArgParse: the command-line parser [ParseArgs]

    [ParseArgs] (src/main-scclone.cpp, lines 120-141) scans [argv] from
    [startIdx]; a token whose first character is ['/'] starts a key (the
    rest of the token) and takes the next token as its value unless that one
    starts with ['/'] too.  The result is a [std::map<string,string>],
    modelled as a [gmap string string]; [args[name] = value] is [insert], so
    the last occurrence of a key wins. *)

From Stdlib Require Import ZArith Lia String Ascii.
From stdpp Require Import base list gmap strings.
From S2P Require Import Prelude.

Module ArgParse.

(** [arg[0] == '/'] (and [argv[i + 1][0] != '/'] negated). *)
Definition is_option (t : string) : bool := Ascii.eqb (char0 t) "/"%char.

(** The body of the [for] loop, one iteration per option token; a value
    token consumed by an option is skipped ([i++]). *)
Fixpoint parse_tokens (toks : list string) (args : gmap string string) : gmap string string :=
  match toks with
  | [] => args
  | t :: rest =>
      if is_option t then
        match rest with
        | v :: rest' =>
            if is_option v then parse_tokens rest (<[substr1 t := ""%string]> args)
            else parse_tokens rest' (<[substr1 t := v]> args)
        | [] => <[substr1 t := ""%string]> args
        end
      else parse_tokens rest args
  end.

(** [ParseArgs(argc, argv, startIdx)], with [argv] as the list of its
    [argc] strings. *)
Definition ParseArgs (argv : list string) (startIdx : nat) : gmap string string :=
  parse_tokens (drop startIdx argv) ∅.

(** The option names of a token list, in order. *)
Definition option_names (toks : list string) : list string :=
  substr1 <$> filter (λ t, is_option t = true) toks.

(** A value the parser may store: the empty string, or a token of the
    input that is not an option. *)
Definition value_ok (toks : list string) (v : string) : Prop :=
  v = ""%string ∨ (v ∈ toks ∧ is_option v = false).

(** ** Lemmas *)

(** One equation per branch of the loop body. *)
Lemma parse_nonopt t rest args :
  is_option t = false → parse_tokens (t :: rest) args = parse_tokens rest args.
Proof. intros H. simpl. by rewrite H. Qed.

Lemma parse_opt_last t args :
  is_option t = true → parse_tokens [t] args = <[substr1 t := ""%string]> args.
Proof. intros H. simpl. by rewrite H. Qed.

Lemma parse_opt_opt t v rest args :
  is_option t = true → is_option v = true →
  parse_tokens (t :: v :: rest) args = parse_tokens (v :: rest) (<[substr1 t := ""%string]> args).
Proof. intros H1 H2. cbn [parse_tokens]. by rewrite H1, H2. Qed.

Lemma parse_opt_val t v rest args :
  is_option t = true → is_option v = false →
  parse_tokens (t :: v :: rest) args = parse_tokens rest (<[substr1 t := v]> args).
Proof. intros H1 H2. cbn [parse_tokens]. by rewrite H1, H2. Qed.

(** Case analysis on the first two tokens, leaving one goal per branch. *)
Ltac parse_cases x toks :=
  let Hx := fresh "Hx" in let Hv := fresh "Hv" in
  destruct (is_option x) eqn:Hx;
  [ destruct toks as [|?v toks];
    [ rewrite ?parse_opt_last by done
    | destruct (is_option v) eqn:Hv;
      [ rewrite ?parse_opt_opt by done | rewrite ?parse_opt_val by done ] ]
  | rewrite ?parse_nonopt by done ].

Lemma parse_tokens_app_option pre t post args :
  is_option t = true →
  parse_tokens (pre ++ t :: post) args = parse_tokens (t :: post) (parse_tokens pre args).
Proof.
  intros Ht. revert args. induction pre as [|x pre IH] using list_strong_ind; [done|].
  intros args. simpl app. parse_cases x pre; cbn [app];
    rewrite ?parse_opt_opt, ?parse_opt_val, ?parse_nonopt by done.
  - done.
  - by apply (IH (v :: pre)).
  - apply IH. simpl. lia.
  - rewrite (parse_nonopt x pre) by done. by apply IH.
Qed.

Lemma parse_tokens_other toks args k :
  (∀ t, t ∈ toks → is_option t = true → substr1 t ≠ k) →
  parse_tokens toks args !! k = args !! k.
Proof.
  revert args. induction toks as [|x toks IH] using list_strong_ind; [done|].
  intros args Hk.
  assert (Hk' : ∀ t, t ∈ toks → is_option t = true → substr1 t ≠ k)
    by (intros t Ht; apply Hk; set_solver).
  parse_cases x toks.
  - apply lookup_insert_ne. apply Hk; [set_solver|done].
  - rewrite IH by done. apply lookup_insert_ne. apply Hk; [set_solver|done].
  - rewrite IH by (simpl; lia || (intros t Ht; apply Hk'; set_solver)).
    apply lookup_insert_ne. apply Hk; [set_solver|done].
  - by apply IH.
Qed.

Lemma option_names_cons t toks :
  option_names (t :: toks) = if is_option t then substr1 t :: option_names toks else option_names toks.
Proof.
  unfold option_names. rewrite filter_cons.
  destruct (is_option t); case_decide; done.
Qed.

Lemma parse_tokens_dom toks args :
  dom (parse_tokens toks args) = dom args ∪ list_to_set (option_names toks).
Proof.
  revert args. induction toks as [|x toks IH] using list_strong_ind.
  { intros args. simpl. set_solver. }
  intros args. rewrite option_names_cons.
  parse_cases x toks; rewrite ?IH by (simpl; lia);
    rewrite ?option_names_cons, ?Hv; simpl; rewrite ?dom_insert_L; set_solver.
Qed.

Lemma parse_tokens_values toks0 toks args :
  toks ⊆ toks0 → map_Forall (λ _ v, value_ok toks0 v) args →
  map_Forall (λ _ v, value_ok toks0 v) (parse_tokens toks args).
Proof.
  revert args. induction toks as [|x toks IH] using list_strong_ind; [done|].
  intros args Hsub Hargs. parse_cases x toks.
  - apply map_Forall_insert_2; [by left|done].
  - apply IH; [done|set_solver|]. apply map_Forall_insert_2; [by left|done].
  - apply IH; [simpl; lia|set_solver|]. apply map_Forall_insert_2; [|done].
    right. split; [set_solver|done].
  - apply IH; [done|set_solver|done].
Qed.

(** ** Properties of [ParseArgs] *)

(** The value an option token receives: the next token when there is one
    and it is not an option, and the empty string otherwise. *)
Definition next_value (post : list string) : string :=
  match post with
  | v :: _ => if is_option v then ""%string else v
  | [] => ""%string
  end.

(** The value of a key: for the last option token [/k] of the scanned
    arguments, [ParseArgs] maps [k] to the token after it when that token is
    not an option, and to the empty string otherwise; so the last occurrence
    of a key wins, and a bare [/] is accepted as the key [""]. *)
Theorem ParseArgs_lookup argv i pre k post :
  drop i argv = pre ++ String "/" k :: post →
  (∀ t, t ∈ post → is_option t = true → substr1 t ≠ k) →
  ParseArgs argv i !! k = Some (next_value post).
Proof.
  intros Hsplit Hlast. unfold ParseArgs. rewrite Hsplit.
  rewrite parse_tokens_app_option by done.
  destruct post as [|v post]; simpl next_value.
  - rewrite parse_opt_last by done. apply lookup_insert_eq.
  - destruct (is_option v) eqn:Hv.
    + rewrite parse_opt_opt by done. rewrite parse_tokens_other by done.
      apply lookup_insert_eq.
    + rewrite parse_opt_val by done.
      rewrite parse_tokens_other by (intros t Ht; apply Hlast; set_solver).
      apply lookup_insert_eq.
Qed.

(** C1 at [scclone create /start auto /start demand /type /tag]: the second
    [/start] wins and [/type], followed by an option, is empty. *)
Lemma ParseArgs_lookup_witness :
  ParseArgs ["scclone"; "create"; "/start"; "auto"; "/start"; "demand"; "/type"; "/tag"]%string 2
    !! "start"%string = Some "demand"%string.
Proof.
  apply (ParseArgs_lookup _ 2 ["/start"; "auto"]%string "start" ["demand"; "/type"; "/tag"]%string).
  - reflexivity.
  - apply (proj1 (Forall_forall (λ t, is_option t = true → substr1 t ≠ "start"%string) _)).
    repeat constructor; vm_compute; congruence.
Defined.

(** The keys of the map are exactly the names of the option tokens
    from [startIdx] on; every other token is a value or is dropped. *)
Theorem ParseArgs_dom argv i :
  dom (ParseArgs argv i) = list_to_set (option_names (drop i argv)).
Proof. unfold ParseArgs. rewrite parse_tokens_dom. set_solver. Qed.

(** Every stored value is the empty string or a non-option token of
    the command line: a token starting with ['/'] is never a value. *)
Theorem ParseArgs_values argv i :
  map_Forall (λ _ v, value_ok (drop i argv) v) (ParseArgs argv i).
Proof. unfold ParseArgs. apply parse_tokens_values; [done|]. apply map_Forall_empty. Qed.

End ArgParse.
