(* ===== verification/Encoders.v ===== *)
(** * Encoders: the enumerated fields of a service configuration

    The string-to-constant tables of [CreateService] and [ConfigService]
    (src/main-scclone.cpp, lines 310-347 and 760-792) and the constant-to-
    string renderers used by [QueryService] (lines 149-200).  Constants are
    the values of the Windows SDK (winsvc.h / winnt.h) and are kept as
    32-bit [DWORD]s in [Z]. *)

From Stdlib Require Import ZArith Lia String Ascii.
From stdpp Require Import base list gmap strings.
From S2P Require Import Prelude.

Open Scope Z_scope.

Module Win.
Definition SERVICE_KERNEL_DRIVER : Z := 1.
Definition SERVICE_FILE_SYSTEM_DRIVER : Z := 2.
Definition SERVICE_RECOGNIZER_DRIVER : Z := 8.
Definition SERVICE_WIN32_OWN_PROCESS : Z := 16.
Definition SERVICE_WIN32_SHARE_PROCESS : Z := 32.
Definition SERVICE_INTERACTIVE_PROCESS : Z := 256.

Definition SERVICE_BOOT_START : Z := 0.
Definition SERVICE_SYSTEM_START : Z := 1.
Definition SERVICE_AUTO_START : Z := 2.
Definition SERVICE_DEMAND_START : Z := 3.
Definition SERVICE_DISABLED : Z := 4.

Definition SERVICE_ERROR_IGNORE : Z := 0.
Definition SERVICE_ERROR_NORMAL : Z := 1.
Definition SERVICE_ERROR_SEVERE : Z := 2.
Definition SERVICE_ERROR_CRITICAL : Z := 3.

Definition SERVICE_NO_CHANGE : Z := 4294967295.

Definition SERVICE_STOPPED : Z := 1.
Definition SERVICE_START_PENDING : Z := 2.
Definition SERVICE_STOP_PENDING : Z := 3.
Definition SERVICE_RUNNING : Z := 4.
Definition SERVICE_CONTINUE_PENDING : Z := 5.
Definition SERVICE_PAUSE_PENDING : Z := 6.
Definition SERVICE_PAUSED : Z := 7.
End Win.
Import Win.

Module Encoders.

(** ** Start type *)

(** [CreateService], lines 311-320: the default is demand start, an
    unrecognised value keeps it, and ["delayed-auto"] encodes as auto. *)
Definition CreateService_startType (args : gmap string string) : Z :=
  match args !! "start"%string with
  | Some start =>
      if start =ₛ? "boot" then SERVICE_BOOT_START
      else if start =ₛ? "system" then SERVICE_SYSTEM_START
      else if start =ₛ? "auto" then SERVICE_AUTO_START
      else if start =ₛ? "demand" then SERVICE_DEMAND_START
      else if start =ₛ? "disabled" then SERVICE_DISABLED
      else if start =ₛ? "delayed-auto" then SERVICE_AUTO_START
      else SERVICE_DEMAND_START
  | None => SERVICE_DEMAND_START
  end.

(** [ConfigService], lines 743 and 775-783: the default is
    [SERVICE_NO_CHANGE] and there is no ["delayed-auto"] case. *)
Definition ConfigService_startType (args : gmap string string) : Z :=
  match args !! "start"%string with
  | Some start =>
      if start =ₛ? "boot" then SERVICE_BOOT_START
      else if start =ₛ? "system" then SERVICE_SYSTEM_START
      else if start =ₛ? "auto" then SERVICE_AUTO_START
      else if start =ₛ? "demand" then SERVICE_DEMAND_START
      else if start =ₛ? "disabled" then SERVICE_DISABLED
      else SERVICE_NO_CHANGE
  | None => SERVICE_NO_CHANGE
  end.

(** Whether the follow-up delayed-auto-start request is sent (lines 439 and
    878): exactly when the [/start] value is ["delayed-auto"]. *)
Definition wants_delayed_auto (args : gmap string string) : bool :=
  match args !! "start"%string with
  | Some start => start =ₛ? "delayed-auto"
  | None => false
  end.

(** ** Service type *)

(** The table shared by both handlers; [None] when no entry matches. *)
Definition service_type_table (type : string) : option Z :=
  if type =ₛ? "own" then Some SERVICE_WIN32_OWN_PROCESS
  else if type =ₛ? "share" then Some SERVICE_WIN32_SHARE_PROCESS
  else if type =ₛ? "kernel" then Some SERVICE_KERNEL_DRIVER
  else if type =ₛ? "filesys" then Some SERVICE_FILE_SYSTEM_DRIVER
  else if type =ₛ? "rec" then Some (Z.lor SERVICE_FILE_SYSTEM_DRIVER SERVICE_RECOGNIZER_DRIVER)
  else if type =ₛ? "interact type=own" then
    Some (Z.lor SERVICE_INTERACTIVE_PROCESS SERVICE_WIN32_OWN_PROCESS)
  else if type =ₛ? "interact type=share" then
    Some (Z.lor SERVICE_INTERACTIVE_PROCESS SERVICE_WIN32_SHARE_PROCESS)
  else None.

(** [CreateService], lines 323-337: own process by default; the bare
    ["interact"] makes the handler print an error and return [false]
    ([inl tt]); any other unknown value keeps the default. *)
Definition CreateService_serviceType (args : gmap string string) : unit + Z :=
  match args !! "type"%string with
  | Some type =>
      match service_type_table type with
      | Some t => inr t
      | None => if type =ₛ? "interact" then inl tt else inr SERVICE_WIN32_OWN_PROCESS
      end
  | None => inr SERVICE_WIN32_OWN_PROCESS
  end.

(** [ConfigService], lines 742 and 761-772: no change by default, and no
    rejection of ["interact"]. *)
Definition ConfigService_serviceType (args : gmap string string) : Z :=
  match args !! "type"%string with
  | Some type => default SERVICE_NO_CHANGE (service_type_table type)
  | None => SERVICE_NO_CHANGE
  end.

(** ** Error control *)

(** Both handlers run the same chain from their own initial value: normal
    in [CreateService] (line 340), no change in [ConfigService] (line 744). *)
Definition errorControl_from (dflt : Z) (args : gmap string string) : Z :=
  match args !! "error"%string with
  | Some error =>
      if error =ₛ? "normal" then SERVICE_ERROR_NORMAL
      else if error =ₛ? "severe" then SERVICE_ERROR_SEVERE
      else if error =ₛ? "critical" then SERVICE_ERROR_CRITICAL
      else if error =ₛ? "ignore" then SERVICE_ERROR_IGNORE
      else dflt
  | None => dflt
  end.

Definition CreateService_errorControl := errorControl_from SERVICE_ERROR_NORMAL.
Definition ConfigService_errorControl := errorControl_from SERVICE_NO_CHANGE.

(** ** The type invariant of a service type *)

Definition has_flag (t flag : Z) : bool := negb (Z.land t flag =? 0).

(** The invariant of the spec (section 3): an interactive service is exactly
    one of own or share process, and driver flags exclude process flags. *)
Definition type_flags_wf (t : Z) : bool :=
  let drv := has_flag t SERVICE_KERNEL_DRIVER || has_flag t SERVICE_FILE_SYSTEM_DRIVER
             || has_flag t SERVICE_RECOGNIZER_DRIVER in
  let own := has_flag t SERVICE_WIN32_OWN_PROCESS in
  let share := has_flag t SERVICE_WIN32_SHARE_PROCESS in
  let inter := has_flag t SERVICE_INTERACTIVE_PROCESS in
  (negb inter || xorb own share) && negb (drv && (own || share || inter)).

(** ** Renderers used by [QueryService] *)

(** [GetServiceStateString], lines 149-160. *)
Definition GetServiceStateString (state : Z) : string :=
  if state =? SERVICE_STOPPED then "STOPPED"
  else if state =? SERVICE_START_PENDING then "START_PENDING"
  else if state =? SERVICE_STOP_PENDING then "STOP_PENDING"
  else if state =? SERVICE_RUNNING then "RUNNING"
  else if state =? SERVICE_CONTINUE_PENDING then "CONTINUE_PENDING"
  else if state =? SERVICE_PAUSE_PENDING then "PAUSE_PENDING"
  else if state =? SERVICE_PAUSED then "PAUSED"
  else "UNKNOWN".

(** [GetServiceStartTypeString], lines 191-200. *)
Definition GetServiceStartTypeString (startType : Z) : string :=
  if startType =? SERVICE_BOOT_START then "BOOT"
  else if startType =? SERVICE_SYSTEM_START then "SYSTEM"
  else if startType =? SERVICE_AUTO_START then "AUTO"
  else if startType =? SERVICE_DEMAND_START then "DEMAND"
  else if startType =? SERVICE_DISABLED then "DISABLED"
  else "UNKNOWN".

(** [result.pop_back()]. *)
Fixpoint pop_back (s : string) : string :=
  match s with
  | EmptyString | String _ EmptyString => EmptyString
  | String c t => String c (pop_back t)
  end.

(** [GetServiceTypeString], lines 169-183: one word and a space per flag,
    then the trailing space removed, or ["UNKNOWN"] when no flag is set. *)
Definition GetServiceTypeString (type : Z) : string :=
  let add (b : bool) (w : string) := if b then w else EmptyString in
  let result :=
    (add (has_flag type SERVICE_KERNEL_DRIVER) "KERNEL_DRIVER "
     ++ add (has_flag type SERVICE_FILE_SYSTEM_DRIVER) "FILE_SYSTEM_DRIVER "
     ++ add (has_flag type SERVICE_WIN32_OWN_PROCESS) "WIN32_OWN_PROCESS "
     ++ add (has_flag type SERVICE_WIN32_SHARE_PROCESS) "WIN32_SHARE_PROCESS "
     ++ add (has_flag type SERVICE_INTERACTIVE_PROCESS) "INTERACTIVE_PROCESS ")%string in
  match result with
  | EmptyString => "UNKNOWN"
  | _ => pop_back result
  end.

(** ** Lemmas *)

Lemma service_type_table_wf type t :
  service_type_table type = Some t → type_flags_wf t = true.
Proof. unfold service_type_table. case_streq; intros H; simplify_eq; reflexivity. Qed.

(** ** Properties *)

(** Every service type [CreateService] sends satisfies the type
    invariant: an interactive service is exactly one of own or share
    process, and no driver flag is combined with a process flag. *)
Theorem CreateService_serviceType_wf args t :
  CreateService_serviceType args = inr t → type_flags_wf t = true.
Proof.
  unfold CreateService_serviceType. intros H.
  destruct (args !! "type"%string) as [type|]; [|by simplify_eq].
  destruct (service_type_table type) as [t'|] eqn:Ht.
  - simplify_eq. by eapply service_type_table_wf.
  - destruct (type =ₛ? "interact"); by simplify_eq.
Qed.

Lemma CreateService_serviceType_wf_witness :
  type_flags_wf (Z.lor SERVICE_INTERACTIVE_PROCESS SERVICE_WIN32_SHARE_PROCESS) = true.
Proof.
  apply (CreateService_serviceType_wf {[ "type" := "interact type=share" ]}%string).
  reflexivity.
Defined.

(** [CreateService] rejects a service type exactly when the [/type]
    value is the bare ["interact"]. *)
Theorem CreateService_serviceType_rejects args :
  CreateService_serviceType args = inl tt ↔ args !! "type"%string = Some "interact"%string.
Proof.
  unfold CreateService_serviceType.
  destruct (args !! "type"%string) as [type|]; [|done].
  destruct (service_type_table type) as [t|] eqn:Ht.
  - split; intros H; by simplify_eq.
  - case_streq; split; intros H; by simplify_eq.
Qed.

(** An unrecognised [/start] value of [create] (not one of boot,
    system, auto, demand, disabled, delayed-auto) silently encodes as demand
    start, and sends no delayed-auto-start request. *)
Theorem CreateService_startType_fallback args start :
  args !! "start"%string = Some start →
  start ∉ ["boot"; "system"; "auto"; "demand"; "disabled"; "delayed-auto"]%string →
  CreateService_startType args = SERVICE_DEMAND_START ∧ wants_delayed_auto args = false.
Proof.
  intros Hs Hnot. unfold CreateService_startType, wants_delayed_auto. rewrite Hs.
  rewrite !(streq_notin start _ _ Hnot) by (apply list_elem_of_In; simpl; tauto). done.
Qed.

Lemma CreateService_startType_fallback_witness :
  CreateService_startType {[ "start" := "bogus" ]}%string = SERVICE_DEMAND_START
  ∧ wants_delayed_auto {[ "start" := "bogus" ]}%string = false.
Proof.
  apply (CreateService_startType_fallback _ "bogus"%string).
  - apply lookup_singleton_eq.
  - vm_compute. intros H. repeat (apply elem_of_cons in H as [H|H]; [discriminate|]).
    by apply elem_of_nil in H.
Defined.

(** ["delayed-auto"] is encoded differently by the two handlers: for
    [create] the primary start type is auto, for [config] it is
    [SERVICE_NO_CHANGE]; both send the delayed-auto-start request after. *)
Theorem delayed_auto_encoding args :
  args !! "start"%string = Some "delayed-auto"%string →
  CreateService_startType args = SERVICE_AUTO_START
  ∧ ConfigService_startType args = SERVICE_NO_CHANGE
  ∧ wants_delayed_auto args = true.
Proof.
  intros Hs. unfold CreateService_startType, ConfigService_startType, wants_delayed_auto.
  by rewrite Hs.
Qed.

Lemma delayed_auto_encoding_witness :
  let args := {[ "start" := "delayed-auto" ]}%string in
  CreateService_startType args = SERVICE_AUTO_START
  ∧ ConfigService_startType args = SERVICE_NO_CHANGE
  ∧ wants_delayed_auto args = true.
Proof. apply delayed_auto_encoding. apply lookup_singleton_eq. Defined.

(** The service type [config] sends is [SERVICE_NO_CHANGE] or a type
    that satisfies the type invariant. *)
Theorem ConfigService_serviceType_wf args :
  ConfigService_serviceType args = SERVICE_NO_CHANGE
  ∨ type_flags_wf (ConfigService_serviceType args) = true.
Proof.
  unfold ConfigService_serviceType.
  destruct (args !! "type"%string) as [type|]; [|by left].
  destruct (service_type_table type) as [t|] eqn:Ht; simpl; [|by left].
  right. by eapply service_type_table_wf.
Qed.

(** C24. [GetServiceTypeString] renders ["UNKNOWN"] exactly when none of the
    five flags it knows is set; the recogniser flag is never rendered. *)
Theorem GetServiceTypeString_unknown type :
  GetServiceTypeString type = "UNKNOWN"%string ↔
  (has_flag type SERVICE_KERNEL_DRIVER || has_flag type SERVICE_FILE_SYSTEM_DRIVER
   || has_flag type SERVICE_WIN32_OWN_PROCESS || has_flag type SERVICE_WIN32_SHARE_PROCESS
   || has_flag type SERVICE_INTERACTIVE_PROCESS) = false.
Proof.
  unfold GetServiceTypeString.
  destruct (has_flag type SERVICE_KERNEL_DRIVER), (has_flag type SERVICE_FILE_SYSTEM_DRIVER),
    (has_flag type SERVICE_WIN32_OWN_PROCESS), (has_flag type SERVICE_WIN32_SHARE_PROCESS),
    (has_flag type SERVICE_INTERACTIVE_PROCESS); vm_compute; split; congruence.
Qed.

(** C25. [GetServiceStateString] names the seven service states and
    renders every other value as ["UNKNOWN"]. *)
Theorem GetServiceStateString_unknown state :
  GetServiceStateString state = "UNKNOWN"%string ↔ ¬ (1 <= state <= 7).
Proof.
  unfold GetServiceStateString, SERVICE_STOPPED, SERVICE_START_PENDING, SERVICE_STOP_PENDING,
    SERVICE_RUNNING, SERVICE_CONTINUE_PENDING, SERVICE_PAUSE_PENDING, SERVICE_PAUSED.
  repeat match goal with
  | |- context [state =? ?n] =>
      destruct (Z.eqb_spec state n); [subst; split; [discriminate|intros H; exfalso; lia]|]
  end.
  split; [intros _; lia|done].
Qed.

End Encoders.
