(* ===== verification/Depend.v ===== *)
(** * Depend: the dependency list of [create] and [config]

    The [/depend] value names the services a service depends on, separated
    by ['/'].  [CreateService] (src/main-scclone.cpp, lines 364-377) and
    [ConfigService] (lines 805-816) turn it into the registry's
    double-NUL-terminated multi-string: a [find]/[replace] loop overwrites
    every ['/'] with NUL, [push_back] adds one NUL, and [c_str()] the final
    one.  Strings are [list ascii], the bytes of the [std::string]. *)

From Stdlib Require Import String Ascii Lia.
From stdpp Require Import base list strings.
From S2P Require Import Prelude.

Module Depend.

(** [std::string::find(c, pos)]: the first index at or after [pos] that
    holds [c]. *)
Fixpoint find_aux (c : ascii) (l : list ascii) (i : nat) : option nat :=
  match l with
  | [] => None
  | x :: l' => if Ascii.eqb x c then Some i else find_aux c l' (S i)
  end.

Definition str_find (c : ascii) (l : list ascii) (pos : nat) : option nat :=
  find_aux c (drop pos l) pos.

(** [while ((pos = s.find('/', pos)) != npos) { s.replace(pos, 1, 1, '\0'); pos++; }],
    with fuel; [None] when the fuel runs out. *)
Fixpoint replace_slashes (fuel : nat) (l : list ascii) (pos : nat) : option (list ascii) :=
  match fuel with
  | O => None
  | S f =>
      match str_find "/"%char l pos with
      | None => Some l
      | Some p => replace_slashes f (<[p := NUL]> l) (S p)
      end
  end.

(** [s.c_str()]: the bytes followed by the terminating NUL. *)
Definition c_str (l : list ascii) : list ascii := l ++ [NUL].

(** The buffer passed as [lpDependencies]: the loop runs with one unit of
    fuel per byte and one more, which [depend_buffer_total] shows is
    enough. *)
Definition depend_buffer (depend : string) : option (list ascii) :=
  let l := list_ascii_of_string depend in
  (λ l', c_str (l' ++ [NUL])) <$> replace_slashes (S (length l)) l 0.

(** ** Reference encoding and decoding *)

Definition slash_to_nul (c : ascii) : ascii := if Ascii.eqb c "/" then NUL else c.

(** The names joined by ['/'], as the user types them. *)
Fixpoint join_slash (ns : list (list ascii)) : list ascii :=
  match ns with
  | [] => []
  | [n] => n
  | n :: ns' => n ++ "/"%char :: join_slash ns'
  end.

(** Splitting a buffer at every NUL. *)
Fixpoint split_nul (l : list ascii) : list (list ascii) :=
  match l with
  | [] => [[]]
  | x :: l' =>
      if Ascii.eqb x NUL then [] :: split_nul l'
      else match split_nul l' with
           | c :: cs => (x :: c) :: cs
           | [] => [[x]]
           end
  end.

(** Dropping the trailing empty entries. *)
Fixpoint strip_trailing (cs : list (list ascii)) : list (list ascii) :=
  match cs with
  | [] => []
  | c :: cs' =>
      match strip_trailing cs' with
      | [] => match c with [] => [] | _ => [c] end
      | r => c :: r
      end
  end.

(** The decoding of the spec (section 4.2). *)
Definition depend_decode (buf : list ascii) : list (list ascii) := strip_trailing (split_nul buf).

(** How the service manager reads a multi-string: names up to the first
    empty one. *)
Fixpoint take_until_empty (cs : list (list ascii)) : list (list ascii) :=
  match cs with
  | [] | [] :: _ => []
  | c :: cs' => c :: take_until_empty cs'
  end.

Definition multi_sz_names (buf : list ascii) : list (list ascii) := take_until_empty (split_nul buf).

(** A dependency name as the round trip needs it. *)
Definition plain_name (n : list ascii) : Prop := ("/"%char ∉ n) ∧ (NUL ∉ n).

(** ** Lemmas *)

Lemma find_aux_none c l i : find_aux c l i = None → c ∉ l.
Proof.
  revert i. induction l as [|x l IH]; simpl; intros i H; [apply not_elem_of_nil|].
  destruct (Ascii.eqb_spec x c); [done|]. apply not_elem_of_cons. split; [done|]. by eapply IH.
Qed.

Lemma find_aux_some c l i p :
  find_aux c l i = Some p → ∃ xs ys, l = xs ++ (c :: ys) ∧ (c ∉ xs) ∧ p = i + length xs.
Proof.
  revert i. induction l as [|x l IH]; simpl; intros i H; [done|].
  destruct (Ascii.eqb_spec x c) as [->|Hne].
  - simplify_eq. exists [], l. split_and!; [done|apply not_elem_of_nil|simpl; lia].
  - destruct (IH _ H) as (xs & ys & -> & Hxs & ->). exists (x :: xs), ys.
    split_and!; [done| |simpl; lia]. apply not_elem_of_cons. done.
Qed.

Lemma map_slash_to_nul_id l : "/"%char ∉ l → map slash_to_nul l = l.
Proof.
  induction l as [|x l IH]; simpl; intros H; [done|].
  apply not_elem_of_cons in H as [Hx Hl]. rewrite IH by done. unfold slash_to_nul.
  destruct (Ascii.eqb_spec x "/"); [done|]. done.
Qed.

(** The loop invariant: the bytes before [pos] are already rewritten, the
    rest is rewritten by the remaining iterations. *)
Lemma replace_slashes_spec fuel pre rest :
  length rest < fuel →
  replace_slashes fuel (pre ++ rest) (length pre) = Some (pre ++ map slash_to_nul rest).
Proof.
  revert pre rest. induction fuel as [|f IH]; intros pre rest Hlen; [lia|].
  simpl. unfold str_find. rewrite drop_app_length.
  destruct (find_aux "/" rest (length pre)) as [p|] eqn:Hfind.
  - destruct (find_aux_some _ _ _ _ Hfind) as (xs & ys & -> & Hxs & ->).
    assert (Hins : <[length pre + length xs := NUL]> (pre ++ xs ++ "/"%char :: ys)
                   = (pre ++ xs ++ [NUL]) ++ ys).
    { replace (length pre + length xs) with (length (pre ++ xs) + 0) by (rewrite length_app; lia).
      rewrite app_assoc, insert_app_r. simpl. by rewrite <- !app_assoc. }
    rewrite Hins.
    replace (S (length pre + length xs)) with (length (pre ++ xs ++ [NUL]))
      by (rewrite !length_app; simpl; lia).
    rewrite IH by (rewrite length_app in Hlen; simpl in Hlen; lia).
    rewrite map_app, (map_slash_to_nul_id xs) by done. simpl.
    by rewrite <- !app_assoc.
  - apply find_aux_none in Hfind. by rewrite map_slash_to_nul_id.
Qed.

Lemma replace_slashes_total l : replace_slashes (S (length l)) l 0 = Some (map slash_to_nul l).
Proof. apply (replace_slashes_spec _ [] l). lia. Qed.

Lemma split_nul_name n rest : NUL ∉ n → split_nul (n ++ NUL :: rest) = n :: split_nul rest.
Proof.
  induction n as [|x n IH]; simpl; intros H; [done|].
  apply not_elem_of_cons in H as [Hx Hn]. rewrite IH by done.
  destruct (Ascii.eqb_spec x NUL); done.
Qed.


Lemma split_nul_join ns :
  ns ≠ [] → Forall plain_name ns →
  split_nul (map slash_to_nul (join_slash ns) ++ [NUL; NUL]) = ns ++ [[]; []].
Proof.
  induction ns as [|n ns IH]; intros Hne Hall; [done|].
  apply Forall_cons in Hall as [[Hs Hn] Hall].
  destruct ns as [|n' ns'].
  - simpl. rewrite map_slash_to_nul_id by done. by rewrite split_nul_name.
  - change (join_slash (n :: n' :: ns')) with (n ++ "/"%char :: join_slash (n' :: ns')).
    rewrite map_app, (map_slash_to_nul_id n) by done. cbn [map].
    change (slash_to_nul "/"%char) with NUL.
    rewrite <- app_assoc. cbn [app]. rewrite split_nul_name by done.
    by rewrite IH.
Qed.

Lemma strip_trailing_names ns :
  Forall (λ n, n ≠ []) ns → strip_trailing (ns ++ [[]; []]) = ns.
Proof.
  induction ns as [|n ns IH]; intros Hall; [done|].
  apply Forall_cons in Hall as [Hn Hall]. simpl. rewrite IH by done.
  destruct ns; [destruct n|]; done.
Qed.

Lemma take_until_empty_pad ns : take_until_empty (ns ++ [[]; []]) = take_until_empty ns.
Proof. induction ns as [|[|c cs] ns IH]; simpl; [done|done|]. by rewrite IH. Qed.

Lemma depend_buffer_join ns :
  Forall plain_name ns →
  split_nul <$> depend_buffer (string_of_list_ascii (join_slash ns)) = Some (ns ++ [[]; []])
  ∨ ns = [].
Proof.
  intros Hall. destruct ns as [|n ns]; [by right|left].
  unfold depend_buffer. rewrite list_ascii_of_string_of_list_ascii.
  rewrite replace_slashes_total. cbn -[join_slash split_nul]. f_equal.
  unfold c_str. rewrite <- app_assoc. by apply split_nul_join.
Qed.

(** ** Properties *)

(** C6. Fuel adequacy and equivalence of the rewriting loop: with one
    unit of fuel per byte and one more, the [find]/[replace] loop always
    terminates, and the buffer it builds is the [/depend] value with every
    ['/'] replaced by NUL, followed by two NULs. *)
Theorem depend_buffer_total depend :
  depend_buffer depend =
  Some (map slash_to_nul (list_ascii_of_string depend) ++ [NUL; NUL]).
Proof.
  unfold depend_buffer. rewrite replace_slashes_total. simpl.
  unfold c_str. by rewrite <- app_assoc.
Qed.

(** C7. Round trip: for non-empty dependency names without ['/'] or
    NUL, decoding the buffer built from ["a/b/c"] (split at NUL, trailing
    empty entries dropped) gives back exactly the names. *)
Theorem depend_roundtrip ns :
  Forall (λ n, n ≠ [] ∧ plain_name n) ns →
  depend_decode <$> depend_buffer (string_of_list_ascii (join_slash ns)) = Some ns.
Proof.
  intros Hall.
  destruct (depend_buffer_join ns) as [H| ->].
  - eapply Forall_impl; [done|]. by intros n [_ Hn].
  - destruct (depend_buffer (string_of_list_ascii (join_slash ns))) as [buf|]; simplify_eq/=.
    unfold depend_decode. rewrite H. f_equal. apply strip_trailing_names.
    eapply Forall_impl; [done|]. by intros n [Hn _].
  - done.
Qed.

Lemma depend_roundtrip_witness :
  depend_decode <$> depend_buffer "a/b/c"%string = Some [["a"]; ["b"]; ["c"]]%char.
Proof.
  apply (depend_roundtrip [["a"]; ["b"]; ["c"]]%char).
  repeat constructor; vm_compute; (discriminate || intros H; repeat (apply elem_of_cons in H as [H|H]; [discriminate|]); by apply elem_of_nil in H).
Defined.

(** C8. What the service manager reads back: it stops at the first empty
    name, so an empty name in the [/depend] value (["a//b"], a leading or a
    trailing ['/']) silently drops every dependency after it. *)
Theorem depend_registry_truncates ns :
  Forall plain_name ns →
  multi_sz_names <$> depend_buffer (string_of_list_ascii (join_slash ns)) = Some (take_until_empty ns).
Proof.
  intros Hall. destruct (depend_buffer_join ns Hall) as [H| ->]; [|done].
  destruct (depend_buffer (string_of_list_ascii (join_slash ns))) as [buf|]; simplify_eq/=.
  unfold multi_sz_names. rewrite H. by rewrite take_until_empty_pad.
Qed.

Lemma depend_registry_truncates_witness :
  multi_sz_names <$> depend_buffer "a//b"%string = Some [["a"]]%char.
Proof.
  apply (depend_registry_truncates [["a"]; []; ["b"]]%char).
  repeat constructor; vm_compute; intros H; repeat (apply elem_of_cons in H as [H|H]; [discriminate|]); by apply elem_of_nil in H.
Defined.

End Depend.
