(* ===== verification/FailureActions.v ===== *)
(** * FailureActions: the parameters of [scclone failure]

    [SetServiceFailureActions] (src/main-scclone.cpp, lines 924-1046)
    parses the reset period with [std::stoi] after removing quotes and
    spaces, splits the [/actions] value at ['/'] into trimmed tokens, and
    reads them two at a time as (action kind, delay in seconds).  The
    [std::stoi] of MSVC ([long] and [int] are 32 bits) is modelled with its
    exceptions as [None]; undefined behaviour of the loop (a read past the
    end of the token vector, a signed overflow of [int]) is [None] too. *)

From Stdlib Require Import ZArith Lia String Ascii.
From stdpp Require Import base list gmap strings.
From S2P Require Import Prelude.

Open Scope Z_scope.

Module FailureActions.

(** ** [std::stoi] *)

(** [isspace] in the C locale. *)
Definition is_space (c : ascii) : bool :=
  match nat_of_ascii c with 32 | 9 | 10 | 11 | 12 | 13 => true | _ => false end%nat.

Definition is_digit (c : ascii) : bool := (48 <=? nat_of_ascii c)%nat && (nat_of_ascii c <=? 57)%nat.

Definition digit_value (c : ascii) : Z := Z.of_nat (nat_of_ascii c) - 48.

Fixpoint skip_space (s : string) : string :=
  match s with
  | String c t => if is_space c then skip_space t else s
  | EmptyString => s
  end.

(** The digits at the head of [s]: their value and their number. *)
Fixpoint read_digits (s : string) (acc : Z) (n : nat) : Z * nat :=
  match s with
  | String c t => if is_digit c then read_digits t (acc * 10 + digit_value c) (S n) else (acc, n)
  | EmptyString => (acc, n)
  end.

(** [std::stoi(s)]: leading white space, an optional sign, then at least one
    digit (else [invalid_argument]); the value must fit the 32-bit [long]
    of [strtol] and the [int] of the result (else [out_of_range]); the
    characters after the digits are ignored. *)
Definition stoi (s : string) : option Z :=
  let s1 := skip_space s in
  let '(neg, s2) :=
    match s1 with
    | String "-" t => (true, t)
    | String "+" t => (false, t)
    | _ => (false, s1)
    end%char in
  let '(v, n) := read_digits s2 0 0 in
  if (n =? 0)%nat then None
  else let z := if neg then - v else v in
       if int32_fits z then Some z else None.

(** ** The reset period, lines 926-941 *)

(** [resetPeriod]: 86400 unless [/reset] parses; the quotes and the spaces
    are removed first. *)
Definition reset_period (args : gmap string string) : Z :=
  match args !! "reset"%string with
  | Some resetValue =>
      match stoi (remove_char " " (remove_char QUOTE resetValue)) with
      | Some r => r
      | None => 86400
      end
  | None => 86400
  end.

(** [failureActions.dwResetPeriod = resetPeriod]: the [int] stored in a
    [DWORD]. *)
Definition dwResetPeriod (args : gmap string string) : Z := to_dword (reset_period args).

(** ** Tokens of the [/actions] value, lines 970-991 *)

Definition is_blank (c : ascii) : bool := Ascii.eqb c " " || Ascii.eqb c "009".

(** [token.erase(0, token.find_first_not_of(" \t"))]. *)
Fixpoint trim_left (s : string) : string :=
  match s with
  | String c t => if is_blank c then trim_left t else s
  | EmptyString => s
  end.

(** [token.erase(token.find_last_not_of(" \t") + 1)]. *)
Fixpoint trim_right (s : string) : string :=
  match s with
  | String c t =>
      let t' := trim_right t in
      match t' with
      | EmptyString => if is_blank c then EmptyString else String c EmptyString
      | _ => String c t'
      end
  | EmptyString => s
  end.

Definition trim (s : string) : string := trim_right (trim_left s).

(** The [while ((pos = actionsStr.find("/")) != npos)] loop: the pieces
    before each ['/'], and what is left after the last one. *)
Fixpoint split_slash (s : string) : list string * string :=
  match s with
  | EmptyString => ([], EmptyString)
  | String c t =>
      let '(toks, last) := split_slash t in
      if Ascii.eqb c "/" then (EmptyString :: toks, last)
      else match toks with
           | [] => ([], String c last)
           | tok :: toks' => (String c tok :: toks', last)
           end
  end.

(** [pairs]: every piece trimmed, the last one only when it is not empty
    before trimming. *)
Definition action_tokens (actionsStr : string) : list string :=
  let '(toks, last) := split_slash (remove_char QUOTE actionsStr) in
  trim <$> toks ++ match last with EmptyString => [] | _ => [last] end.

(** ** Actions, lines 994-1023 *)

Definition SC_ACTION_NONE : Z := 0.
Definition SC_ACTION_RESTART : Z := 1.
Definition SC_ACTION_REBOOT : Z := 2.
Definition SC_ACTION_RUN_COMMAND : Z := 3.

Record SC_ACTION := mk_action { action_Type : Z; action_Delay : Z }.

(** The action kind; an unknown word is [SC_ACTION_NONE]. *)
Definition action_type_of (actionType : string) : Z :=
  if actionType =ₛ? "run" then SC_ACTION_RUN_COMMAND
  else if actionType =ₛ? "restart" then SC_ACTION_RESTART
  else if actionType =ₛ? "reboot" then SC_ACTION_REBOOT
  else SC_ACTION_NONE.

(** [action.Delay = std::stoi(tok) * 1000]: an [int] product, stored in a
    [DWORD]; 0 when [stoi] throws; [None] when the product overflows
    [int] (undefined behaviour). *)
Definition delay_of (tok : string) : option Z :=
  match stoi tok with
  | Some v => if int32_fits (v * 1000) then Some (to_dword (v * 1000)) else None
  | None => Some 0
  end.

(** [for (size_t i = 0; i < pairs.size() - 1; i += 2)], with the
    unsigned 64-bit [size_t] subtraction; a read of [pairs[i]] out of range
    is undefined behaviour ([None]), so is running out of fuel. *)
Fixpoint actions_loop (fuel : nat) (pairs : list string) (i : nat) : option (list SC_ACTION) :=
  match fuel with
  | O => None
  | S f =>
      if Z.of_nat i <? to_u64 (Z.of_nat (length pairs) - 1) then
        match pairs !! i with
        | None => None
        | Some actionType =>
            let delay :=
              if (i + 1 <? length pairs)%nat then
                match pairs !! (i + 1)%nat with Some d => delay_of d | None => None end
              else Some 0 in
            match delay with
            | Some dl => (mk_action (action_type_of actionType) dl ::.) <$> actions_loop f pairs (i + 2)
            | None => None
            end
        end
      else Some []
  end.

Definition parse_actions (pairs : list string) : option (list SC_ACTION) :=
  actions_loop (S (length pairs)) pairs 0.

(** The actions of [failure]: none without [/actions]. *)
Definition failure_actions (args : gmap string string) : option (list SC_ACTION) :=
  match args !! "actions"%string with
  | Some actionsStr => parse_actions (action_tokens actionsStr)
  | None => Some []
  end.

(** ** Reference: the tokens read two at a time *)

Fixpoint pair_up (ps : list string) : option (list SC_ACTION) :=
  match ps with
  | a :: d :: rest =>
      match delay_of d with
      | Some dl => (mk_action (action_type_of a) dl ::.) <$> pair_up rest
      | None => None
      end
  | _ => Some []
  end.

(** The tokens joined by ['/'], as the user types them. *)
Fixpoint join_tokens (ts : list string) : string :=
  match ts with
  | [] => EmptyString
  | [t] => t
  | t :: ts' => (t ++ String "/" (join_tokens ts'))%string
  end.

(** A token the splitting gives back unchanged. *)
Definition clean_token (t : string) : Prop :=
  str_has "/" t = false ∧ str_has QUOTE t = false ∧ trim t = t.

(** ** Lemmas *)

Lemma lookup_drop_cons (ps : list string) i a d :
  ps !! i = Some a → ps !! (i + 1)%nat = Some d →
  drop i ps = a :: d :: drop (i + 2) ps.
Proof.
  revert i. induction ps as [|x ps IH]; intros [|i] Ha Hd; simplify_eq/=.
  - destruct ps; simplify_eq/=. done.
  - by apply IH.
Qed.

Lemma pair_up_short (ps : list string) : (length ps ≤ 1)%nat → pair_up ps = Some [].
Proof. destruct ps as [|? [|? ?]]; simpl; [done|done|lia]. Qed.

Lemma split_slash_plain t : str_has "/" t = false → split_slash t = ([], t).
Proof.
  induction t as [|c t IH]; cbn [split_slash str_has]; [done|].
  intros H. apply orb_false_iff in H as [Hc Ht]. rewrite IH by done. by rewrite Hc.
Qed.

Lemma split_slash_app t rest :
  str_has "/" t = false →
  split_slash (t ++ String "/" rest)%string =
  let '(toks, last) := split_slash rest in (t :: toks, last).
Proof.
  induction t as [|c t IH]; intros H; [done|].
  change (String c t ++ String "/" rest)%string with (String c (t ++ String "/" rest))%string.
  cbn [split_slash]. cbn [str_has] in H.
  apply orb_false_iff in H as [Hc Ht]. rewrite IH by done.
  destruct (split_slash rest). by rewrite Hc.
Qed.

Lemma split_slash_join ts t :
  Forall clean_token ts → clean_token t → split_slash (join_tokens (ts ++ [t])) = (ts, t).
Proof.
  induction ts as [|t0 ts IH]; intros Hts Ht; [by apply split_slash_plain, Ht|].
  apply Forall_cons in Hts as [Ht0 Hts].
  assert (Hj : join_tokens (t0 :: ts ++ [t]) = (t0 ++ String "/" (join_tokens (ts ++ [t])))%string)
    by (destruct ts; done).
  cbn [app]. rewrite Hj.
  rewrite split_slash_app by apply Ht0. by rewrite IH.
Qed.

Lemma join_tokens_no_quote ts :
  Forall clean_token ts → str_has QUOTE (join_tokens ts) = false.
Proof.
  induction ts as [|t ts IH]; intros Hts; [done|].
  apply Forall_cons in Hts as [Ht Hts]. destruct ts as [|t' ts]; [apply Ht|].
  change (join_tokens (t :: t' :: ts)) with (t ++ String "/" (join_tokens (t' :: ts)))%string.
  rewrite str_has_app. cbn [str_has]. rewrite (proj1 (proj2 Ht)), IH by done. reflexivity.
Qed.

Lemma fmap_trim_id ts : Forall clean_token ts → trim <$> ts = ts.
Proof.
  induction ts as [|t ts IH]; intros Hts; [done|].
  apply Forall_cons in Hts as [Ht Hts]. rewrite fmap_cons. by rewrite (proj2 (proj2 Ht)), IH.
Qed.

(** Splitting the joined tokens gives the tokens back, when the last one is
    not empty. *)
Lemma action_tokens_join ts t :
  Forall clean_token (ts ++ [t]) → t ≠ EmptyString →
  action_tokens (join_tokens (ts ++ [t])) = ts ++ [t].
Proof.
  intros Hall Hne. apply Forall_app in Hall as [Hts Ht]. rewrite Forall_singleton in Ht.
  unfold action_tokens. rewrite remove_char_id.
  2:{ apply join_tokens_no_quote. apply Forall_app_2; [done|]. by apply Forall_singleton. }
  rewrite split_slash_join by done. destruct t as [|c t]; [done|].
  rewrite fmap_app, (fmap_trim_id ts) by done.
  rewrite (fmap_trim_id [String c t]); [done|]. by apply Forall_singleton.
Qed.

Lemma stoi_fits t v : stoi t = Some v → int32_fits v = true.
Proof. unfold stoi. intros E. repeat (case_match; simplify_eq); done. Qed.

Lemma delay_no_overflow v : int32_fits (v * 1000) = true ↔ -2147483 <= v <= 2147483.
Proof. rewrite int32_fits_iff. lia. Qed.

(** The loop invariant of the [for] loop: from an index [i], the loop reads
    the pairs of [drop i pairs]. *)
Lemma actions_loop_spec fuel (pairs : list string) i :
  (1 ≤ length pairs)%nat → Z.of_nat (length pairs) ≤ 2 ^ 64 → (length pairs - i < fuel)%nat →
  actions_loop fuel pairs i = pair_up (drop i pairs).
Proof.
  revert i. induction fuel as [|f IH]; intros i Hne Hbound Hfuel; [lia|].
  simpl. rewrite u64_small by lia.
  destruct (Z.ltb_spec (Z.of_nat i) (Z.of_nat (length pairs) - 1)) as [Hlt|Hge].
  - destruct (lookup_lt_is_Some_2 pairs i) as [a Ha]; [lia|].
    destruct (lookup_lt_is_Some_2 pairs (i + 1)) as [d Hd]; [lia|].
    rewrite Ha, Hd. destruct (Nat.ltb_spec (i + 1) (length pairs)); [|lia].
    rewrite (lookup_drop_cons pairs i a d) by done. simpl.
    destruct (delay_of d); [|done]. rewrite IH by lia. done.
  - rewrite pair_up_short; [done|]. rewrite length_drop. lia.
Qed.

Lemma div2_SS n : (S (S n) / 2 = S (n / 2))%nat.
Proof. replace (S (S n)) with (1 * 2 + n)%nat by lia. by rewrite Nat.div_add_l. Qed.

Lemma pair_up_length (ps : list string) acts :
  pair_up ps = Some acts → length acts = (length ps / 2)%nat.
Proof.
  revert acts. induction ps as [|a ps IH] using list_strong_ind; intros acts H.
  { by simplify_eq/=. }
  destruct ps as [|d ps]; [by simplify_eq/=|]. cbn [pair_up] in H.
  destruct (delay_of d); [|done].
  destruct (pair_up ps) as [acts'|] eqn:Hps; cbn in H; simplify_eq.
  cbn [length]. rewrite div2_SS. f_equal. apply IH; [simpl; lia|done].
Qed.

Lemma pair_up_lookup (ps : list string) acts j :
  pair_up ps = Some acts → (2 * j + 1 < length ps)%nat →
  ∃ a d dl, ps !! (2 * j)%nat = Some a ∧ ps !! (2 * j + 1)%nat = Some d ∧ delay_of d = Some dl
    ∧ acts !! j = Some (mk_action (action_type_of a) dl).
Proof.
  revert acts j. induction ps as [|a ps IH] using list_strong_ind; intros acts j H Hj.
  { simpl in Hj. lia. }
  destruct ps as [|d ps]; [simpl in Hj; lia|]. cbn [pair_up] in H.
  destruct (delay_of d) as [dl|] eqn:Hdl; [|done].
  destruct (pair_up ps) as [acts'|] eqn:Hps; cbn in H; simplify_eq.
  destruct j as [|j].
  - by exists a, d, dl.
  - cbn [length] in Hj.
    destruct (IH ps ltac:(simpl; lia) acts' j) as (a' & d' & dl' & H1 & H2 & H3 & H4);
      [done|lia|].
    exists a', d', dl'.
    replace (2 * S j)%nat with (S (S (2 * j))) by lia.
    replace (2 * S j + 1)%nat with (S (S (2 * j + 1))) by lia.
    exact (conj H1 (conj H2 (conj H3 H4))).
Qed.

Lemma pair_up_odd (ps : list string) x :
  Nat.Even (length ps) → pair_up (ps ++ [x]) = pair_up ps.
Proof.
  induction ps as [|a ps IH] using list_strong_ind; intros Hev; [done|].
  destruct ps as [|d ps].
  - simpl in Hev. destruct Hev as [k Hk]. lia.
  - simpl. rewrite IH; [done|simpl; lia|].
    destruct Hev as [k Hk]. exists (k - 1)%nat. simpl in Hk. lia.
Qed.

Lemma pair_up_total (ps : list string) :
  (∀ t, t ∈ ps → is_Some (delay_of t)) → is_Some (pair_up ps).
Proof.
  induction ps as [|a ps IH] using list_strong_ind; intros Hall; [done|].
  destruct ps as [|d ps]; [done|]. simpl.
  destruct (Hall d) as [dl ->]; [set_solver|].
  destruct (IH ps) as [acts ->]; [simpl; lia|intros t Ht; apply Hall; set_solver|]. done.
Qed.

Lemma action_tokens_empty s : remove_char QUOTE s = EmptyString → action_tokens s = [].
Proof. intros H. unfold action_tokens. by rewrite H. Qed.

Lemma failure_actions_tokens ts t :
  Forall clean_token (ts ++ [t]) → t ≠ EmptyString → Z.of_nat (length ts) < 2 ^ 64 →
  failure_actions {[ "actions"%string := join_tokens (ts ++ [t]) ]} = pair_up (ts ++ [t]).
Proof.
  intros Hall Hne Hlen. unfold failure_actions. rewrite lookup_singleton_eq.
  rewrite action_tokens_join by done. unfold parse_actions.
  apply actions_loop_spec; rewrite ?length_app; simpl; lia.
Qed.

(** ** Properties *)

(** C12. Equivalence of the [for] loop with its reference: on a non-empty
    token vector the loop over [i < pairs.size() - 1] reads the tokens two
    at a time, in order, with a trailing unpaired token ignored. *)
Theorem parse_actions_pair_up (pairs : list string) :
  pairs ≠ [] → Z.of_nat (length pairs) <= 2 ^ 64 → parse_actions pairs = pair_up pairs.
Proof.
  intros Hne Hlen. unfold parse_actions. rewrite actions_loop_spec; [done| |done|lia].
  destruct pairs; [done|simpl; lia].
Qed.

Lemma parse_actions_pair_up_witness :
  parse_actions ["restart"; "60"; "run"]%string = pair_up ["restart"; "60"; "run"]%string.
Proof. apply parse_actions_pair_up; [done|simpl; lia]. Defined.

(** C11. An [/actions] value that is empty once its quotes are removed
    (the bare [/actions], or [/actions ""]) leaves [pairs] empty; then
    [pairs.size() - 1] wraps around to [SIZE_MAX] and the loop reads
    [pairs[0]] of an empty vector: undefined behaviour. *)
Theorem failure_actions_empty_ub args s :
  args !! "actions"%string = Some s → remove_char QUOTE s = EmptyString →
  failure_actions args = None.
Proof.
  intros Hs Hempty. unfold failure_actions. rewrite Hs, action_tokens_empty by done.
  reflexivity.
Qed.

Lemma failure_actions_empty_ub_witness :
  failure_actions {[ "actions"%string := String QUOTE (String QUOTE EmptyString) ]} = None.
Proof. apply (failure_actions_empty_ub _ (String QUOTE (String QUOTE EmptyString))); [apply lookup_singleton_eq|done]. Defined.

(** C9. Decoding [kind/delay/kind/delay/...]: for clean tokens (no ['/'],
    no quote, no surrounding blank, the last one non-empty) whose delays all
    convert, [failure] sends as many actions as there are pairs of tokens,
    in order: action [j] has the kind of token [2j] and the delay of token
    [2j+1]. *)
Theorem failure_actions_decode ts t :
  Forall clean_token (ts ++ [t]) → t ≠ EmptyString → Z.of_nat (length ts) < 2 ^ 64 →
  (∀ d, d ∈ ts ++ [t] → is_Some (delay_of d)) →
  ∃ acts, failure_actions {[ "actions"%string := join_tokens (ts ++ [t]) ]} = Some acts
    ∧ length acts = (length (ts ++ [t]) / 2)%nat
    ∧ ∀ j, (2 * j + 1 < length (ts ++ [t]))%nat →
      ∃ a d dl, (ts ++ [t]) !! (2 * j)%nat = Some a ∧ (ts ++ [t]) !! (2 * j + 1)%nat = Some d
        ∧ delay_of d = Some dl ∧ acts !! j = Some (mk_action (action_type_of a) dl).
Proof.
  intros Hall Hne Hlen Hdel. rewrite failure_actions_tokens by done.
  destruct (pair_up_total (ts ++ [t]) Hdel) as [acts Hacts].
  exists acts. split_and!; [done|by apply pair_up_length|].
  intros j Hj. by apply pair_up_lookup.
Qed.

Lemma failure_actions_decode_witness :
  ∃ acts, failure_actions {[ "actions"%string := join_tokens (["restart"; "60"; "run"] ++ ["120"]) ]}
      = Some acts
    ∧ length acts = (length (["restart"; "60"; "run"] ++ ["120"]) / 2)%nat
    ∧ ∀ j, (2 * j + 1 < length (["restart"; "60"; "run"] ++ ["120"]))%nat →
      ∃ a d dl, (["restart"; "60"; "run"] ++ ["120"]) !! (2 * j)%nat = Some a
        ∧ (["restart"; "60"; "run"] ++ ["120"]) !! (2 * j + 1)%nat = Some d
        ∧ delay_of d = Some dl ∧ acts !! j = Some (mk_action (action_type_of a) dl).
Proof.
  apply failure_actions_decode.
  - repeat constructor.
  - done.
  - simpl. lia.
  - intros d Hd. repeat (apply elem_of_cons in Hd as [->|Hd]; [by eexists|]).
    by apply elem_of_nil in Hd.
Defined.

(** C10. An odd number of tokens: the trailing unpaired token is ignored,
    [failure] sends the same actions as without it. *)
Theorem failure_actions_odd ts t x :
  Forall clean_token (ts ++ [t; x]) → t ≠ EmptyString → x ≠ EmptyString →
  Nat.Odd (length ts) → Z.of_nat (length ts) + 1 < 2 ^ 64 →
  failure_actions {[ "actions"%string := join_tokens (ts ++ [t; x]) ]}
  = failure_actions {[ "actions"%string := join_tokens (ts ++ [t]) ]}.
Proof.
  intros Hall Ht Hx Hodd Hlen.
  assert (Hall' : Forall clean_token (ts ++ [t])).
  { apply Forall_app in Hall as [H1 H2]. apply Forall_app_2; [done|]. inversion H2; by constructor. }
  replace (ts ++ [t; x]) with ((ts ++ [t]) ++ [x]) in * by by rewrite <- app_assoc.
  rewrite !failure_actions_tokens by (rewrite ?length_app; simpl; lia || done).
  apply pair_up_odd. rewrite length_app. simpl. destruct Hodd as [k Hk]. exists (S k). lia.
Qed.

Lemma failure_actions_odd_witness :
  failure_actions {[ "actions"%string := join_tokens (["restart"] ++ ["60"; "run"]) ]}
  = failure_actions {[ "actions"%string := join_tokens (["restart"] ++ ["60"]) ]}.
Proof.
  apply failure_actions_odd; [repeat constructor|done|done| |simpl; lia].
  exists 0%nat. reflexivity.
Defined.

(** C14. The delay of an action is a 32-bit value; for a delay of [v]
    seconds with [0 <= v <= 2147483] it is exactly [v * 1000] ms. *)
Theorem delay_of_bounds d dl :
  delay_of d = Some dl →
  0 <= dl < 2 ^ 32 ∧ ∀ v, stoi d = Some v → 0 <= v <= 2147483 → dl = v * 1000.
Proof.
  unfold delay_of. intros H. split.
  - destruct (stoi d) as [v|]; [|simplify_eq; lia].
    destruct (int32_fits (v * 1000)); simplify_eq. apply dword_range.
  - intros v Hv Hrange. rewrite Hv in H.
    rewrite (proj2 (delay_no_overflow v)) in H by lia. simplify_eq.
    apply dword_small. lia.
Qed.

Lemma delay_of_bounds_witness :
  delay_of "60" = Some 60000 ∧
  (0 <= 60000 < 2 ^ 32 ∧ ∀ v, stoi "60" = Some v → 0 <= v <= 2147483 → 60000 = v * 1000).
Proof. split; [reflexivity|]. apply delay_of_bounds. reflexivity. Defined.

(** C13. The product [std::stoi(tok) * 1000] overflows [int] (undefined
    behaviour) exactly for delays beyond 2147483 s in absolute value (about
    24.8 days); a negative delay that does not overflow wraps to a huge
    [DWORD]. *)
Theorem delay_of_overflow d :
  (delay_of d = None ↔ ∃ v, stoi d = Some v ∧ (v < -2147483 ∨ 2147483 < v))
  ∧ ∀ v, stoi d = Some v → -2147483 <= v < 0 → delay_of d = Some (2 ^ 32 + v * 1000).
Proof.
  unfold delay_of. split.
  - destruct (stoi d) as [v|]; split; intros H.
    + exists v. split; [done|]. destruct (int32_fits (v * 1000)) eqn:Hf; [done|].
      rewrite <- not_true_iff_false, delay_no_overflow in Hf. lia.
    + destruct H as (v' & Hv' & Hr). simplify_eq.
      destruct (int32_fits (v' * 1000)) eqn:Hf; [|done]. apply delay_no_overflow in Hf. lia.
    + done.
    + by destruct H as (v & ? & _).
  - intros v Hv Hr. rewrite Hv, (proj2 (delay_no_overflow v)) by lia.
    f_equal. unfold to_dword. rewrite <- (Z.mod_add _ 1) by lia.
    rewrite Z.mod_small; lia.
Qed.

Lemma delay_of_overflow_witness :
  delay_of "-1" = Some (2 ^ 32 - 1000) ∧ delay_of "3000000" = None.
Proof.
  split.
  - apply (proj2 (delay_of_overflow "-1") (-1)); [reflexivity|lia].
  - apply (proj1 (delay_of_overflow "3000000")). exists 3000000. split; [reflexivity|lia].
Defined.

(** The [int] read from [/reset]: quotes and spaces removed, then
    [std::stoi]; [None] when [/reset] is absent or [stoi] throws. *)
Definition reset_input (args : gmap string string) : option Z :=
  r ← args !! "reset"%string; stoi (remove_char " " (remove_char QUOTE r)).

(** C15. The reset period: 86400 s when [/reset] is absent or does not
    convert; otherwise the converted [int] seen as a [DWORD], so that a
    negative value [v] becomes [v + 2^32] (["-1"] is [0xFFFFFFFF], the
    "never reset" value). *)
Theorem dwResetPeriod_value args :
  dwResetPeriod args = match reset_input args with
                       | Some v => if v <? 0 then v + 2 ^ 32 else v
                       | None => 86400
                       end.
Proof.
  unfold dwResetPeriod, reset_period, reset_input.
  destruct (args !! "reset"%string) as [r|]; simpl; [|done].
  destruct (stoi _) as [v|] eqn:Hv; [|done].
  apply stoi_fits, int32_fits_iff in Hv. unfold to_dword.
  destruct (Z.ltb_spec v 0).
  - rewrite <- (Z.mod_add _ 1) by lia. apply Z.mod_small. lia.
  - apply Z.mod_small. lia.
Qed.

End FailureActions.
