(* ===== verification/Registry.v ===== *)
(** * Registry: the service control manager as seen by scclone

    scclone talks to the Windows service control manager (SCM) through the
    calls of winsvc.h.  The SCM is not code of this repository: it is an
    interface, the typed event family [scmE] with one constructor per call
    the program makes, and a [Registry] instance answers each call and
    updates its own state [W].  A command is a state-passing function over
    a [machine]: the registry state, a mocked millisecond clock read by
    [GetTickCount64] and advanced only by [Sleep], and the trace of what the
    program did (the calls with their replies and the lines it printed).
    The [GetLastError] of the source is made explicit: a failing call
    returns [Err code]. *)

From Stdlib Require Import ZArith Lia String Ascii.
From stdpp Require Import base list gmap strings.
From S2P Require Import Prelude Encoders FailureActions.

Open Scope Z_scope.

Module Access.
Definition SC_MANAGER_CONNECT : Z := 1.
Definition SC_MANAGER_ALL_ACCESS : Z := 983103.
Definition SERVICE_QUERY_CONFIG : Z := 1.
Definition SERVICE_CHANGE_CONFIG : Z := 2.
Definition SERVICE_QUERY_STATUS : Z := 4.
Definition SERVICE_START : Z := 16.
Definition SERVICE_STOP : Z := 32.
Definition DELETE : Z := 65536.
Definition SERVICE_ALL_ACCESS : Z := 983551.
Definition SERVICE_CONTROL_STOP : Z := 1.
Definition ERROR_ACCESS_DENIED : Z := 5.
Definition ERROR_INSUFFICIENT_BUFFER : Z := 122.
End Access.

Module Registry.

Definition SC_HANDLE := Z.

(** A call that can fail, with the error code [GetLastError] would give. *)
Inductive win_result (A : Type) := Ok (a : A) | Err (code : Z).
Arguments Ok {A} a.
Arguments Err {A} code.

(** A call of the probe-then-fill protocol: the data, or the error code.
    Either way the call writes its [pcbBytesNeeded] out-parameter, the
    buffer size the data takes, which the reply carries. *)
Inductive sized_result (A : Type) := Filled (a : A) (bytesNeeded : Z) | Short (code : Z) (bytesNeeded : Z).
Arguments Filled {A} a bytesNeeded.
Arguments Short {A} code bytesNeeded.

Record SERVICE_STATUS_PROCESS := mk_status {
  dwServiceType : Z; dwCurrentState : Z; dwProcessId : Z }.

Record QUERY_SERVICE_CONFIG := mk_config {
  cfg_dwServiceType : Z; cfg_dwStartType : Z; cfg_dwErrorControl : Z;
  cfg_lpBinaryPathName : option string; cfg_lpDisplayName : option string }.

(** The arguments of [CreateServiceA]. *)
Record create_params := mk_create {
  cr_name : string; cr_displayName : string; cr_access : Z;
  cr_serviceType : Z; cr_startType : Z; cr_errorControl : Z; cr_binaryPath : string;
  cr_loadOrderGroup : option string; cr_tagRequested : bool;
  cr_dependencies : option (list ascii); cr_account : option string; cr_password : option string }.

(** The arguments of [ChangeServiceConfigA]; [None] is a [NULL] pointer. *)
Record change_params := mk_change {
  ch_serviceType : Z; ch_startType : Z; ch_errorControl : Z;
  ch_binaryPath : option string; ch_loadOrderGroup : option string;
  ch_dependencies : option (list ascii); ch_account : option string;
  ch_password : option string; ch_displayName : option string }.

(** [SERVICE_FAILURE_ACTIONSA]; [None] is a [NULL] pointer and the
    actions are the [cActions] entries of [lpsaActions]. *)
Record SERVICE_FAILURE_ACTIONS := mk_failure_actions {
  fa_dwResetPeriod : Z; fa_lpRebootMsg : option string; fa_lpCommand : option string;
  fa_actions : list FailureActions.SC_ACTION }.

(** The information levels of [ChangeServiceConfig2A]. *)
Inductive config2_info :=
| InfoDescription (description : string)
| InfoDelayedAutoStart (delayed : bool)
| InfoFailureActions (fa : SERVICE_FAILURE_ACTIONS).

(** The calls, each with the type of its reply. *)
Inductive scmE : Type → Type :=
| OpenSCManagerE (access : Z) : scmE (win_result SC_HANDLE)
| OpenServiceE (scm : SC_HANDLE) (name : string) (access : Z) : scmE (win_result SC_HANDLE)
| CloseServiceHandleE (h : SC_HANDLE) : scmE unit
| QueryServiceStatusExE (h : SC_HANDLE) : scmE (win_result SERVICE_STATUS_PROCESS)
| QueryServiceConfigE (h : SC_HANDLE) (bufSize : Z) : scmE (sized_result QUERY_SERVICE_CONFIG)
| QueryServiceDescriptionE (h : SC_HANDLE) (bufSize : Z) : scmE (sized_result (option string))
| QueryServiceFailureActionsE (h : SC_HANDLE) (bufSize : Z) : scmE (win_result SERVICE_FAILURE_ACTIONS)
| CreateServiceE (scm : SC_HANDLE) (p : create_params) : scmE (win_result (SC_HANDLE * Z))
| ChangeServiceConfigE (h : SC_HANDLE) (p : change_params) : scmE (win_result unit)
| ChangeServiceConfig2E (h : SC_HANDLE) (info : config2_info) : scmE (win_result unit)
| StartServiceE (h : SC_HANDLE) : scmE (win_result unit)
| ControlServiceE (h : SC_HANDLE) (control : Z) : scmE (win_result SERVICE_STATUS_PROCESS)
| DeleteServiceE (h : SC_HANDLE) : scmE (win_result unit).

(** The interface the SCM offers the program. *)
Class Registry (W : Type) := reg_handle : ∀ {T}, scmE T → W → T * W.

(** What the program did, in order. *)
Inductive event :=
| EvCall {T} (e : scmE T) (reply : T)
| EvOut (line : string)
| EvErr (line : string)
| EvErrCode (line : string) (code : Z)
| EvTick (ticks : Z)
| EvSleep (ms : Z).

Record machine (W : Type) := mk_machine { m_world : W; m_clock : Z; m_trace : list event }.
Arguments mk_machine {W} _ _ _.
Arguments m_world {W} _.
Arguments m_clock {W} _.
Arguments m_trace {W} _.

Notation SCM W A := (St (machine W) A).

Section Primitives.
Context {W : Type} `{!Registry W}.

Definition emit (ev : event) : SCM W unit :=
  λ m, (tt, mk_machine (m_world m) (m_clock m) (m_trace m ++ [ev])).

(** One call to the SCM, recorded with its reply. *)
Definition call {T} (e : scmE T) : SCM W T :=
  λ m, let '(r, w') := reg_handle e (m_world m) in
       (r, mk_machine w' (m_clock m) (m_trace m ++ [EvCall e r])).

(** [std::cout << line], [std::cerr << line] and
    [std::cerr << line << GetLastErrorAsString()]. *)
Definition out (line : string) : SCM W unit := emit (EvOut line).
Definition err (line : string) : SCM W unit := emit (EvErr line).
Definition err_code (line : string) (code : Z) : SCM W unit := emit (EvErrCode line code).

(** [GetTickCount64()]: the clock read as an unsigned 64-bit counter. *)
Definition GetTickCount64 : SCM W Z :=
  λ m, (to_u64 (m_clock m), mk_machine (m_world m) (m_clock m) (m_trace m ++ [EvTick (to_u64 (m_clock m))])).

(** [Sleep(ms)]. *)
Definition Sleep (ms : Z) : SCM W unit :=
  λ m, (tt, mk_machine (m_world m) (m_clock m + ms) (m_trace m ++ [EvSleep ms])).

Definition CloseServiceHandle (h : SC_HANDLE) : SCM W unit := call (CloseServiceHandleE h).

(** [std::cout << line << std::endl] for each line, in order. *)
Fixpoint out_lines (ls : list string) : SCM W unit :=
  match ls with
  | [] => mret tt
  | l :: ls' => out l;; out_lines ls'
  end.

(** [PrintUsage()] (lines 41-53), line by line: each [std::cout] string
    ends with ['\n'], and the second one with two, which prints an empty
    line. *)
Definition usage_lines : list string :=
  ["SC Clone - Service Controller utility";
   "Usage: scclone <command> [options]";
   EmptyString;
   "Supported commands:";
   "  query         - Queries service status";
   "  create        - Creates a service";
   "  qdescription  - Queries service description";
   "  start         - Starts a service";
   "  stop          - Stops a service";
   "  delete        - Deletes a service";
   "  config        - Modifies service configuration";
   "  failure       - Sets service failure actions"]%string.

Definition PrintUsage : SCM W unit := out_lines usage_lines.

(** The first call of a probe-then-fill pair ([QueryServiceConfig],
    [QueryServiceConfig2A]): [if (!result && GetLastError() !=
    ERROR_INSUFFICIENT_BUFFER)] fails with the code; otherwise the
    [bytesNeeded] variable holds what the call wrote to it, on success as
    on [ERROR_INSUFFICIENT_BUFFER]. *)
Definition probe_size {A} (r : sized_result A) : Z + Z :=
  match r with
  | Filled _ bytesNeeded => inr bytesNeeded
  | Short code bytesNeeded =>
      if code =? Access.ERROR_INSUFFICIENT_BUFFER then inr bytesNeeded else inl code
  end.

End Primitives.

Lemma probe_size_insufficient {A} n : probe_size (A := A) (Short Access.ERROR_INSUFFICIENT_BUFFER n) = inr n.
Proof. reflexivity. Qed.

(** ** Reading a trace *)

Definition is_status_query (ev : event) : bool :=
  match ev with
  | EvCall e _ => match e with QueryServiceStatusExE _ => true | _ => false end
  | _ => false
  end.

Definition is_control (ev : event) : bool :=
  match ev with
  | EvCall e _ => match e with ControlServiceE _ _ => true | _ => false end
  | _ => false
  end.

Definition is_sleep (ev : event) : bool := match ev with EvSleep _ => true | _ => false end.

Definition is_call (ev : event) : bool := match ev with EvCall _ _ => true | _ => false end.

Definition is_close (ev : event) : bool :=
  match ev with
  | EvCall e _ => match e with CloseServiceHandleE _ => true | _ => false end
  | _ => false
  end.

Definition is_delete (ev : event) : bool :=
  match ev with
  | EvCall e _ => match e with DeleteServiceE _ => true | _ => false end
  | _ => false
  end.

(** The number of events of a kind in a trace. *)
Definition count_ev (p : event → bool) (tr : list event) : nat := length (filter (λ ev, p ev = true) tr).

Lemma count_ev_app p tr1 tr2 : count_ev p (tr1 ++ tr2) = (count_ev p tr1 + count_ev p tr2)%nat.
Proof. unfold count_ev. by rewrite filter_app, length_app. Qed.

Lemma count_ev_cons p ev tr :
  count_ev p (ev :: tr) = ((if p ev then 1 else 0) + count_ev p tr)%nat.
Proof. unfold count_ev. rewrite filter_cons. destruct (p ev); case_decide; simpl; done. Qed.

Lemma count_ev_nil p : count_ev p [] = 0%nat.
Proof. done. Qed.

(** The lines printed on [std::cout], in order. *)
Fixpoint outs (tr : list event) : list string :=
  match tr with
  | [] => []
  | EvOut l :: tr' => l :: outs tr'
  | _ :: tr' => outs tr'
  end.

(** The SCM calls of a trace, in order. *)
Definition calls (tr : list event) : list event := filter (λ ev, is_call ev = true) tr.

Lemma calls_app tr1 tr2 : calls (tr1 ++ tr2) = calls tr1 ++ calls tr2.
Proof. apply filter_app. Qed.

Lemma calls_cons ev tr : calls (ev :: tr) = if is_call ev then ev :: calls tr else calls tr.
Proof. unfold calls. rewrite filter_cons. destruct (is_call ev); case_decide; done. Qed.

Lemma calls_nil : calls [] = [].
Proof. done. Qed.

Lemma calls_none tr : count_ev is_call tr = 0%nat → calls tr = [].
Proof. unfold count_ev, calls. intros H. by apply length_zero_iff_nil. Qed.

Lemma outs_app tr1 tr2 : outs (tr1 ++ tr2) = outs tr1 ++ outs tr2.
Proof. induction tr1 as [|[] tr1 IH]; simpl; rewrite ?IH; done. Qed.

#[export] Hint Rewrite count_ev_app count_ev_cons count_ev_nil outs_app calls_app calls_cons calls_nil : scc_rw.

(** ** Running the primitives *)

Section Run.
Context {W : Type} `{!Registry W}.

Lemma call_run {T} (e : scmE T) (m : machine W) :
  call e m = ((reg_handle e (m_world m)).1,
              mk_machine (reg_handle e (m_world m)).2 (m_clock m)
                (m_trace m ++ [EvCall e (reg_handle e (m_world m)).1])).
Proof. unfold call. by destruct (reg_handle e (m_world m)). Qed.

Lemma count_ev_fmap_out p ls : (∀ l, p (EvOut l) = false) → count_ev p (EvOut <$> ls) = 0%nat.
Proof.
  intros Hp. induction ls as [|l ls IH]; [done|]. by rewrite fmap_cons, count_ev_cons, Hp, IH.
Qed.

Lemma out_lines_run ls (m : machine W) :
  out_lines ls m = (tt, mk_machine (m_world m) (m_clock m) (m_trace m ++ (EvOut <$> ls))).
Proof.
  revert m. induction ls as [|l ls IH]; intros m; simpl.
  - by rewrite app_nil_r; destruct m.
  - rewrite bind_run. unfold out, emit. rewrite IH. simpl. by rewrite <- app_assoc.
Qed.

(** A program that returns [a], leaves the registry and the clock alone
    and makes no SCM call: it only prints. *)
Definition quiet {A} (p : SCM W A) (a : A) : Prop :=
  ∀ m, ∃ tr, p m = (a, mk_machine (m_world m) (m_clock m) (m_trace m ++ tr)) ∧ count_ev is_call tr = 0%nat.

Lemma quiet_ret {A} (a : A) : quiet (mret a) a.
Proof. intros m. exists []. rewrite app_nil_r. by destruct m. Qed.

Lemma quiet_emit ev : is_call ev = false → quiet (emit ev) tt.
Proof. intros H m. exists [ev]. split; [done|]. by rewrite count_ev_cons, H. Qed.

Lemma quiet_out l : quiet (out l) tt.
Proof. by apply quiet_emit. Qed.

Lemma quiet_err l : quiet (err l) tt.
Proof. by apply quiet_emit. Qed.

Lemma quiet_err_code l c : quiet (err_code l c) tt.
Proof. by apply quiet_emit. Qed.

Lemma quiet_bind {A B} (p : SCM W A) (k : A → SCM W B) a b :
  quiet p a → quiet (k a) b → quiet (p ≫= k) b.
Proof.
  intros Hp Hk m. destruct (Hp m) as (tr1 & E1 & C1). rewrite bind_run, E1.
  destruct (Hk (mk_machine (m_world m) (m_clock m) (m_trace m ++ tr1))) as (tr2 & E2 & C2).
  rewrite E2. exists (tr1 ++ tr2). cbn. rewrite app_assoc, count_ev_app. split; [done|lia].
Qed.

Lemma quiet_out_lines ls : quiet (out_lines ls) tt.
Proof.
  intros m. rewrite out_lines_run. eexists. split; [done|]. by apply count_ev_fmap_out.
Qed.

(** Running a quiet program inside a larger one. *)
Lemma quiet_run {A B} (p : SCM W A) a (k : A → SCM W B) m :
  quiet p a → ∃ tr, (p ≫= k) m = k a (mk_machine (m_world m) (m_clock m) (m_trace m ++ tr))
                    ∧ count_ev is_call tr = 0%nat.
Proof. intros Hp. destruct (Hp m) as (tr & E & C). exists tr. by rewrite bind_run, E. Qed.

End Run.

#[export] Hint Resolve quiet_ret quiet_out quiet_err quiet_err_code quiet_out_lines : scc.

(** Run the quiet program of [H : quiet p a] where the goal applies [p] to
    a machine. *)
Ltac quiet_call H :=
  lazymatch type of H with
  | quiet ?p _ =>
      match goal with
      | |- context [p ?M] =>
          let tr := fresh "tr" in let E := fresh "E" in let C := fresh "C" in
          destruct (H M) as (tr & E & C); rewrite E; cbn [fst snd m_world m_clock m_trace]
      end
  end.

(** Prove [quiet p ?a] for a program built of prints, returns and binds. *)
Ltac solve_quiet :=
  repeat first
    [ eapply quiet_bind; [solve [eauto with scc] |]
    | solve [eauto with scc] ].

Lemma outs_fmap_out ls : outs (EvOut <$> ls) = ls.
Proof. induction ls as [|l ls IH]; [done|]. rewrite fmap_cons. simpl. by rewrite IH. Qed.



(** Unfold the monad and the primitives that do not call the SCM. *)
Ltac scm_unfold :=
  unfold mbind, St_bind, mret, St_ret, out, err, err_code, emit, GetTickCount64, Sleep,
    CloseServiceHandle;
  cbn [fst snd m_world m_clock m_trace].

(** The replies of [CloseServiceHandle] carry no information. *)
Ltac close_units :=
  repeat match goal with
  | |- context [(reg_handle (CloseServiceHandleE ?h) ?w).1] =>
      destruct ((reg_handle (CloseServiceHandleE h) w).1)
  end.

(** Run one SCM call whose reply is known from the hypothesis [H]. *)
Ltac scm_call H :=
  rewrite ?bind_run, call_run; cbn [m_world]; rewrite H; scm_unfold.

(** ** A scripted SCM, the simulated registry of tests

    Every open succeeds, the start, stop, create, change and delete
    requests are accepted, the follow-up [ChangeServiceConfig2A] requests
    fail, and the status queries answer from a script; the last answer of
    the script is repeated for ever. *)
Module Scripted.

Record world := mk_world { sw_status : list (win_result SERVICE_STATUS_PROCESS) }.

Definition ERROR_NOT_SUPPORTED : Z := 50.

Definition next_status (w : world) : win_result SERVICE_STATUS_PROCESS * world :=
  match sw_status w with
  | [] => (Err ERROR_NOT_SUPPORTED, w)
  | [r] => (r, w)
  | r :: rest => (r, mk_world rest)
  end.

Definition handle {T} (e : scmE T) : world → T * world :=
  match e in scmE T return world → T * world with
  | OpenSCManagerE _ => λ w, (Ok 1, w)
  | OpenServiceE _ _ _ => λ w, (Ok 2, w)
  | CloseServiceHandleE _ => λ w, (tt, w)
  | QueryServiceStatusExE _ => next_status
  | StartServiceE _ => λ w, (Ok tt, w)
  | ControlServiceE _ _ => λ w, (Ok (mk_status 16 3 0), w)
  | QueryServiceConfigE _ _ => λ w, (Short ERROR_NOT_SUPPORTED 0, w)
  | QueryServiceDescriptionE _ _ => λ w, (Short ERROR_NOT_SUPPORTED 0, w)
  | QueryServiceFailureActionsE _ _ => λ w, (Err ERROR_NOT_SUPPORTED, w)
  | CreateServiceE _ _ => λ w, (Ok (3, 7), w)
  | ChangeServiceConfigE _ _ => λ w, (Ok tt, w)
  | ChangeServiceConfig2E _ _ => λ w, (Err ERROR_NOT_SUPPORTED, w)
  | DeleteServiceE _ => λ w, (Ok tt, w)
  end.

#[export] Instance scripted_registry : Registry world := @handle.

(** A service in state [s]. *)
Definition in_state (s : Z) : win_result SERVICE_STATUS_PROCESS := Ok (mk_status 16 s 0).

End Scripted.

End Registry.
