(* ===== verification/WinScm.v ===== *)
(** * WinScm: a reference service control manager

    The Windows SCM is not code of this repository; this file gives one
    [Registry] instance that behaves as its documentation says, so that the
    handlers can be run and their interaction with the SCM's rules
    checked.  It keeps the services by name and the open handles with the
    access they were granted:
    - every call on a service handle checks the access right the
      documentation of that call requires ([ERROR_ACCESS_DENIED] otherwise),
      e.g. [QueryServiceStatusEx] needs [SERVICE_QUERY_STATUS];
    - the sized queries answer [ERROR_INSUFFICIENT_BUFFER] with the size
      they need when the buffer is too small, and fill it otherwise; an
      absent description fits a bare [SERVICE_DESCRIPTIONA];
    - a start request puts a stopped service in [START_PENDING], a stop
      request a running one in [STOP_PENDING]; each status query reports
      the state and then lets a pending transition complete. *)

From Stdlib Require Import ZArith Lia String Ascii.
From stdpp Require Import base list gmap strings.
From S2P Require Import Prelude Encoders Registry.
Import Win Access Registry.

Open Scope Z_scope.

Module WinScm.

Definition ERROR_INVALID_HANDLE : Z := 6.
Definition ERROR_SERVICE_ALREADY_RUNNING : Z := 1056.
Definition ERROR_SERVICE_DOES_NOT_EXIST : Z := 1060.
Definition ERROR_SERVICE_NOT_ACTIVE : Z := 1062.
Definition ERROR_SERVICE_EXISTS : Z := 1073.
Definition SC_MANAGER_CREATE_SERVICE : Z := 2.

(** The sizes of the fixed parts of the answers (64-bit layout); strings
    are counted with their terminating NUL. *)
Definition sizeof_QUERY_SERVICE_CONFIG : Z := 64.
Definition sizeof_SERVICE_DESCRIPTION : Z := 8.
Definition sizeof_SERVICE_FAILURE_ACTIONS : Z := 40.
Definition sizeof_SC_ACTION : Z := 8.

Definition str_size (s : option string) : Z :=
  match s with Some t => Z.of_nat (String.length t) + 1 | None => 0 end.

Record service := mk_service {
  sv_config : QUERY_SERVICE_CONFIG;
  sv_description : option string;
  sv_delayed : bool;
  sv_failure : SERVICE_FAILURE_ACTIONS;
  sv_state : Z;
  sv_pid : Z }.

Inductive handle_kind := HManager (access : Z) | HService (name : string) (access : Z).

Record world := mk_world {
  services : gmap string service;
  handles : gmap Z handle_kind;
  next_handle : Z }.

(** The access mask [granted] includes every right of [needed]. *)
Definition has_access (granted needed : Z) : bool := Z.land granted needed =? needed.

(** A new handle. *)
Definition alloc (k : handle_kind) (w : world) : SC_HANDLE * world :=
  (next_handle w, mk_world (services w) (<[next_handle w := k]> (handles w)) (next_handle w + 1)).

Definition set_service (name : string) (s : service) (w : world) : world :=
  mk_world (<[name := s]> (services w)) (handles w) (next_handle w).

(** The service a handle opened with at least [needed] names. *)
Definition service_of (h : SC_HANDLE) (needed : Z) (w : world) : win_result (string * service) :=
  match handles w !! h with
  | Some (HService name granted) =>
      if has_access granted needed then
        match services w !! name with
        | Some s => Ok (name, s)
        | None => Err ERROR_SERVICE_DOES_NOT_EXIST
        end
      else Err ERROR_ACCESS_DENIED
  | _ => Err ERROR_INVALID_HANDLE
  end.

(** A pending transition completes once it has been observed. *)
Definition settle (st : Z) : Z :=
  if st =? SERVICE_START_PENDING then SERVICE_RUNNING
  else if st =? SERVICE_STOP_PENDING then SERVICE_STOPPED else st.

Definition config_size (c : QUERY_SERVICE_CONFIG) : Z :=
  sizeof_QUERY_SERVICE_CONFIG + 2 * (str_size (cfg_lpBinaryPathName c) + str_size (cfg_lpDisplayName c)).

Definition failure_size (fa : SERVICE_FAILURE_ACTIONS) : Z :=
  sizeof_SERVICE_FAILURE_ACTIONS + str_size (fa_lpRebootMsg fa) + str_size (fa_lpCommand fa)
  + sizeof_SC_ACTION * Z.of_nat (length (fa_actions fa)).

Definition sized {A} (need bufSize : Z) (a : A) : sized_result A :=
  if need <=? bufSize then Filled a need else Short ERROR_INSUFFICIENT_BUFFER need.

Definition keep_or (v dflt : Z) : Z := if v =? SERVICE_NO_CHANGE then dflt else v.

(** [ChangeServiceConfigA]: the fields that are not [SERVICE_NO_CHANGE] or
    [NULL]. *)
Definition change_config (p : change_params) (c : QUERY_SERVICE_CONFIG) : QUERY_SERVICE_CONFIG :=
  mk_config (keep_or (ch_serviceType p) (cfg_dwServiceType c)) (keep_or (ch_startType p) (cfg_dwStartType c))
    (keep_or (ch_errorControl p) (cfg_dwErrorControl c))
    (match ch_binaryPath p with Some b => Some b | None => cfg_lpBinaryPathName c end)
    (match ch_displayName p with Some d => Some d | None => cfg_lpDisplayName c end).

Definition change_config2 (info : config2_info) (s : service) : service :=
  match info with
  | InfoDescription d => mk_service (sv_config s) (Some d) (sv_delayed s) (sv_failure s) (sv_state s) (sv_pid s)
  | InfoDelayedAutoStart b => mk_service (sv_config s) (sv_description s) b (sv_failure s) (sv_state s) (sv_pid s)
  | InfoFailureActions fa => mk_service (sv_config s) (sv_description s) (sv_delayed s) fa (sv_state s) (sv_pid s)
  end.

Definition with_state (st : Z) (s : service) : service :=
  mk_service (sv_config s) (sv_description s) (sv_delayed s) (sv_failure s) st (sv_pid s).

Definition new_service (p : create_params) : service :=
  mk_service (mk_config (cr_serviceType p) (cr_startType p) (cr_errorControl p) (Some (cr_binaryPath p))
                (Some (cr_displayName p)))
    None false (mk_failure_actions 0 None None []) SERVICE_STOPPED 0.

Definition status_of (s : service) : SERVICE_STATUS_PROCESS :=
  mk_status (cfg_dwServiceType (sv_config s)) (sv_state s) (sv_pid s).

(** The answer to each call. *)
Definition handle {T} (e : scmE T) : world → T * world :=
  match e in scmE T return world → T * world with
  | OpenSCManagerE access => λ w, let '(h, w') := alloc (HManager access) w in (Ok h, w')
  | OpenServiceE scm name access => λ w,
      match handles w !! scm, services w !! name with
      | Some (HManager _), Some _ => let '(h, w') := alloc (HService name access) w in (Ok h, w')
      | Some (HManager _), None => (Err ERROR_SERVICE_DOES_NOT_EXIST, w)
      | _, _ => (Err ERROR_INVALID_HANDLE, w)
      end
  | CloseServiceHandleE h => λ w, (tt, mk_world (services w) (delete h (handles w)) (next_handle w))
  | QueryServiceStatusExE h => λ w,
      match service_of h SERVICE_QUERY_STATUS w with
      | Ok (name, s) => (Ok (status_of s), set_service name (with_state (settle (sv_state s)) s) w)
      | Err c => (Err c, w)
      end
  | QueryServiceConfigE h n => λ w,
      match service_of h SERVICE_QUERY_CONFIG w with
      | Ok (_, s) => (sized (config_size (sv_config s)) n (sv_config s), w)
      | Err c => (Short c 0, w)
      end
  | QueryServiceDescriptionE h n => λ w,
      match service_of h SERVICE_QUERY_CONFIG w with
      | Ok (_, s) =>
          (sized (sizeof_SERVICE_DESCRIPTION + str_size (sv_description s)) n (sv_description s), w)
      | Err c => (Short c 0, w)
      end
  | QueryServiceFailureActionsE h n => λ w,
      match service_of h SERVICE_QUERY_CONFIG w with
      | Ok (_, s) =>
          if failure_size (sv_failure s) <=? n then (Ok (sv_failure s), w)
          else (Err ERROR_INSUFFICIENT_BUFFER, w)
      | Err c => (Err c, w)
      end
  | CreateServiceE scm p => λ w,
      match handles w !! scm with
      | Some (HManager granted) =>
          if has_access granted SC_MANAGER_CREATE_SERVICE then
            match services w !! cr_name p with
            | Some _ => (Err ERROR_SERVICE_EXISTS, w)
            | None =>
                let '(h, w') := alloc (HService (cr_name p) (cr_access p))
                                  (set_service (cr_name p) (new_service p) w) in
                (Ok (h, if cr_tagRequested p then 1 else 0), w')
            end
          else (Err ERROR_ACCESS_DENIED, w)
      | _ => (Err ERROR_INVALID_HANDLE, w)
      end
  | ChangeServiceConfigE h p => λ w,
      match service_of h SERVICE_CHANGE_CONFIG w with
      | Ok (name, s) =>
          (Ok tt, set_service name (mk_service (change_config p (sv_config s)) (sv_description s)
                                      (sv_delayed s) (sv_failure s) (sv_state s) (sv_pid s)) w)
      | Err c => (Err c, w)
      end
  | ChangeServiceConfig2E h info => λ w,
      match service_of h SERVICE_CHANGE_CONFIG w with
      | Ok (name, s) => (Ok tt, set_service name (change_config2 info s) w)
      | Err c => (Err c, w)
      end
  | StartServiceE h => λ w,
      match service_of h SERVICE_START w with
      | Ok (name, s) =>
          if sv_state s =? SERVICE_STOPPED then (Ok tt, set_service name (with_state SERVICE_START_PENDING s) w)
          else (Err ERROR_SERVICE_ALREADY_RUNNING, w)
      | Err c => (Err c, w)
      end
  | ControlServiceE h control => λ w,
      match service_of h SERVICE_STOP w with
      | Ok (name, s) =>
          if sv_state s =? SERVICE_STOPPED then (Err ERROR_SERVICE_NOT_ACTIVE, w)
          else let s' := with_state SERVICE_STOP_PENDING s in (Ok (status_of s'), set_service name s' w)
      | Err c => (Err c, w)
      end
  | DeleteServiceE h => λ w,
      match service_of h DELETE w with
      | Ok (name, _) => (Ok tt, mk_world (delete name (services w)) (handles w) (next_handle w))
      | Err c => (Err c, w)
      end
  end.

#[export] Instance win_registry : Registry world := @handle.

(** A system with the given services and no open handle. *)
Definition boot (svcs : list (string * service)) : machine world :=
  mk_machine (mk_world (list_to_map svcs) ∅ 1) 0 [].

(** A stopped own-process service with a display name and a binary path. *)
Definition stopped_service (displayName binPath : string) : service :=
  mk_service (mk_config SERVICE_WIN32_OWN_PROCESS SERVICE_DEMAND_START SERVICE_ERROR_NORMAL
                (Some binPath) (Some displayName))
    None false (mk_failure_actions 0 None None []) SERVICE_STOPPED 0.

(** ** The answers used by the proofs *)

Lemma open_manager_run a (w : world) :
  reg_handle (OpenSCManagerE a) w
  = (Ok (next_handle w), mk_world (services w) (<[next_handle w := HManager a]> (handles w)) (next_handle w + 1)).
Proof. reflexivity. Qed.

Lemma open_service_run scm name access a s (w : world) :
  handles w !! scm = Some (HManager a) → services w !! name = Some s →
  reg_handle (OpenServiceE scm name access) w
  = (Ok (next_handle w),
     mk_world (services w) (<[next_handle w := HService name access]> (handles w)) (next_handle w + 1)).
Proof. intros Hh Hs. cbv [reg_handle win_registry handle]. by rewrite Hh, Hs. Qed.

Lemma service_of_ok h need (w : world) name granted s :
  handles w !! h = Some (HService name granted) → has_access granted need = true →
  services w !! name = Some s → service_of h need w = Ok (name, s).
Proof. intros Hh Ha Hs. unfold service_of. by rewrite Hh, Ha, Hs. Qed.

Lemma change2_run h info (w : world) name s :
  service_of h SERVICE_CHANGE_CONFIG w = Ok (name, s) →
  reg_handle (ChangeServiceConfig2E h info) w = (Ok tt, set_service name (change_config2 info s) w).
Proof. intros H. cbv [reg_handle win_registry handle]. by rewrite H. Qed.

Lemma query_failure_short h n (w : world) name s :
  service_of h SERVICE_QUERY_CONFIG w = Ok (name, s) → n < failure_size (sv_failure s) →
  reg_handle (QueryServiceFailureActionsE h n) w = (Err ERROR_INSUFFICIENT_BUFFER, w).
Proof.
  intros H Hn. cbv [reg_handle win_registry handle]. rewrite H.
  destruct (Z.leb_spec (failure_size (sv_failure s)) n); [lia|done].
Qed.

Lemma start_run h (w : world) name s :
  service_of h SERVICE_START w = Ok (name, s) → sv_state s = SERVICE_STOPPED →
  reg_handle (StartServiceE h) w = (Ok tt, set_service name (with_state SERVICE_START_PENDING s) w).
Proof. intros H Hs. cbv [reg_handle win_registry handle]. by rewrite H, Hs. Qed.

Lemma status_denied h (w : world) name granted :
  handles w !! h = Some (HService name granted) → has_access granted SERVICE_QUERY_STATUS = false →
  reg_handle (QueryServiceStatusExE h) w = (Err ERROR_ACCESS_DENIED, w).
Proof. intros Hh Ha. cbv [reg_handle win_registry handle service_of]. by rewrite Hh, Ha. Qed.

Lemma close_services h (w : world) : services (reg_handle (CloseServiceHandleE h) w).2 = services w.
Proof. reflexivity. Qed.

Lemma open_service_absent scm name access a (w : world) :
  handles w !! scm = Some (HManager a) → services w !! name = None →
  reg_handle (OpenServiceE scm name access) w = (Err ERROR_SERVICE_DOES_NOT_EXIST, w).
Proof. intros Hh Hs. cbv [reg_handle win_registry handle]. by rewrite Hh, Hs. Qed.

Lemma status_run h (w : world) name s :
  service_of h SERVICE_QUERY_STATUS w = Ok (name, s) →
  reg_handle (QueryServiceStatusExE h) w
  = (Ok (status_of s), set_service name (with_state (settle (sv_state s)) s) w).
Proof. intros H. cbv [reg_handle win_registry handle]. by rewrite H. Qed.

Lemma config_run h n (w : world) name s :
  service_of h SERVICE_QUERY_CONFIG w = Ok (name, s) →
  reg_handle (QueryServiceConfigE h n) w = (sized (config_size (sv_config s)) n (sv_config s), w).
Proof. intros H. cbv [reg_handle win_registry handle]. by rewrite H. Qed.

Lemma description_run h n (w : world) name s :
  service_of h SERVICE_QUERY_CONFIG w = Ok (name, s) →
  reg_handle (QueryServiceDescriptionE h n) w
  = (sized (sizeof_SERVICE_DESCRIPTION + str_size (sv_description s)) n (sv_description s), w).
Proof. intros H. cbv [reg_handle win_registry handle]. by rewrite H. Qed.

Lemma change_run h p (w : world) name s :
  service_of h SERVICE_CHANGE_CONFIG w = Ok (name, s) →
  reg_handle (ChangeServiceConfigE h p) w
  = (Ok tt, set_service name (mk_service (change_config p (sv_config s)) (sv_description s)
                                (sv_delayed s) (sv_failure s) (sv_state s) (sv_pid s)) w).
Proof. intros H. cbv [reg_handle win_registry handle]. by rewrite H. Qed.

Lemma control_run h c (w : world) name s :
  service_of h SERVICE_STOP w = Ok (name, s) → sv_state s ≠ SERVICE_STOPPED →
  reg_handle (ControlServiceE h c) w
  = (Ok (status_of (with_state SERVICE_STOP_PENDING s)),
     set_service name (with_state SERVICE_STOP_PENDING s) w).
Proof.
  intros H Hs. cbv [reg_handle win_registry handle]. rewrite H.
  by rewrite (proj2 (Z.eqb_neq _ _) Hs).
Qed.

Lemma delete_run h (w : world) name s :
  service_of h DELETE w = Ok (name, s) →
  reg_handle (DeleteServiceE h) w = (Ok tt, mk_world (delete name (services w)) (handles w) (next_handle w)).
Proof. intros H. cbv [reg_handle win_registry handle]. by rewrite H. Qed.

Lemma create_run scm p a (w : world) :
  handles w !! scm = Some (HManager a) → has_access a SC_MANAGER_CREATE_SERVICE = true →
  services w !! cr_name p = None →
  reg_handle (CreateServiceE scm p) w
  = (Ok (next_handle w, if cr_tagRequested p then 1 else 0),
     (alloc (HService (cr_name p) (cr_access p)) (set_service (cr_name p) (new_service p) w)).2).
Proof. intros Hh Ha Hs. cbv [reg_handle win_registry handle]. by rewrite Hh, Ha, Hs. Qed.

Lemma create_exists scm p a s (w : world) :
  handles w !! scm = Some (HManager a) → has_access a SC_MANAGER_CREATE_SERVICE = true →
  services w !! cr_name p = Some s →
  reg_handle (CreateServiceE scm p) w = (Err ERROR_SERVICE_EXISTS, w).
Proof. intros Hh Ha Hs. cbv [reg_handle win_registry handle]. by rewrite Hh, Ha, Hs. Qed.

Lemma close_run h (w : world) :
  reg_handle (CloseServiceHandleE h) w = (tt, mk_world (services w) (delete h (handles w)) (next_handle w)).
Proof. reflexivity. Qed.

(** The configuration answer has a fixed part, so the probe with an empty
    buffer is always too small, and the size it reports is enough. *)
Lemma config_size_pos c : 0 < config_size c.
Proof.
  unfold config_size, sizeof_QUERY_SERVICE_CONFIG, str_size.
  destruct (cfg_lpBinaryPathName c), (cfg_lpDisplayName c); lia.
Qed.

Lemma sized_short {A} need n (a : A) : n < need → sized need n a = Short ERROR_INSUFFICIENT_BUFFER need.
Proof. intros H. unfold sized. by rewrite (proj2 (Z.leb_gt _ _) H). Qed.

Lemma sized_fits {A} need n (a : A) : need <= n → sized need n a = Filled a need.
Proof. intros H. unfold sized. by rewrite (proj2 (Z.leb_le _ _) H). Qed.

Lemma sized_fill {A} need (a : A) : sized need need a = Filled a need.
Proof. apply sized_fits. lia. Qed.

Lemma state_of_status s : dwCurrentState (status_of s) = sv_state s.
Proof. reflexivity. Qed.

Lemma state_with_state st s : sv_state (with_state st s) = st.
Proof. reflexivity. Qed.

Lemma settle_running : settle SERVICE_RUNNING = SERVICE_RUNNING.
Proof. reflexivity. Qed.

Lemma settle_stopped : settle SERVICE_STOPPED = SERVICE_STOPPED.
Proof. reflexivity. Qed.

Lemma settle_stop_pending : settle SERVICE_STOP_PENDING = SERVICE_STOPPED.
Proof. reflexivity. Qed.

Lemma with_state_twice st st' s : with_state st (with_state st' s) = with_state st s.
Proof. reflexivity. Qed.

Create Rewrite HintDb win_rw.
#[export] Hint Rewrite state_of_status state_with_state settle_running settle_stopped
  settle_stop_pending with_state_twice : win_rw.

(** Solve the side conditions of the step lemmas: the lookups of handles
    and services in a world built by the previous steps. *)
Ltac win_lookup :=
  cbn [handles services next_handle set_service alloc fst snd];
  repeat first [ rewrite lookup_insert_eq | rewrite lookup_insert_ne by lia
               | rewrite lookup_delete_ne by lia ];
  first [ reflexivity | eassumption ].

Ltac win_side :=
  first [ eapply service_of_ok; [win_lookup | reflexivity | win_lookup]
        | win_lookup | reflexivity | lia | cbv; intros ?; discriminate ].

(** Run the SCM call at the head of the goal on the reference SCM. *)
Ltac win_call :=
  rewrite ?bind_run, call_run; cbn [m_world];
  first [ rewrite open_manager_run | rewrite close_run
        | erewrite open_service_run by win_side | erewrite open_service_absent by win_side
        | erewrite status_run by win_side | erewrite config_run by win_side
        | erewrite description_run by win_side
        | erewrite change_run by win_side | erewrite change2_run by win_side
        | erewrite control_run by win_side | erewrite delete_run by win_side
        | erewrite create_run by win_side | erewrite create_exists by win_side
        | erewrite start_run by win_side
        | erewrite status_denied by win_side ];
  scm_unfold; cbn [handles services next_handle set_service alloc fst snd].

(** The system of the examples: one stopped service ["Svc"] without a
    description. *)
Definition demo : machine world := boot [("Svc", stopped_service "My Service" "svc.exe")]%string.

End WinScm.
