(* ===== verification/Lifecycle.v ===== *)
(** * Lifecycle: [StartService] and [StopService]

    [StartService] (src/main-scclone.cpp, lines 521-584) opens the SCM and
    the service, sends the start request, then polls the service status
    every 250 ms until it is running or more than 30000 ms have passed.
    [StopService] (lines 593-674) first queries the status, returns at once
    when the service is already stopped, and otherwise sends
    [SERVICE_CONTROL_STOP] and polls the same way for the stopped state.
    The two [while (true)] loops are the same code with other messages:
    [poll_body] is one iteration, [wait_for_state] the loop with fuel. *)

From Stdlib Require Import ZArith Lia String Ascii.
From stdpp Require Import base list gmap strings.
From S2P Require Import Prelude Encoders Registry.
Import Win Access Registry.

Open Scope Z_scope.

#[local] Existing Instance Scripted.scripted_registry.

Module Lifecycle.

(** How a poll loop ends. *)
Inductive poll_outcome := PollReached | PollQueryFailed (code : Z) | PollTimedOut | PollOutOfFuel.

Definition reached (o : poll_outcome) : bool := match o with PollReached => true | _ => false end.

(** [DWORD waitTime = 30000], [Sleep(250)]. *)
Definition waitTime : Z := 30000.
Definition poll_interval : Z := 250.

(** Enough iterations for every run: the loop times out at the 122nd
    status query at the latest ([wait_for_state_total]). *)
Definition poll_fuel : nat := 122.

Section Lifecycle.
Context {W : Type} `{!Registry W}.

(** One iteration of the [while (true)] loop of lines 554-578 (and
    644-668). *)
Definition poll_body (svc : SC_HANDLE) (target : Z) (okMsg timeoutMsg : string) (startTime : Z)
    (_ : unit) : SCM W (unit + poll_outcome) :=
  r ← call (QueryServiceStatusExE svc);
  match r with
  | Err c => err_code "Failed to query service status: " c;; mret (inr (PollQueryFailed c))
  | Ok status =>
      if dwCurrentState status =? target then out okMsg;; mret (inr PollReached)
      else now ← GetTickCount64;
           if waitTime <? to_u64 (now - startTime) then err timeoutMsg;; mret (inr PollTimedOut)
           else Sleep poll_interval;; mret (inl tt)
  end.

Definition wait_for_state (fuel : nat) (svc : SC_HANDLE) (target : Z) (okMsg timeoutMsg : string)
    (startTime : Z) : SCM W poll_outcome :=
  loop_fuel fuel PollOutOfFuel (poll_body svc target okMsg timeoutMsg startTime) tt.

(** [StartService], lines 521-584. *)
Definition StartService (serviceName : string) : SCM W bool :=
  r ← call (OpenSCManagerE SC_MANAGER_CONNECT);
  match r with
  | Err c => err_code "Failed to open service control manager: " c;; mret false
  | Ok scManager =>
    r ← call (OpenServiceE scManager serviceName SERVICE_START);
    match r with
    | Err c => err_code "Failed to open service: " c;; CloseServiceHandle scManager;; mret false
    | Ok service =>
      r ← call (StartServiceE service);
      match r with
      | Err c =>
          err_code "Failed to start service: " c;;
          CloseServiceHandle service;; CloseServiceHandle scManager;; mret false
      | Ok _ =>
          out "Service start pending... ";;
          startTime ← GetTickCount64;
          o ← wait_for_state poll_fuel service SERVICE_RUNNING
                "Service started successfully." "Service start timed out." startTime;
          CloseServiceHandle service;; CloseServiceHandle scManager;; mret (reached o)
      end
    end
  end.

(** [StopService], lines 593-674. *)
Definition StopService (serviceName : string) : SCM W bool :=
  r ← call (OpenSCManagerE SC_MANAGER_CONNECT);
  match r with
  | Err c => err_code "Failed to open service control manager: " c;; mret false
  | Ok scManager =>
    r ← call (OpenServiceE scManager serviceName (Z.lor SERVICE_STOP SERVICE_QUERY_STATUS));
    match r with
    | Err c => err_code "Failed to open service: " c;; CloseServiceHandle scManager;; mret false
    | Ok service =>
      r ← call (QueryServiceStatusExE service);
      match r with
      | Err c =>
          err_code "Failed to query service status: " c;;
          CloseServiceHandle service;; CloseServiceHandle scManager;; mret false
      | Ok status =>
        if dwCurrentState status =? SERVICE_STOPPED then
          out "Service is already stopped.";;
          CloseServiceHandle service;; CloseServiceHandle scManager;; mret true
        else
          r ← call (ControlServiceE service SERVICE_CONTROL_STOP);
          match r with
          | Err c =>
              err_code "Failed to stop service: " c;;
              CloseServiceHandle service;; CloseServiceHandle scManager;; mret false
          | Ok _ =>
              out "Service stop pending... ";;
              startTime ← GetTickCount64;
              o ← wait_for_state poll_fuel service SERVICE_STOPPED
                    "Service stopped successfully." "Service stop timed out." startTime;
              CloseServiceHandle service;; CloseServiceHandle scManager;; mret (reached o)
          end
      end
    end
  end.

(** ** Behaviours of the SCM the theorems assume *)

(** The next [n] status queries of [svc] answer, and not with [target]. *)
Fixpoint misses (svc : SC_HANDLE) (target : Z) (n : nat) (w : W) : bool :=
  match n with
  | O => true
  | S n' =>
      match reg_handle (QueryServiceStatusExE svc) w with
      | (Ok st, w') => negb (dwCurrentState st =? target) && misses svc target n' w'
      | (Err _, _) => false
      end
  end.

(** The next [n] status queries miss [target] and the one after is
    [target]. *)
Fixpoint reaches_after (svc : SC_HANDLE) (target : Z) (n : nat) (w : W) : bool :=
  match reg_handle (QueryServiceStatusExE svc) w with
  | (Ok st, w') =>
      match n with
      | O => dwCurrentState st =? target
      | S n' => negb (dwCurrentState st =? target) && reaches_after svc target n' w'
      end
  | (Err _, _) => false
  end.

(** ** One iteration *)

(** The iteration at [k * 250] ms after the start: the reply of the status
    query decides; the loop times out from the 122nd query on, when the
    elapsed time is [121 * 250 = 30250 > 30000] ms. *)
Lemma poll_body_run svc target ok to c0 k (m : machine W) :
  m_clock m = c0 + poll_interval * k → 0 <= k <= 121 →
  poll_body svc target ok to (to_u64 c0) tt m =
  match reg_handle (QueryServiceStatusExE svc) (m_world m) with
  | (Err c, w') =>
      (inr (PollQueryFailed c), mk_machine w' (m_clock m)
        (m_trace m ++ [EvCall (QueryServiceStatusExE svc) (Err c);
                       EvErrCode "Failed to query service status: " c]))
  | (Ok st, w') =>
      if dwCurrentState st =? target then
        (inr PollReached, mk_machine w' (m_clock m)
          (m_trace m ++ [EvCall (QueryServiceStatusExE svc) (Ok st); EvOut ok]))
      else if 121 <=? k then
        (inr PollTimedOut, mk_machine w' (m_clock m)
          (m_trace m ++ [EvCall (QueryServiceStatusExE svc) (Ok st); EvTick (to_u64 (m_clock m));
                         EvErr to]))
      else
        (inl tt, mk_machine w' (m_clock m + poll_interval)
          (m_trace m ++ [EvCall (QueryServiceStatusExE svc) (Ok st); EvTick (to_u64 (m_clock m));
                         EvSleep poll_interval]))
  end.
Proof.
  intros Hclock Hk. unfold poll_body. cbv beta. rewrite bind_run, call_run.
  destruct (reg_handle (QueryServiceStatusExE svc) (m_world m)) as [[st|c] w'] eqn:E;
    scm_unfold; [|by rewrite <- app_assoc].
  destruct (dwCurrentState st =? target); scm_unfold; [by rewrite <- app_assoc|].
  rewrite u64_sub_wrap, Hclock. replace (c0 + poll_interval * k - c0) with (poll_interval * k) by lia.
  unfold poll_interval, waitTime. rewrite u64_small by lia.
  destruct (Z.leb_spec 121 k); destruct (Z.ltb_spec 30000 (250 * k)); try lia;
    scm_unfold; by rewrite <- !app_assoc.
Qed.

(** ** The loop *)

Lemma wait_timeout_from svc target ok to c0 r fuel (m : machine W) :
  (r ≤ 121)%nat → m_clock m = c0 + poll_interval * Z.of_nat (121 - r) →
  misses svc target (S r) (m_world m) = true → (S r ≤ fuel)%nat →
  ∃ m' tr, loop_fuel fuel PollOutOfFuel (poll_body svc target ok to (to_u64 c0)) tt m = (PollTimedOut, m')
    ∧ m_trace m' = m_trace m ++ tr ∧ m_clock m' = c0 + 30250
    ∧ count_ev is_status_query tr = S r ∧ count_ev is_sleep tr = r.
Proof.
  revert fuel m. induction r as [|r IH]; intros fuel m Hr Hclock Hmiss Hfuel;
    destruct fuel as [|fuel]; try lia; rewrite loop_fuel_S;
    rewrite (poll_body_run _ _ _ _ c0 (Z.of_nat (121 - _))) by (done || lia);
    cbn [misses] in Hmiss; destruct (reg_handle _ (m_world m)) as [[st|c] w'];
    try done; apply andb_true_iff in Hmiss as [Hne Hmiss];
    apply negb_true_iff in Hne; rewrite Hne.
  - rewrite (proj2 (Z.leb_le _ _)) by lia.
    eexists _, _. split_and!; [done|done|simpl in *; unfold poll_interval in *; lia|done|done].
  - rewrite (proj2 (Z.leb_gt _ _)) by lia.
    destruct (IH fuel (mk_machine w' (m_clock m + poll_interval)
       (m_trace m ++ [EvCall (QueryServiceStatusExE svc) (Ok st); EvTick (to_u64 (m_clock m));
                      EvSleep poll_interval]))) as (m' & tr & Hrun & Htr & Hc & Hq & Hs);
      [lia|simpl; unfold poll_interval in *; lia|done|lia|].
    rewrite Hrun. eexists _, _. split_and!; [done|rewrite Htr; simpl; by rewrite <- app_assoc|done| |].
    all: autorewrite with scc_rw; simpl; lia.
Qed.

Lemma wait_reached_from svc target ok to c0 k n fuel (m : machine W) :
  (k + n ≤ 120)%nat → m_clock m = c0 + poll_interval * Z.of_nat k →
  reaches_after svc target n (m_world m) = true → (n < fuel)%nat →
  ∃ m' tr, loop_fuel fuel PollOutOfFuel (poll_body svc target ok to (to_u64 c0)) tt m = (PollReached, m')
    ∧ m_trace m' = m_trace m ++ tr ∧ m_clock m' = m_clock m + poll_interval * Z.of_nat n
    ∧ count_ev is_status_query tr = S n ∧ count_ev is_sleep tr = n ∧ count_ev is_control tr = 0%nat.
Proof.
  revert k fuel m. induction n as [|n IH]; intros k fuel m Hk Hclock Hreach Hfuel;
    destruct fuel as [|fuel]; try lia; rewrite loop_fuel_S;
    rewrite (poll_body_run _ _ _ _ c0 (Z.of_nat k)) by (done || lia);
    cbn [reaches_after] in Hreach; destruct (reg_handle _ (m_world m)) as [[st|c] w']; try done.
  - rewrite Hreach. eexists _, _. split_and!; [done|done|simpl; lia|done|done|done].
  - apply andb_true_iff in Hreach as [Hne Hreach]. apply negb_true_iff in Hne. rewrite Hne.
    rewrite (proj2 (Z.leb_gt _ _)) by lia.
    destruct (IH (S k) fuel (mk_machine w' (m_clock m + poll_interval)
       (m_trace m ++ [EvCall (QueryServiceStatusExE svc) (Ok st); EvTick (to_u64 (m_clock m));
                      EvSleep poll_interval]))) as (m' & tr & Hrun & Htr & Hc & Hq & Hs & Hctl);
      [lia|simpl; unfold poll_interval in *; lia|done|lia|].
    rewrite Hrun. eexists _, _. split_and!; [done|rewrite Htr; simpl; by rewrite <- app_assoc| | | |].
    + rewrite Hc. simpl. lia.
    + autorewrite with scc_rw; simpl; lia.
    + autorewrite with scc_rw; simpl; lia.
    + autorewrite with scc_rw; simpl; lia.
Qed.

Lemma wait_total_from svc target ok to c0 r fuel fuel' (m : machine W) :
  (r ≤ 121)%nat → m_clock m = c0 + poll_interval * Z.of_nat (121 - r) →
  (S r ≤ fuel)%nat → (S r ≤ fuel')%nat →
  loop_fuel fuel PollOutOfFuel (poll_body svc target ok to (to_u64 c0)) tt m
  = loop_fuel fuel' PollOutOfFuel (poll_body svc target ok to (to_u64 c0)) tt m
  ∧ (loop_fuel fuel PollOutOfFuel (poll_body svc target ok to (to_u64 c0)) tt m).1 ≠ PollOutOfFuel.
Proof.
  revert fuel fuel' m. induction r as [|r IH]; intros fuel fuel' m Hr Hclock Hf Hf';
    destruct fuel as [|fuel]; destruct fuel' as [|fuel']; try lia; rewrite !loop_fuel_S;
    rewrite (poll_body_run _ _ _ _ c0 (Z.of_nat (121 - _))) by (done || lia);
    destruct (reg_handle _ (m_world m)) as [[st|c] w']; try done;
    destruct (dwCurrentState st =? target); try done.
  rewrite (proj2 (Z.leb_gt _ _)) by lia. apply IH; [lia|simpl; unfold poll_interval in *; lia|lia|lia].
Qed.

(** ** Properties *)

(** C1. Termination of the poll loop, for every behaviour of the SCM:
    started with the current tick count, [wait_for_state] ends by itself
    (target reached, query failure or timeout) within [poll_fuel = 122]
    iterations; more fuel changes nothing, so the [while (true)] loop of
    the source always terminates. *)
Theorem wait_for_state_total fuel svc target ok to (m : machine W) :
  (poll_fuel ≤ fuel)%nat →
  wait_for_state fuel svc target ok to (to_u64 (m_clock m)) m
  = wait_for_state poll_fuel svc target ok to (to_u64 (m_clock m)) m
  ∧ (wait_for_state fuel svc target ok to (to_u64 (m_clock m)) m).1 ≠ PollOutOfFuel.
Proof.
  intros Hf. unfold wait_for_state, poll_fuel in *.
  apply (wait_total_from _ _ _ _ _ 121); [lia|simpl; lia|lia|lia].
Qed.

(** C2. Timeout of [start]: when the SCM accepts the start request but the
    service never reaches the running state, [StartService] fails after
    exactly 122 status queries and 121 sleeps of 250 ms, with the clock at
    30250 ms after the start (the first reading with more than 30000 ms
    elapsed), whatever the value of the tick counter, even across its 64-bit
    wrap-around. *)
Theorem StartService_timeout name (m : machine W) scm svc w1 w2 w3 :
  reg_handle (OpenSCManagerE SC_MANAGER_CONNECT) (m_world m) = (Ok scm, w1) →
  reg_handle (OpenServiceE scm name SERVICE_START) w1 = (Ok svc, w2) →
  reg_handle (StartServiceE svc) w2 = (Ok tt, w3) →
  misses svc SERVICE_RUNNING 122 w3 = true →
  ∃ m' tr, StartService name m = (false, m') ∧ m_trace m' = m_trace m ++ tr
    ∧ count_ev is_status_query tr = 122%nat ∧ count_ev is_sleep tr = 121%nat
    ∧ m_clock m' = m_clock m + 30250.
Proof.
  intros H1 H2 H3 Hmiss. unfold StartService.
  scm_call H1. scm_call H2. scm_call H3.
  unfold wait_for_state, poll_fuel.
  match goal with
  | |- context [loop_fuel ?f ?d (poll_body ?a ?b ?c ?e _) tt ?M] =>
      destruct (wait_timeout_from a b c e (m_clock m) 121 f M)
        as (m' & tr & Hrun & Htr & Hc & Hq & Hs); [lia|simpl; lia|done|lia|]
  end.
  rewrite Hrun. cbv beta iota zeta. rewrite !call_run. scm_unfold.
  eexists _, _. split_and!; [done|simpl; rewrite Htr; cbn [m_trace]; by rewrite <- !app_assoc| | |simpl; lia].
  all: autorewrite with scc_rw; simpl; lia.
Qed.

End Lifecycle.

Lemma wait_for_state_total_witness :
  let m := mk_machine (Scripted.mk_world [Scripted.in_state SERVICE_START_PENDING]) 5 [] in
  wait_for_state (W := Scripted.world) 200 2 SERVICE_RUNNING "ok" "timeout" (to_u64 (m_clock m)) m
  = wait_for_state poll_fuel 2 SERVICE_RUNNING "ok" "timeout" (to_u64 (m_clock m)) m
  ∧ (wait_for_state 200 2 SERVICE_RUNNING "ok" "timeout" (to_u64 (m_clock m)) m).1 ≠ PollOutOfFuel.
Proof. apply wait_for_state_total. unfold poll_fuel. lia. Defined.

Lemma StartService_timeout_witness :
  ∃ m' tr, StartService (W := Scripted.world) "Svc"%string
             (mk_machine (Scripted.mk_world [Scripted.in_state SERVICE_START_PENDING]) 0 []) = (false, m')
    ∧ m_trace m' = [] ++ tr
    ∧ count_ev is_status_query tr = 122%nat ∧ count_ev is_sleep tr = 121%nat
    ∧ m_clock m' = 0 + 30250.
Proof. eapply StartService_timeout; reflexivity. Defined.

Section Lifecycle2.
Context {W : Type} `{!Registry W}.
(** C3. Success of [start]: when the SCM accepts the start request and
    the service is running at the [(n+1)]-th status query, with [n <= 120],
    [StartService] succeeds after exactly [n + 1] status queries and [n]
    sleeps, [250 * n] ms after the request. *)
Theorem StartService_reaches name (m : machine W) scm svc w1 w2 w3 n :
  reg_handle (OpenSCManagerE SC_MANAGER_CONNECT) (m_world m) = (Ok scm, w1) →
  reg_handle (OpenServiceE scm name SERVICE_START) w1 = (Ok svc, w2) →
  reg_handle (StartServiceE svc) w2 = (Ok tt, w3) →
  (n ≤ 120)%nat → reaches_after svc SERVICE_RUNNING n w3 = true →
  ∃ m' tr, StartService name m = (true, m') ∧ m_trace m' = m_trace m ++ tr
    ∧ count_ev is_status_query tr = S n ∧ count_ev is_sleep tr = n
    ∧ m_clock m' = m_clock m + 250 * Z.of_nat n.
Proof.
  intros H1 H2 H3 Hn Hreach. unfold StartService.
  scm_call H1. scm_call H2. scm_call H3.
  unfold wait_for_state, poll_fuel.
  match goal with
  | |- context [loop_fuel ?f ?d (poll_body ?a ?b ?c ?e _) tt ?M] =>
      destruct (wait_reached_from a b c e (m_clock m) 0 n f M)
        as (m' & tr & Hrun & Htr & Hc & Hq & Hs & Hctl); [lia|simpl; lia|done|lia|]
  end.
  rewrite Hrun. cbv beta iota zeta. rewrite !call_run. scm_unfold.
  eexists _, _. split_and!; [done|rewrite Htr; cbn [m_trace]; by rewrite <- !app_assoc| | |].
  - autorewrite with scc_rw; simpl; lia.
  - autorewrite with scc_rw; simpl; lia.
  - rewrite Hc. simpl. unfold poll_interval. lia.
Qed.

(** C4. Success of [stop]: when the service is not stopped at the first
    query, the stop request is accepted and the service is stopped at the
    [(n+1)]-th query of the loop ([n <= 120]), [StopService] succeeds with
    one control request and exactly [n + 2] status queries (the first one
    and [n + 1] polls). *)
Theorem StopService_reaches name (m : machine W) scm svc st0 st1 w1 w2 w3 w4 n :
  reg_handle (OpenSCManagerE SC_MANAGER_CONNECT) (m_world m) = (Ok scm, w1) →
  reg_handle (OpenServiceE scm name (Z.lor SERVICE_STOP SERVICE_QUERY_STATUS)) w1 = (Ok svc, w2) →
  reg_handle (QueryServiceStatusExE svc) w2 = (Ok st0, w3) → dwCurrentState st0 ≠ SERVICE_STOPPED →
  reg_handle (ControlServiceE svc SERVICE_CONTROL_STOP) w3 = (Ok st1, w4) →
  (n ≤ 120)%nat → reaches_after svc SERVICE_STOPPED n w4 = true →
  ∃ m' tr, StopService name m = (true, m') ∧ m_trace m' = m_trace m ++ tr
    ∧ count_ev is_status_query tr = S (S n) ∧ count_ev is_control tr = 1%nat
    ∧ m_clock m' = m_clock m + 250 * Z.of_nat n.
Proof.
  intros H1 H2 H3 Hst H4 Hn Hreach. unfold StopService.
  scm_call H1. scm_call H2. scm_call H3.
  rewrite (proj2 (Z.eqb_neq _ _) Hst). scm_call H4.
  unfold wait_for_state, poll_fuel.
  match goal with
  | |- context [loop_fuel ?f ?d (poll_body ?a ?b ?c ?e _) tt ?M] =>
      destruct (wait_reached_from a b c e (m_clock m) 0 n f M)
        as (m' & tr & Hrun & Htr & Hc & Hq & Hs & Hctl); [lia|simpl; lia|done|lia|]
  end.
  rewrite Hrun. cbv beta iota zeta. rewrite !call_run. scm_unfold.
  eexists _, _. split_and!; [done|rewrite Htr; cbn [m_trace]; by rewrite <- !app_assoc| | |].
  - autorewrite with scc_rw; simpl; lia.
  - autorewrite with scc_rw; simpl; lia.
  - rewrite Hc. simpl. unfold poll_interval. lia.
Qed.

(** C5. [stop] on a stopped service: when the first status query says
    the service is stopped, [StopService] succeeds without sending any
    control request, after that single query, and still closes both
    handles. *)
Theorem StopService_already_stopped name (m : machine W) scm svc st w1 w2 w3 :
  reg_handle (OpenSCManagerE SC_MANAGER_CONNECT) (m_world m) = (Ok scm, w1) →
  reg_handle (OpenServiceE scm name (Z.lor SERVICE_STOP SERVICE_QUERY_STATUS)) w1 = (Ok svc, w2) →
  reg_handle (QueryServiceStatusExE svc) w2 = (Ok st, w3) → dwCurrentState st = SERVICE_STOPPED →
  ∃ m' tr, StopService name m = (true, m') ∧ m_trace m' = m_trace m ++ tr
    ∧ count_ev is_control tr = 0%nat ∧ count_ev is_status_query tr = 1%nat
    ∧ EvOut "Service is already stopped." ∈ tr.
Proof.
  intros H1 H2 H3 Hst. unfold StopService.
  scm_call H1. scm_call H2. scm_call H3. rewrite Hst, Z.eqb_refl. scm_unfold.
  rewrite !call_run. scm_unfold.
  eexists _, _. split_and!; [done|by rewrite <- !app_assoc| | |].
  - autorewrite with scc_rw; simpl; lia.
  - autorewrite with scc_rw; simpl; lia.
  - set_solver.
Qed.

End Lifecycle2.

Lemma StartService_reaches_witness :
  ∃ m' tr, StartService (W := Scripted.world) "Svc"%string
             (mk_machine (Scripted.mk_world [Scripted.in_state SERVICE_START_PENDING;
                Scripted.in_state SERVICE_START_PENDING; Scripted.in_state SERVICE_RUNNING]) 0 [])
           = (true, m')
    ∧ m_trace m' = [] ++ tr
    ∧ count_ev is_status_query tr = 3%nat ∧ count_ev is_sleep tr = 2%nat
    ∧ m_clock m' = 0 + 250 * Z.of_nat 2.
Proof. eapply StartService_reaches; [reflexivity..|lia|reflexivity]. Defined.

Lemma StopService_reaches_witness :
  ∃ m' tr, StopService (W := Scripted.world) "Svc"%string
             (mk_machine (Scripted.mk_world [Scripted.in_state SERVICE_RUNNING;
                Scripted.in_state SERVICE_STOP_PENDING; Scripted.in_state SERVICE_STOPPED]) 0 [])
           = (true, m')
    ∧ m_trace m' = [] ++ tr
    ∧ count_ev is_status_query tr = 3%nat ∧ count_ev is_control tr = 1%nat
    ∧ m_clock m' = 0 + 250 * Z.of_nat 1.
Proof. eapply StopService_reaches; [reflexivity..|discriminate|reflexivity|lia|reflexivity]. Defined.

Lemma StopService_already_stopped_witness :
  ∃ m' tr, StopService (W := Scripted.world) "Svc"%string
             (mk_machine (Scripted.mk_world [Scripted.in_state SERVICE_STOPPED]) 0 []) = (true, m')
    ∧ m_trace m' = [] ++ tr
    ∧ count_ev is_control tr = 0%nat ∧ count_ev is_status_query tr = 1%nat
    ∧ EvOut "Service is already stopped." ∈ tr.
Proof. eapply StopService_already_stopped; reflexivity. Defined.

Section Lifecycle3.
Context {W : Type} `{!Registry W}.
End Lifecycle3.
End Lifecycle.
