(* ===== verification/Config.v ===== *)
(** * Config: the handlers [CreateService] and [ConfigService]

    [CreateService] (src/main-scclone.cpp, lines 299-455) checks the two
    required options before any SCM call, encodes the fields, creates the
    service, and only then sends the description and the delayed-auto-start
    flag as separate, non-fatal requests.  [ConfigService] (lines 724-891)
    opens the service first, encodes the fields with [SERVICE_NO_CHANGE]
    defaults, prints debug lines, changes the configuration, then sends the
    same two follow-up requests.  The [args.at("type")] of line 845 throws
    [std::out_of_range] when [/type] is absent; that uncaught exception
    ends the process, modelled as the result [None]. *)

From Stdlib Require Import ZArith Lia String Ascii.
From stdpp Require Import base list gmap strings.
From S2P Require Import Prelude Encoders Depend Registry.
Import Win Access Registry.

Open Scope Z_scope.

#[local] Existing Instance Scripted.scripted_registry.

Module Config.

(** The [/depend] buffer: [NULL] without [/depend]. *)
Definition dependencies_of (args : gmap string string) : option (list ascii) :=
  match args !! "depend"%string with
  | Some depend => Depend.depend_buffer depend
  | None => None
  end.

(** The full field set of the create request, from the arguments (lines
    306-393). *)
Definition create_request (args : gmap string string) (serviceName binPath : string)
    (serviceType : Z) : create_params :=
  mk_create serviceName (default serviceName (args !! "displayname"%string)) SERVICE_ALL_ACCESS
    serviceType (Encoders.CreateService_startType args) (Encoders.CreateService_errorControl args)
    binPath (args !! "group"%string) (bool_decide (args !! "tag"%string = Some "yes"%string))
    (dependencies_of args) (args !! "obj"%string) (args !! "password"%string).

Section Handlers.
Context {W : Type} `{!Registry W}.

(** A follow-up [ChangeServiceConfig2A] whose failure is only a warning. *)
Definition change2_or_warn (svc : SC_HANDLE) (info : config2_info) (warning : string) : SCM W unit :=
  r ← call (ChangeServiceConfig2E svc info);
  match r with
  | Err c => err_code warning c
  | Ok _ => mret tt
  end.

(** The two follow-up requests of lines 427-444 (and 868-883). *)
Definition secondary_updates (args : gmap string string) (svc : SC_HANDLE) : SCM W unit :=
  (match args !! "description"%string with
   | Some d => change2_or_warn svc (InfoDescription d) "Warning: Failed to set service description: "
   | None => mret tt
   end);;
  (if Encoders.wants_delayed_auto args then
     change2_or_warn svc (InfoDelayedAutoStart true) "Warning: Failed to set delayed auto-start: "
   else mret tt).

(** [CreateService], lines 299-455. *)
Definition CreateService (args : gmap string string) : SCM W bool :=
  match args !! "servicename"%string, args !! "binpath"%string with
  | Some serviceName, Some binPath =>
    match Encoders.CreateService_serviceType args with
    | inl _ =>
        err "ERROR: 'interact' type must be used with 'own' or 'share' (e.g., type=interact type=own)";;
        mret false
    | inr serviceType =>
      let req := create_request args serviceName binPath serviceType in
      r ← call (OpenSCManagerE SC_MANAGER_ALL_ACCESS);
      match r with
      | Err c => err_code "Failed to open service control manager: " c;; mret false
      | Ok scManager =>
        r ← call (CreateServiceE scManager req);
        match r with
        | Err c => err_code "Failed to create service: " c;; CloseServiceHandle scManager;; mret false
        | Ok (service, tag) =>
            out ("Service created successfully: " ++ serviceName)%string;;
            secondary_updates args service;;
            (if cr_tagRequested req then out ("Tag ID: " ++ dec_string tag)%string else mret tt);;
            CloseServiceHandle service;; CloseServiceHandle scManager;; mret true
        end
      end
    end
  | _, _ => err "ERROR: Missing required parameters. Required: /servicename and /binpath";; mret false
  end.

(** The change request of [ConfigService] (lines 741-828). *)
Definition change_request (args : gmap string string) : change_params :=
  mk_change (Encoders.ConfigService_serviceType args) (Encoders.ConfigService_startType args)
    (Encoders.ConfigService_errorControl args) (args !! "binpath"%string) (args !! "group"%string)
    (dependencies_of args) (args !! "obj"%string) (args !! "password"%string)
    (args !! "displayname"%string).

(** The flag words of the debug line 833-842. *)
Definition debug_flags (serviceType : Z) : string :=
  if serviceType =? SERVICE_NO_CHANGE then "SERVICE_NO_CHANGE"
  else
    ((if Encoders.has_flag serviceType SERVICE_KERNEL_DRIVER then "SERVICE_KERNEL_DRIVER " else "")
     ++ (if Encoders.has_flag serviceType SERVICE_FILE_SYSTEM_DRIVER then "SERVICE_FILE_SYSTEM_DRIVER " else "")
     ++ (if Encoders.has_flag serviceType SERVICE_WIN32_OWN_PROCESS then "SERVICE_WIN32_OWN_PROCESS " else "")
     ++ (if Encoders.has_flag serviceType SERVICE_WIN32_SHARE_PROCESS then "SERVICE_WIN32_SHARE_PROCESS " else "")
     ++ (if Encoders.has_flag serviceType SERVICE_INTERACTIVE_PROCESS then "SERVICE_INTERACTIVE_PROCESS " else ""))%string.

(** [ConfigService], lines 724-891; [None] when the process ends on the
    uncaught [std::out_of_range] of line 845. *)
Definition ConfigService (serviceName : string) (args : gmap string string) : SCM W (option bool) :=
  r ← call (OpenSCManagerE SC_MANAGER_CONNECT);
  match r with
  | Err c => err_code "Failed to open service control manager: " c;; mret (Some false)
  | Ok scManager =>
    r ← call (OpenServiceE scManager serviceName SERVICE_CHANGE_CONFIG);
    match r with
    | Err c => err_code "Failed to open service: " c;; CloseServiceHandle scManager;; mret (Some false)
    | Ok service =>
      let req := change_request args in
      out ("Debug - Service Type (numeric value): " ++ dec_string (ch_serviceType req))%string;;
      out ("Debug - Service Type (flags): " ++ debug_flags (ch_serviceType req))%string;;
      match args !! "type"%string with
      | None => mret None
      | Some type =>
        out ("Debug - Type string from args: '" ++ type ++ "'")%string;;
        r ← call (ChangeServiceConfigE service req);
        match r with
        | Err c =>
            err_code "Failed to configure service: " c;;
            CloseServiceHandle service;; CloseServiceHandle scManager;; mret (Some false)
        | Ok _ =>
            secondary_updates args service;;
            out "Service configuration updated successfully.";;
            CloseServiceHandle service;; CloseServiceHandle scManager;; mret (Some true)
        end
      end
    end
  end.

(** ** Lemmas *)

(** The follow-up requests only call [ChangeServiceConfig2A]. *)
Lemma change2_or_warn_trace svc info warning (m : machine W) :
  ∃ tr, m_trace (change2_or_warn svc info warning m).2 = m_trace m ++ tr
    ∧ count_ev is_delete tr = 0%nat ∧ count_ev is_close tr = 0%nat.
Proof.
  unfold change2_or_warn. rewrite bind_run, call_run.
  destruct (reg_handle _ _) as [[|] w']; scm_unfold;
    (eexists; split; [by rewrite <- ?app_assoc|]); autorewrite with scc_rw; simpl; lia.
Qed.

Lemma secondary_updates_trace args svc (m : machine W) :
  ∃ tr, m_trace (secondary_updates args svc m).2 = m_trace m ++ tr
    ∧ count_ev is_delete tr = 0%nat ∧ count_ev is_close tr = 0%nat.
Proof.
  unfold secondary_updates. rewrite bind_run.
  destruct (match args !! "description"%string with _ => _ end m) as [u m1] eqn:E1.
  assert (H1 : ∃ tr, m_trace m1 = m_trace m ++ tr
                 ∧ count_ev is_delete tr = 0%nat ∧ count_ev is_close tr = 0%nat).
  { destruct (args !! "description"%string).
    - destruct (change2_or_warn_trace svc (InfoDescription s) "Warning: Failed to set service description: " m)
        as (tr & Htr & Hd & Hc). rewrite E1 in Htr. eauto.
    - unfold mret, St_ret in E1. simplify_eq. exists []. split_and!; [by rewrite app_nil_r|done|done]. }
  destruct H1 as (tr1 & Htr1 & Hd1 & Hc1).
  destruct (Encoders.wants_delayed_auto args).
  - destruct (change2_or_warn_trace svc (InfoDelayedAutoStart true)
      "Warning: Failed to set delayed auto-start: " m1) as (tr2 & Htr2 & Hd2 & Hc2).
    exists (tr1 ++ tr2). rewrite Htr2, Htr1, app_assoc. split; [done|].
    autorewrite with scc_rw. lia.
  - exists tr1. simpl. done.
Qed.

(** ** Properties *)

(** C26. [create] without [/servicename] or without [/binpath] fails with
    the missing-parameter message and makes no SCM call at all: the
    registry state, the clock and the trace are as before, plus the one
    error line. *)
Theorem CreateService_missing_param args (m : machine W) :
  args !! "servicename"%string = None ∨ args !! "binpath"%string = None →
  CreateService args m =
  (false, mk_machine (m_world m) (m_clock m)
            (m_trace m ++ [EvErr "ERROR: Missing required parameters. Required: /servicename and /binpath"])).
Proof.
  intros Hmiss. unfold CreateService.
  destruct Hmiss as [-> | ->]; [|destruct (args !! "servicename"%string)]; reflexivity.
Qed.

(** C27. [create /type interact] fails before any SCM call. *)
Theorem CreateService_interact_no_call args (m : machine W) name bin :
  args !! "servicename"%string = Some name → args !! "binpath"%string = Some bin →
  args !! "type"%string = Some "interact"%string →
  CreateService args m =
  (false, mk_machine (m_world m) (m_clock m) (m_trace m ++
     [EvErr "ERROR: 'interact' type must be used with 'own' or 'share' (e.g., type=interact type=own)"])).
Proof.
  intros Hn Hb Ht. unfold CreateService. rewrite Hn, Hb.
  rewrite (proj2 (Encoders.CreateService_serviceType_rejects args) Ht). reflexivity.
Qed.

(** C28. No two-phase commit: once the SCM has created the service,
    [CreateService] succeeds whatever the follow-up description and
    delayed-auto-start requests answer, and it never deletes the service
    again (no rollback). *)
Theorem CreateService_created_succeeds args (m : machine W) name bin t scm svc tag w1 w2 :
  args !! "servicename"%string = Some name → args !! "binpath"%string = Some bin →
  Encoders.CreateService_serviceType args = inr t →
  reg_handle (OpenSCManagerE SC_MANAGER_ALL_ACCESS) (m_world m) = (Ok scm, w1) →
  reg_handle (CreateServiceE scm (create_request args name bin t)) w1 = (Ok (svc, tag), w2) →
  ∃ m' tr, CreateService args m = (true, m') ∧ m_trace m' = m_trace m ++ tr
    ∧ count_ev is_delete tr = 0%nat ∧ count_ev is_close tr = 2%nat.
Proof.
  intros Hn Hb Ht H1 H2. unfold CreateService. rewrite Hn, Hb, Ht.
  scm_call H1. scm_call H2.
  match goal with
  | |- context [secondary_updates ?a ?sv ?M] =>
      destruct (secondary_updates_trace a sv M) as (tr1 & Htr1 & Hd1 & Hc1);
      destruct (secondary_updates a sv M) as [[] m2] eqn:Esec
  end.
  simpl in Htr1.
  destruct (cr_tagRequested _); scm_unfold; rewrite !call_run; scm_unfold;
    (eexists _, _; split_and!; [done|rewrite Htr1; by rewrite <- !app_assoc| |]);
    autorewrite with scc_rw; simpl; lia.
Qed.

(** C29. [config] without [/type]: once both handles are open,
    [args.at("type")] throws [std::out_of_range]; the process ends without
    changing the configuration and without closing either handle. *)
Theorem ConfigService_no_type_aborts name args (m : machine W) scm svc w1 w2 :
  reg_handle (OpenSCManagerE SC_MANAGER_CONNECT) (m_world m) = (Ok scm, w1) →
  reg_handle (OpenServiceE scm name SERVICE_CHANGE_CONFIG) w1 = (Ok svc, w2) →
  args !! "type"%string = None →
  ∃ m' tr, ConfigService name args m = (None, m') ∧ m_trace m' = m_trace m ++ tr
    ∧ count_ev is_close tr = 0%nat ∧ count_ev is_call tr = 2%nat.
Proof.
  intros H1 H2 Ht. unfold ConfigService. scm_call H1. scm_call H2. rewrite Ht. scm_unfold.
  eexists _, _. split_and!; [done|by rewrite <- !app_assoc| |];
    autorewrite with scc_rw; simpl; lia.
Qed.

(** C30. [config] with [/type]: the result is the result of the
    [ChangeServiceConfigA] request carrying the encoded fields; the
    follow-up requests never turn it into a failure, and both handles are
    closed. *)
Theorem ConfigService_result name args (m : machine W) scm svc type r w1 w2 w3 :
  reg_handle (OpenSCManagerE SC_MANAGER_CONNECT) (m_world m) = (Ok scm, w1) →
  reg_handle (OpenServiceE scm name SERVICE_CHANGE_CONFIG) w1 = (Ok svc, w2) →
  args !! "type"%string = Some type →
  reg_handle (ChangeServiceConfigE svc (change_request args)) w2 = (r, w3) →
  ∃ m' tr, ConfigService name args m = (Some (match r with Ok _ => true | Err _ => false end), m')
    ∧ m_trace m' = m_trace m ++ tr ∧ count_ev is_close tr = 2%nat.
Proof.
  intros H1 H2 Ht H3. unfold ConfigService. scm_call H1. scm_call H2. rewrite Ht. scm_unfold.
  scm_call H3. destruct r as [u|c].
  - match goal with
    | |- context [secondary_updates ?a ?sv ?M] =>
        destruct (secondary_updates_trace a sv M) as (tr1 & Htr1 & Hd1 & Hc1);
        destruct (secondary_updates a sv M) as [[] m2] eqn:Esec
    end.
    simpl in Htr1. scm_unfold. rewrite !call_run. scm_unfold.
    eexists _, _. split_and!; [done|rewrite Htr1; by rewrite <- !app_assoc|].
    autorewrite with scc_rw; simpl; lia.
  - scm_unfold. rewrite !call_run. scm_unfold.
    eexists _, _. split_and!; [done|by rewrite <- !app_assoc|].
    autorewrite with scc_rw; simpl; lia.
Qed.

End Handlers.

Lemma CreateService_missing_param_witness :
  CreateService (W := Scripted.world) {[ "servicename" := "Svc" ]}%string
    (mk_machine (Scripted.mk_world []) 0 [])
  = (false, mk_machine (Scripted.mk_world []) 0
      ([] ++ [EvErr "ERROR: Missing required parameters. Required: /servicename and /binpath"])).
Proof. apply (CreateService_missing_param (W := Scripted.world)). right. reflexivity. Defined.

Lemma CreateService_interact_no_call_witness :
  let args := {[ "servicename" := "Svc"; "binpath" := "svc.exe"; "type" := "interact" ]}%string in
  CreateService (W := Scripted.world) args (mk_machine (Scripted.mk_world []) 0 [])
  = (false, mk_machine (Scripted.mk_world []) 0 ([] ++
     [EvErr "ERROR: 'interact' type must be used with 'own' or 'share' (e.g., type=interact type=own)"])).
Proof.
  cbv zeta.
  exact (CreateService_interact_no_call (W := Scripted.world)
           {[ "servicename" := "Svc"; "binpath" := "svc.exe"; "type" := "interact" ]}%string
           (mk_machine (Scripted.mk_world []) 0 []) "Svc" "svc.exe" eq_refl eq_refl eq_refl).
Defined.

Lemma CreateService_created_succeeds_witness :
  let args := {[ "servicename" := "Svc"; "binpath" := "svc.exe"; "description" := "d" ]}%string in
  ∃ m' tr, CreateService (W := Scripted.world) args (mk_machine (Scripted.mk_world []) 0 []) = (true, m')
    ∧ m_trace m' = [] ++ tr ∧ count_ev is_delete tr = 0%nat ∧ count_ev is_close tr = 2%nat.
Proof.
  cbv zeta.
  exact (CreateService_created_succeeds (W := Scripted.world)
           {[ "servicename" := "Svc"; "binpath" := "svc.exe"; "description" := "d" ]}%string
           (mk_machine (Scripted.mk_world []) 0 []) "Svc" "svc.exe" SERVICE_WIN32_OWN_PROCESS 1 3 7
           (Scripted.mk_world []) (Scripted.mk_world []) eq_refl eq_refl eq_refl eq_refl eq_refl).
Defined.

Lemma ConfigService_no_type_aborts_witness :
  ∃ m' tr, ConfigService (W := Scripted.world) "Svc" {[ "start" := "auto" ]}%string
             (mk_machine (Scripted.mk_world []) 0 []) = (None, m')
    ∧ m_trace m' = [] ++ tr ∧ count_ev is_close tr = 0%nat ∧ count_ev is_call tr = 2%nat.
Proof.
  exact (ConfigService_no_type_aborts (W := Scripted.world) "Svc" {[ "start" := "auto" ]}%string
           (mk_machine (Scripted.mk_world []) 0 []) 1 2 (Scripted.mk_world []) (Scripted.mk_world [])
           eq_refl eq_refl eq_refl).
Defined.

Lemma ConfigService_result_witness :
  ∃ m' tr, ConfigService (W := Scripted.world) "Svc" {[ "type" := "own"; "description" := "d" ]}%string
             (mk_machine (Scripted.mk_world []) 0 [])
           = (Some (match (Ok tt : win_result unit) with Ok _ => true | Err _ => false end), m')
    ∧ m_trace m' = [] ++ tr ∧ count_ev is_close tr = 2%nat.
Proof.
  exact (ConfigService_result (W := Scripted.world) "Svc" {[ "type" := "own"; "description" := "d" ]}%string
           (mk_machine (Scripted.mk_world []) 0 []) 1 2 "own" (Ok tt) (Scripted.mk_world [])
           (Scripted.mk_world []) (Scripted.mk_world []) eq_refl eq_refl eq_refl eq_refl).
Defined.
End Config.
