(* ===== verification/Query.v ===== *)
(** * Query: [QueryService], [QueryServiceDescription] and [DeleteService]

    [QueryService] (src/main-scclone.cpp, lines 212-290) opens the service
    for status and configuration queries, reads the status, reads the
    configuration by the probe-then-fill protocol (a first call with an
    empty buffer for the size, a second one to fill it), and prints six
    labelled lines; an absent display name or binary path prints
    ["(none)"].  [QueryServiceDescription] (lines 464-512) reads the
    description the same way, with a first call whose buffer is one
    [SERVICE_DESCRIPTIONA].  [DeleteService] (lines 683-714) opens the
    service with [DELETE] and deletes it.  The strings of the configuration
    are those [WStringToString] returns: the UTF-16 conversion is not
    modelled, which is exact on 7-bit ASCII strings ([Prelude.ascii7]).
    The [bytesNeeded] of a sized call is what the SCM writes to its
    [pcbBytesNeeded] out-parameter ([Registry.sized_result]). *)

From Stdlib Require Import ZArith Lia String Ascii.
From stdpp Require Import base list gmap strings.
From S2P Require Import Prelude Encoders Registry WinScm.
Import Win Access Registry.

Open Scope Z_scope.

#[local] Existing Instance WinScm.win_registry.

Module Query.

(** [sizeof(SERVICE_DESCRIPTIONA)]: one pointer of a 64-bit build. *)
Definition sizeof_SERVICE_DESCRIPTIONA : Z := 8.

(** The six lines of the report, lines 265-282, in their order. *)
Definition report_lines (config : QUERY_SERVICE_CONFIG) (status : SERVICE_STATUS_PROCESS) : list string :=
  let displayName := default "(none)"%string (cfg_lpDisplayName config) in
  let binaryPath := default "(none)"%string (cfg_lpBinaryPathName config) in
  [("DISPLAY_NAME: " ++ displayName);
   ("TYPE        : " ++ Encoders.GetServiceTypeString (cfg_dwServiceType config));
   ("START_TYPE  : " ++ Encoders.GetServiceStartTypeString (cfg_dwStartType config));
   ("STATE       : " ++ Encoders.GetServiceStateString (dwCurrentState status));
   ("PID         : " ++ dec_string (dwProcessId status));
   ("BINARY_PATH : " ++ binaryPath)]%string.

Section Handlers.
Context {W : Type} `{!Registry W}.

(** [QueryService], lines 212-290. *)
Definition QueryService (serviceName : string) : SCM W bool :=
  r ← call (OpenSCManagerE SC_MANAGER_CONNECT);
  match r with
  | Err c => err_code "Failed to open service control manager: " c;; mret false
  | Ok scManager =>
    r ← call (OpenServiceE scManager serviceName (Z.lor SERVICE_QUERY_STATUS SERVICE_QUERY_CONFIG));
    match r with
    | Err c => err_code "Failed to open service: " c;; CloseServiceHandle scManager;; mret false
    | Ok service =>
      r ← call (QueryServiceStatusExE service);
      match r with
      | Err c =>
          err_code "Failed to query service status: " c;;
          CloseServiceHandle service;; CloseServiceHandle scManager;; mret false
      | Ok status =>
        r ← call (QueryServiceConfigE service 0);
        match probe_size r with
        | inl c =>
            err_code "Failed to determine buffer size for service config: " c;;
            CloseServiceHandle service;; CloseServiceHandle scManager;; mret false
        | inr bytesNeeded2 =>
          r ← call (QueryServiceConfigE service bytesNeeded2);
          match r with
          | Short c _ =>
              err_code "Failed to query service config: " c;;
              CloseServiceHandle service;; CloseServiceHandle scManager;; mret false
          | Filled config _ =>
              out_lines (report_lines config status);;
              CloseServiceHandle service;; CloseServiceHandle scManager;; mret true
          end
        end
      end
    end
  end.

(** [QueryServiceDescription], lines 464-512. *)
Definition QueryServiceDescription (serviceName : string) : SCM W bool :=
  r ← call (OpenSCManagerE SC_MANAGER_CONNECT);
  match r with
  | Err c => err_code "Failed to open service control manager: " c;; mret false
  | Ok scManager =>
    r ← call (OpenServiceE scManager serviceName SERVICE_QUERY_CONFIG);
    match r with
    | Err c => err_code "Failed to open service: " c;; CloseServiceHandle scManager;; mret false
    | Ok service =>
      r ← call (QueryServiceDescriptionE service sizeof_SERVICE_DESCRIPTIONA);
      match probe_size r with
      | inl c =>
          err_code "Failed to query service description: " c;;
          CloseServiceHandle service;; CloseServiceHandle scManager;; mret false
      | inr bytesNeeded =>
        r ← call (QueryServiceDescriptionE service bytesNeeded);
        match r with
        | Short c _ =>
            err_code "Failed to query service description: " c;;
            CloseServiceHandle service;; CloseServiceHandle scManager;; mret false
        | Filled desc _ =>
            out ("SERVICE_NAME: " ++ serviceName)%string;;
            out ("DESCRIPTION: " ++ default "(no description)" desc)%string;;
            CloseServiceHandle service;; CloseServiceHandle scManager;; mret true
        end
      end
    end
  end.

(** [DeleteService], lines 683-714. *)
Definition DeleteService (serviceName : string) : SCM W bool :=
  r ← call (OpenSCManagerE SC_MANAGER_CONNECT);
  match r with
  | Err c => err_code "Failed to open service control manager: " c;; mret false
  | Ok scManager =>
    r ← call (OpenServiceE scManager serviceName DELETE);
    match r with
    | Err c => err_code "Failed to open service: " c;; CloseServiceHandle scManager;; mret false
    | Ok service =>
      r ← call (DeleteServiceE service);
      match r with
      | Err c =>
          err_code "Failed to delete service: " c;;
          CloseServiceHandle service;; CloseServiceHandle scManager;; mret false
      | Ok _ =>
          out ("Service deleted successfully: " ++ serviceName)%string;;
          CloseServiceHandle service;; CloseServiceHandle scManager;; mret true
      end
    end
  end.

(** ** Properties *)

(** C31. [query]: when the status query and the two calls of the
    configuration query succeed, [QueryService] prints exactly the six
    report lines in their order (["(none)"] for an absent display name or
    binary path, ["UNKNOWN"] for an unknown state, type or start type),
    closes both handles and succeeds. *)
Theorem QueryService_report name (m : machine W) scm svc st r1 n cfg k w1 w2 w3 w4 w5 :
  reg_handle (OpenSCManagerE SC_MANAGER_CONNECT) (m_world m) = (Ok scm, w1) →
  reg_handle (OpenServiceE scm name (Z.lor SERVICE_QUERY_STATUS SERVICE_QUERY_CONFIG)) w1 = (Ok svc, w2) →
  reg_handle (QueryServiceStatusExE svc) w2 = (Ok st, w3) →
  reg_handle (QueryServiceConfigE svc 0) w3 = (r1, w4) → probe_size r1 = inr n →
  reg_handle (QueryServiceConfigE svc n) w4 = (Filled cfg k, w5) →
  ∃ m' tr, QueryService name m = (true, m') ∧ m_trace m' = m_trace m ++ tr
    ∧ outs tr = report_lines cfg st ∧ count_ev is_close tr = 2%nat.
Proof.
  intros H1 H2 H3 H4 Hp H5. unfold QueryService.
  scm_call H1. scm_call H2. scm_call H3. scm_call H4. rewrite Hp. scm_call H5.
  rewrite out_lines_run. cbn [m_world m_clock m_trace]. rewrite !call_run. scm_unfold.
  eexists _, _. split_and!; [done|by rewrite <- !app_assoc| |];
    autorewrite with scc_rw; rewrite ?outs_fmap_out, ?count_ev_fmap_out by done; simpl; [|lia].
  destruct r1; done.
Qed.

(** C32. [qdescription] on a service without a description: when the
    first call, with a buffer of one [SERVICE_DESCRIPTIONA], succeeds and
    writes the size [n] the data takes to [bytesNeeded], and the second
    call, with a buffer of [n] bytes, succeeds again, the command prints the
    service name and ["(no description)"], closes both handles and
    succeeds. *)
Theorem QueryServiceDescription_absent name (m : machine W) scm svc n k w1 w2 w3 w4 :
  reg_handle (OpenSCManagerE SC_MANAGER_CONNECT) (m_world m) = (Ok scm, w1) →
  reg_handle (OpenServiceE scm name SERVICE_QUERY_CONFIG) w1 = (Ok svc, w2) →
  reg_handle (QueryServiceDescriptionE svc sizeof_SERVICE_DESCRIPTIONA) w2 = (Filled None n, w3) →
  reg_handle (QueryServiceDescriptionE svc n) w3 = (Filled None k, w4) →
  ∃ m' tr, QueryServiceDescription name m = (true, m') ∧ m_trace m' = m_trace m ++ tr
    ∧ outs tr = [("SERVICE_NAME: " ++ name); "DESCRIPTION: (no description)"]%string
    ∧ count_ev is_close tr = 2%nat.
Proof.
  intros H1 H2 H3 H4. unfold QueryServiceDescription.
  scm_call H1. scm_call H2. scm_call H3. cbn [probe_size]. scm_call H4. rewrite !call_run. scm_unfold.
  eexists _, _. split_and!; [done|by rewrite <- !app_assoc| |]; autorewrite with scc_rw; simpl; done.
Qed.

(** C33. [qdescription] on a service with a description: when the first
    call asks for a larger buffer and the second fills it, the command
    prints the service name and the description and succeeds. *)
Theorem QueryServiceDescription_present name (m : machine W) scm svc n d k w1 w2 w3 w4 :
  reg_handle (OpenSCManagerE SC_MANAGER_CONNECT) (m_world m) = (Ok scm, w1) →
  reg_handle (OpenServiceE scm name SERVICE_QUERY_CONFIG) w1 = (Ok svc, w2) →
  reg_handle (QueryServiceDescriptionE svc sizeof_SERVICE_DESCRIPTIONA) w2
    = (Short ERROR_INSUFFICIENT_BUFFER n, w3) →
  reg_handle (QueryServiceDescriptionE svc n) w3 = (Filled (Some d) k, w4) →
  ∃ m' tr, QueryServiceDescription name m = (true, m') ∧ m_trace m' = m_trace m ++ tr
    ∧ outs tr = [("SERVICE_NAME: " ++ name); ("DESCRIPTION: " ++ d)]%string
    ∧ count_ev is_close tr = 2%nat.
Proof.
  intros H1 H2 H3 H4. unfold QueryServiceDescription.
  scm_call H1. scm_call H2. scm_call H3. rewrite probe_size_insufficient. scm_call H4. rewrite !call_run. scm_unfold.
  eexists _, _. split_and!; [done|by rewrite <- !app_assoc| |]; autorewrite with scc_rw; simpl; done.
Qed.

End Handlers.

(** The examples run on the reference SCM of [WinScm]. *)

Lemma QueryService_report_witness :
  ∃ m' tr, QueryService (W := WinScm.world) "Bare"
             (WinScm.boot [("Bare", WinScm.mk_service (mk_config 16 3 1 None None) None false
                                      (mk_failure_actions 0 None None []) SERVICE_STOPPED 0)]%string)
           = (true, m')
    ∧ m_trace m' = [] ++ tr
    ∧ outs tr = report_lines (mk_config 16 3 1 None None) (mk_status 16 1 0)
    ∧ count_ev is_close tr = 2%nat.
Proof. eapply (QueryService_report (W := WinScm.world)); reflexivity. Defined.

Lemma QueryServiceDescription_absent_witness :
  ∃ m' tr, QueryServiceDescription (W := WinScm.world) "Svc" WinScm.demo = (true, m')
    ∧ m_trace m' = m_trace WinScm.demo ++ tr
    ∧ outs tr = [("SERVICE_NAME: " ++ "Svc"); "DESCRIPTION: (no description)"]%string
    ∧ count_ev is_close tr = 2%nat.
Proof. eapply (QueryServiceDescription_absent (W := WinScm.world)); reflexivity. Defined.

Lemma QueryServiceDescription_present_witness :
  ∃ m' tr, QueryServiceDescription (W := WinScm.world) "Svc"
             (WinScm.boot [("Svc", WinScm.mk_service (mk_config 16 3 1 None None) (Some "Backup agent")
                                     false (mk_failure_actions 0 None None []) SERVICE_STOPPED 0)]%string)
           = (true, m')
    ∧ m_trace m' = [] ++ tr
    ∧ outs tr = [("SERVICE_NAME: " ++ "Svc"); ("DESCRIPTION: " ++ "Backup agent")]%string
    ∧ count_ev is_close tr = 2%nat.
Proof. eapply (QueryServiceDescription_present (W := WinScm.world)); reflexivity. Defined.

End Query.
