(* ===== verification/Failure.v ===== *)
(** * Failure: the handler [SetServiceFailureActions]

    [SetServiceFailureActions] (src/main-scclone.cpp, lines 902-1093)
    opens the SCM and the service with full access, parses the reset
    period, the reboot message, the command and the action list (printing
    a line for each and a warning for each value it cannot read), sends
    them in one [ChangeServiceConfig2A] request, and reads the setting back
    with [QueryServiceConfig2A] into a buffer of one
    [SERVICE_FAILURE_ACTIONSA].  The parsing itself is [FailureActions];
    this file gives the handler around it, whose action loop also prints,
    and shows that this loop computes [FailureActions.parse_actions].  The
    handler's result is [None] when the action loop has undefined
    behaviour. *)

From Stdlib Require Import ZArith Lia String Ascii.
From stdpp Require Import base list gmap strings.
From S2P Require Import Prelude Encoders FailureActions Registry WinScm.
Import Win Access Registry FailureActions.

Open Scope Z_scope.

#[local] Existing Instance WinScm.win_registry.

Module Failure.

(** [sizeof(SERVICE_FAILURE_ACTIONSA)] of a 64-bit build. *)
Definition sizeof_SERVICE_FAILURE_ACTIONSA : Z := 40.

(** [e.what()] of the exceptions of MSVC's [std::stoi]: no digit gives
    [invalid_argument], a value out of range [out_of_range]. *)
Definition stoi_what (s : string) : string :=
  let s1 := skip_space s in
  let s2 := match s1 with String "-" t => t | String "+" t => t | _ => s1 end%char in
  if (snd (read_digits s2 0 0) =? 0)%nat then "invalid stoi argument" else "stoi argument out of range".

(** The action words the loop knows; any other one gets a warning. *)
Definition known_action (actionType : string) : bool :=
  (actionType =ₛ? "run") || (actionType =ₛ? "restart") || (actionType =ₛ? "reboot")
  || (actionType =ₛ? "none").

(** The lines of the read-back, lines 1079-1084. *)
Definition verify_lines (fa : SERVICE_FAILURE_ACTIONS) : list string :=
  imap (λ i a, "  Action " ++ dec_string (Z.of_nat i) ++ ": Type=" ++ dec_string (action_Type a)
                 ++ ", Delay=" ++ dec_string (action_Delay a) ++ "ms")%string (fa_actions fa).

(** The failure actions of the request (lines 941-1041). *)
Definition failure_request (args : gmap string string) (acts : list SC_ACTION) : SERVICE_FAILURE_ACTIONS :=
  mk_failure_actions (dwResetPeriod args) (args !! "reboot"%string) (args !! "command"%string) acts.

Section Handler.
Context {W : Type} `{!Registry W}.

(** The reset period's message, lines 926-940. *)
Definition reset_log (args : gmap string string) : SCM W unit :=
  match args !! "reset"%string with
  | Some resetValue =>
      let v := remove_char " " (remove_char QUOTE resetValue) in
      match stoi v with
      | Some r => out ("Setting reset period to: " ++ int_string r ++ " seconds")%string
      | None => err ("Invalid reset period value, using default (86400): " ++ stoi_what v)%string
      end
  | None => mret tt
  end.

(** The reboot message and the command, lines 943-960. *)
Definition message_log (args : gmap string string) : SCM W unit :=
  (match args !! "reboot"%string with
   | Some rebootMsg => out ("Setting reboot message: '" ++ rebootMsg ++ "'")%string
   | None => mret tt
   end);;
  (match args !! "command"%string with
   | Some command => out ("Setting command: '" ++ command ++ "'")%string
   | None => mret tt
   end).

(** The delay of one action, lines 1010-1019: the product of [stoi] by
    1000 and its line, 0 with a warning when [stoi] throws, [None] when
    the [int] product overflows. *)
Definition delay_step (actionType : Z) (tok : string) : SCM W (option Z) :=
  match stoi tok with
  | Some v =>
      if int32_fits (v * 1000) then
        let dl := to_dword (v * 1000) in
        out ("Adding action: Type=" ++ dec_string actionType ++ ", Delay=" ++ dec_string (dl / 1000)
             ++ " seconds")%string;;
        mret (Some dl)
      else mret None
  | None => err ("Invalid delay value: " ++ stoi_what tok ++ ", using 0")%string;; mret (Some 0)
  end.

(** The [for] loop of lines 994-1023 with its output, with the fuel and
    the [size_t] bound of [FailureActions.actions_loop]. *)
Fixpoint actions_loopM (fuel : nat) (pairs : list string) (i : nat) : SCM W (option (list SC_ACTION)) :=
  match fuel with
  | O => mret None
  | S f =>
      if Z.of_nat i <? to_u64 (Z.of_nat (length pairs) - 1) then
        match pairs !! i with
        | None => mret None
        | Some actionType =>
            (if known_action actionType then mret tt
             else err ("Invalid action type: " ++ actionType ++ ", using 'none'")%string);;
            d ← (if (i + 1 <? length pairs)%nat then
                   match pairs !! (i + 1)%nat with
                   | Some tok => delay_step (action_type_of actionType) tok
                   | None => mret None
                   end
                 else mret (Some 0));
            match d with
            | Some dl =>
                rest ← actions_loopM f pairs (i + 2);
                mret ((mk_action (action_type_of actionType) dl ::.) <$> rest)
            | None => mret None
            end
        end
      else mret (Some [])
  end.

(** The [/actions] block, lines 966-1024. *)
Definition actions_block (args : gmap string string) : SCM W (option (list SC_ACTION)) :=
  match args !! "actions"%string with
  | Some actionsStr =>
      out ("Parsing actions string: '" ++ actionsStr ++ "'")%string;;
      let pairs := action_tokens actionsStr in
      actions_loopM (S (length pairs)) pairs 0
  | None => mret (Some [])
  end.

(** The read-back of lines 1066-1085. *)
Definition verify_readback (service : SC_HANDLE) : SCM W unit :=
  r ← call (QueryServiceFailureActionsE service sizeof_SERVICE_FAILURE_ACTIONSA);
  match r with
  | Err c => err_code "Warning: Failed to verify configuration: " c
  | Ok v =>
      out "Configuration verified:";;
      out ("  Reset Period: " ++ dec_string (fa_dwResetPeriod v) ++ " seconds")%string;;
      out_lines (verify_lines v)
  end.

(** From the action array to the end, lines 1026-1093: the request, its
    error path, the read-back and the clean-up. *)
Definition commit (service scManager : SC_HANDLE) (args : gmap string string) (acts : list SC_ACTION)
    : SCM W (option bool) :=
  (if bool_decide (acts = []) then out "No actions specified or properly parsed" else mret tt);;
  r ← call (ChangeServiceConfig2E service (InfoFailureActions (failure_request args acts)));
  match r with
  | Err c =>
      err_code ("Failed to set service failure actions. Error code: " ++ dec_string c ++ " - ")%string c;;
      CloseServiceHandle service;; CloseServiceHandle scManager;; mret (Some false)
  | Ok _ =>
      verify_readback service;;
      out "Service failure actions configured successfully.";;
      CloseServiceHandle service;; CloseServiceHandle scManager;; mret (Some true)
  end.

(** [SetServiceFailureActions], lines 902-1093. *)
Definition SetServiceFailureActions (serviceName : string) (args : gmap string string)
    : SCM W (option bool) :=
  r ← call (OpenSCManagerE SC_MANAGER_ALL_ACCESS);
  match r with
  | Err c => err_code "Failed to open service control manager: " c;; mret (Some false)
  | Ok scManager =>
    out ("Attempting to configure service: '" ++ serviceName ++ "'")%string;;
    r ← call (OpenServiceE scManager serviceName SERVICE_ALL_ACCESS);
    match r with
    | Err c => err_code "Failed to open service: " c;; CloseServiceHandle scManager;; mret (Some false)
    | Ok service =>
      reset_log args;;
      message_log args;;
      oacts ← actions_block args;
      match oacts with
      | None => mret None
      | Some acts => commit service scManager args acts
      end
    end
  end.

(** ** The parsing prints but computes what [FailureActions] computes *)

Lemma reset_log_quiet args : quiet (reset_log args) tt.
Proof. unfold reset_log. repeat case_match; solve_quiet. Qed.

Lemma message_log_quiet args : quiet (message_log args) tt.
Proof. unfold message_log. eapply quiet_bind; case_match; solve_quiet. Qed.

Lemma delay_step_quiet t tok : quiet (delay_step t tok) (delay_of tok).
Proof. unfold delay_step, delay_of. repeat case_match; solve_quiet. Qed.

Lemma actions_loopM_quiet fuel pairs i : quiet (actions_loopM fuel pairs i) (actions_loop fuel pairs i).
Proof.
  revert i. induction fuel as [|f IH]; intros i; simpl; [solve_quiet|].
  case_match; [|solve_quiet]. destruct (pairs !! i) as [actionType|]; [|solve_quiet].
  eapply quiet_bind; [destruct (known_action actionType); solve_quiet|].
  set (dl := if (i + 1 <? length pairs)%nat then
               match pairs !! (i + 1)%nat with Some d => delay_of d | None => None end
             else Some 0).
  eapply (quiet_bind _ _ dl).
  { subst dl. case_match; [|solve_quiet]. destruct (pairs !! (i + 1)%nat); [apply delay_step_quiet|solve_quiet]. }
  destruct dl; [|solve_quiet]. eapply quiet_bind; [apply IH|solve_quiet].
Qed.

Lemma actions_block_quiet args : quiet (actions_block args) (failure_actions args).
Proof.
  unfold actions_block, failure_actions, parse_actions.
  destruct (args !! "actions"%string); [eapply quiet_bind; [solve_quiet|apply actions_loopM_quiet]|solve_quiet].
Qed.

(** ** Running the handler *)

(** The events of [commit] and [verify_readback] that are not SCM calls. *)
Definition no_actions_events (acts : list SC_ACTION) : list event :=
  if bool_decide (acts = []) then [EvOut "No actions specified or properly parsed"] else [].

Definition readback_events (q : win_result SERVICE_FAILURE_ACTIONS) : list event :=
  match q with
  | Err c => [EvErrCode "Warning: Failed to verify configuration: " c]
  | Ok v => EvOut <$> ("Configuration verified:"
                        :: ("  Reset Period: " ++ dec_string (fa_dwResetPeriod v) ++ " seconds")%string
                        :: verify_lines v)
  end.

(** Up to the request: two opens, then only printing. *)
Lemma SetServiceFailureActions_run name args (m : machine W) scm svc acts w1 w2 :
  reg_handle (OpenSCManagerE SC_MANAGER_ALL_ACCESS) (m_world m) = (Ok scm, w1) →
  reg_handle (OpenServiceE scm name SERVICE_ALL_ACCESS) w1 = (Ok svc, w2) →
  failure_actions args = Some acts →
  ∃ tr, count_ev is_call tr = 0%nat ∧
    SetServiceFailureActions name args m =
    commit svc scm args acts
      (mk_machine w2 (m_clock m)
         (m_trace m ++ [EvCall (OpenSCManagerE SC_MANAGER_ALL_ACCESS) (Ok scm);
                        EvOut ("Attempting to configure service: '" ++ name ++ "'")%string;
                        EvCall (OpenServiceE scm name SERVICE_ALL_ACCESS) (Ok svc)] ++ tr)).
Proof.
  intros H1 H2 Hacts. unfold SetServiceFailureActions.
  scm_call H1. scm_call H2.
  quiet_call (reset_log_quiet args). quiet_call (message_log_quiet args).
  quiet_call (actions_block_quiet args). rewrite Hacts. cbv beta iota.
  exists (tr ++ tr0 ++ tr1). split; [autorewrite with scc_rw; lia|]. by rewrite <- !app_assoc.
Qed.

Lemma verify_readback_run svc (M : machine W) q w' :
  reg_handle (QueryServiceFailureActionsE svc sizeof_SERVICE_FAILURE_ACTIONSA) (m_world M) = (q, w') →
  verify_readback svc M
  = (tt, mk_machine w' (m_clock M)
           (m_trace M ++ EvCall (QueryServiceFailureActionsE svc sizeof_SERVICE_FAILURE_ACTIONSA) q
                         :: readback_events q)).
Proof.
  intros H. unfold verify_readback. scm_call H.
  destruct q as [v|c]; scm_unfold; [rewrite out_lines_run; cbn|]; by rewrite <- !app_assoc.
Qed.

Lemma commit_ok svc scm args acts (w : W) clk tr0 u q w3 w4 :
  reg_handle (ChangeServiceConfig2E svc (InfoFailureActions (failure_request args acts))) w = (Ok u, w3) →
  reg_handle (QueryServiceFailureActionsE svc sizeof_SERVICE_FAILURE_ACTIONSA) w3 = (q, w4) →
  ∃ m', commit svc scm args acts (mk_machine w clk tr0) = (Some true, m') ∧
    m_trace m' = tr0 ++ no_actions_events acts
                 ++ EvCall (ChangeServiceConfig2E svc (InfoFailureActions (failure_request args acts))) (Ok u)
                 :: EvCall (QueryServiceFailureActionsE svc sizeof_SERVICE_FAILURE_ACTIONSA) q
                 :: readback_events q
                 ++ [EvOut "Service failure actions configured successfully.";
                     EvCall (CloseServiceHandleE svc) tt; EvCall (CloseServiceHandleE scm) tt]
    ∧ m_world m' = (reg_handle (CloseServiceHandleE scm) (reg_handle (CloseServiceHandleE svc) w4).2).2.
Proof.
  intros H3 H4. unfold commit, no_actions_events.
  destruct (bool_decide (acts = [])); scm_unfold; scm_call H3;
    erewrite verify_readback_run by exact H4; cbn [m_world m_clock m_trace]; rewrite !call_run; scm_unfold;
    (eexists; split_and!; [done| |done]); close_units; by rewrite <- !app_assoc.
Qed.

Lemma commit_err svc scm args acts (w : W) clk tr0 c w3 :
  reg_handle (ChangeServiceConfig2E svc (InfoFailureActions (failure_request args acts))) w = (Err c, w3) →
  ∃ m', commit svc scm args acts (mk_machine w clk tr0) = (Some false, m') ∧
    m_trace m' = tr0 ++ no_actions_events acts
                 ++ [EvCall (ChangeServiceConfig2E svc (InfoFailureActions (failure_request args acts))) (Err c);
                     EvErrCode ("Failed to set service failure actions. Error code: " ++ dec_string c ++ " - ")%string c;
                     EvCall (CloseServiceHandleE svc) tt; EvCall (CloseServiceHandleE scm) tt].
Proof.
  intros H3. unfold commit, no_actions_events.
  destruct (bool_decide (acts = [])); scm_unfold; scm_call H3; rewrite !call_run; scm_unfold;
    (eexists; split; [done|]); cbn; close_units; by rewrite <- !app_assoc.
Qed.

Lemma calls_no_actions acts : calls (no_actions_events acts) = [].
Proof. unfold no_actions_events. by case_match. Qed.

Lemma calls_readback q : calls (readback_events q) = [].
Proof.
  destruct q; [|done]. apply calls_none. simpl readback_events. by apply count_ev_fmap_out.
Qed.

(** ** Properties *)

(** C34. Refinement of the parser: once both handles are open and the
    action list parses, [failure] makes exactly one change request, right
    after the two opens, and it carries the reset period as a DWORD, the
    reboot message, the command and exactly the actions of
    [FailureActions.failure_actions]; the command's result is that
    request's result, whatever the read-back answers, and both handles
    are closed. *)
Theorem SetServiceFailureActions_request name args (m : machine W) scm svc acts r w1 w2 w3 :
  reg_handle (OpenSCManagerE SC_MANAGER_ALL_ACCESS) (m_world m) = (Ok scm, w1) →
  reg_handle (OpenServiceE scm name SERVICE_ALL_ACCESS) w1 = (Ok svc, w2) →
  failure_actions args = Some acts →
  reg_handle (ChangeServiceConfig2E svc (InfoFailureActions (failure_request args acts))) w2 = (r, w3) →
  ∃ m' tr rest, SetServiceFailureActions name args m = (Some (match r with Ok _ => true | Err _ => false end), m')
    ∧ m_trace m' = m_trace m ++ tr
    ∧ calls tr = [EvCall (OpenSCManagerE SC_MANAGER_ALL_ACCESS) (Ok scm);
                  EvCall (OpenServiceE scm name SERVICE_ALL_ACCESS) (Ok svc);
                  EvCall (ChangeServiceConfig2E svc (InfoFailureActions (failure_request args acts))) r] ++ rest
    ∧ count_ev is_close rest = 2%nat.
Proof.
  intros H1 H2 Hacts H3. destruct (SetServiceFailureActions_run _ _ _ _ _ _ _ _ H1 H2 Hacts) as (tr & Ht & ->).
  destruct r as [u|c].
  - destruct (reg_handle (QueryServiceFailureActionsE svc sizeof_SERVICE_FAILURE_ACTIONSA) w3) as [q w4] eqn:H4.
    match goal with |- context [commit _ _ _ _ (mk_machine _ _ ?T)] =>
      destruct (commit_ok svc scm args acts w2 (m_clock m) T _ _ _ _ H3 H4) as (m' & -> & Etr & _) end.
    eexists _, _, _. split_and!; [done|rewrite Etr; by rewrite <- !app_assoc| |].
    + autorewrite with scc_rw. rewrite calls_none, calls_no_actions, calls_readback by done. simpl. done.
    + autorewrite with scc_rw. simpl. lia.
  - match goal with |- context [commit _ _ _ _ (mk_machine _ _ ?T)] =>
      destruct (commit_err svc scm args acts w2 (m_clock m) T _ _ H3) as (m' & -> & Etr) end.
    eexists _, _, _. split_and!; [done|rewrite Etr; by rewrite <- !app_assoc| |].
    + autorewrite with scc_rw. rewrite calls_none, calls_no_actions by done. simpl. done.
    + autorewrite with scc_rw. simpl. lia.
Qed.

End Handler.

Lemma SetServiceFailureActions_request_witness :
  ∃ m' tr rest,
    SetServiceFailureActions (W := WinScm.world) "Svc" {[ "actions" := "restart/60" ]}%string WinScm.demo
      = (Some (match (Ok tt : win_result unit) with Ok _ => true | Err _ => false end), m')
    ∧ m_trace m' = m_trace WinScm.demo ++ tr
    ∧ calls tr = [EvCall (OpenSCManagerE SC_MANAGER_ALL_ACCESS) (Ok 1);
                  EvCall (OpenServiceE 1 "Svc" SERVICE_ALL_ACCESS) (Ok 2);
                  EvCall (ChangeServiceConfig2E 2 (InfoFailureActions
                            (failure_request {[ "actions" := "restart/60" ]}%string
                               [mk_action SC_ACTION_RESTART 60000]))) (Ok tt)] ++ rest
    ∧ count_ev is_close rest = 2%nat.
Proof.
  eapply (SetServiceFailureActions_request (W := WinScm.world) "Svc" {[ "actions" := "restart/60" ]}%string
            WinScm.demo 1 2 [mk_action SC_ACTION_RESTART 60000] (Ok tt)); reflexivity.
Defined.

(** On the reference SCM the request for a non-empty action list is
    larger than the buffer the read-back gives. *)
Lemma failure_size_gt args acts :
  acts ≠ [] → sizeof_SERVICE_FAILURE_ACTIONSA < WinScm.failure_size (failure_request args acts).
Proof.
  intros Hne. unfold WinScm.failure_size, failure_request. cbn [fa_lpRebootMsg fa_lpCommand fa_actions].
  destruct acts as [|a acts]; [done|]. cbn [length].
  assert (0 <= WinScm.str_size (args !! "reboot"%string)) by (unfold WinScm.str_size; case_match; lia).
  assert (0 <= WinScm.str_size (args !! "command"%string)) by (unfold WinScm.str_size; case_match; lia).
  unfold sizeof_SERVICE_FAILURE_ACTIONSA, WinScm.sizeof_SERVICE_FAILURE_ACTIONS, WinScm.sizeof_SC_ACTION. lia.
Qed.

(** C35. The read-back is dead code on the reference SCM: for any service
    and any [/actions] value that parses to at least one action, [failure]
    stores the actions, but [QueryServiceConfig2A] with a buffer of one
    [SERVICE_FAILURE_ACTIONSA] fails with [ERROR_INSUFFICIENT_BUFFER], so
    the command prints the warning instead of ["Configuration verified:"]
    and still reports success. *)
Theorem SetServiceFailureActions_verify_fails name args (w : WinScm.world) clk tr0 s acts :
  WinScm.services w !! name = Some s → failure_actions args = Some acts → acts ≠ [] →
  ∃ m' tr, SetServiceFailureActions (W := WinScm.world) name args (mk_machine w clk tr0) = (Some true, m')
    ∧ m_trace m' = tr0 ++ tr ++
        [EvCall (QueryServiceFailureActionsE (WinScm.next_handle w + 1) sizeof_SERVICE_FAILURE_ACTIONSA)
           (Err ERROR_INSUFFICIENT_BUFFER);
         EvErrCode "Warning: Failed to verify configuration: " ERROR_INSUFFICIENT_BUFFER;
         EvOut "Service failure actions configured successfully.";
         EvCall (CloseServiceHandleE (WinScm.next_handle w + 1)) tt;
         EvCall (CloseServiceHandleE (WinScm.next_handle w)) tt]
    ∧ WinScm.services (m_world m') !! name
      = Some (WinScm.change_config2 (InfoFailureActions (failure_request args acts)) s).
Proof.
  intros Hs Hacts Hne. set (nh := WinScm.next_handle w).
  set (w1 := WinScm.mk_world (WinScm.services w)
               (<[nh := WinScm.HManager SC_MANAGER_ALL_ACCESS]> (WinScm.handles w)) (nh + 1)).
  set (w2 := WinScm.mk_world (WinScm.services w)
               (<[nh + 1 := WinScm.HService name SERVICE_ALL_ACCESS]> (WinScm.handles w1)) (nh + 1 + 1)).
  set (fa := failure_request args acts).
  set (s' := WinScm.change_config2 (InfoFailureActions fa) s).
  set (w3 := WinScm.set_service name s' w2).
  assert (H1 : reg_handle (OpenSCManagerE SC_MANAGER_ALL_ACCESS) w = (Ok nh, w1))
    by exact (WinScm.open_manager_run _ w).
  assert (H2 : reg_handle (OpenServiceE nh name SERVICE_ALL_ACCESS) w1 = (Ok (nh + 1), w2))
    by exact (WinScm.open_service_run nh name SERVICE_ALL_ACCESS SC_MANAGER_ALL_ACCESS s w1
                (lookup_insert_eq _ _ _) Hs).
  assert (Hsvc : ∀ need v, WinScm.has_access SERVICE_ALL_ACCESS need = true →
                  WinScm.services v !! name = Some s → WinScm.handles v = WinScm.handles w2 →
                  WinScm.service_of (nh + 1) need v = Ok (name, s)).
  { intros need v Ha Hv Hh. apply (WinScm.service_of_ok _ _ _ _ SERVICE_ALL_ACCESS); [|done|done].
    rewrite Hh. apply lookup_insert_eq. }
  assert (H3 : reg_handle (ChangeServiceConfig2E (nh + 1) (InfoFailureActions fa)) w2 = (Ok tt, w3))
    by (apply WinScm.change2_run, Hsvc; [reflexivity|exact Hs|reflexivity]).
  assert (H4 : reg_handle (QueryServiceFailureActionsE (nh + 1) sizeof_SERVICE_FAILURE_ACTIONSA) w3
               = (Err ERROR_INSUFFICIENT_BUFFER, w3)).
  { apply (WinScm.query_failure_short _ _ _ name s').
    - apply (WinScm.service_of_ok _ _ _ _ SERVICE_ALL_ACCESS); [apply lookup_insert_eq|reflexivity|].
      apply lookup_insert_eq.
    - exact (failure_size_gt args acts Hne). }
  destruct (SetServiceFailureActions_run name args (mk_machine w clk tr0) _ _ acts _ _ H1 H2 Hacts)
    as (trq & Hq & ->).
  match goal with |- context [commit _ _ _ _ (mk_machine _ ?c ?T)] =>
    destruct (commit_ok (nh + 1) nh args acts w2 c T _ _ _ _ H3 H4) as (m' & -> & Etr & Ew) end.
  cbn [m_trace m_world m_clock] in Etr |- *.
  exists m', ([EvCall (OpenSCManagerE SC_MANAGER_ALL_ACCESS) (Ok nh);
               EvOut ("Attempting to configure service: '" ++ name ++ "'");
               EvCall (OpenServiceE nh name SERVICE_ALL_ACCESS) (Ok (nh + 1))] ++ trq
              ++ [EvCall (ChangeServiceConfig2E (nh + 1) (InfoFailureActions fa)) (Ok tt)]).
  split_and!; [reflexivity| |].
  - rewrite Etr. unfold no_actions_events. rewrite bool_decide_eq_false_2 by done.
    cbn [readback_events app]. rewrite <- !app_assoc. reflexivity.
  - rewrite Ew, !WinScm.close_services. apply lookup_insert_eq.
Qed.

Lemma SetServiceFailureActions_verify_fails_witness :
  ∃ m' tr, SetServiceFailureActions (W := WinScm.world) "Svc" {[ "actions" := "restart/60" ]}%string
             (mk_machine (m_world WinScm.demo) 0 []) = (Some true, m')
    ∧ m_trace m' = [] ++ tr ++
        [EvCall (QueryServiceFailureActionsE (WinScm.next_handle (m_world WinScm.demo) + 1)
                   sizeof_SERVICE_FAILURE_ACTIONSA) (Err ERROR_INSUFFICIENT_BUFFER);
         EvErrCode "Warning: Failed to verify configuration: " ERROR_INSUFFICIENT_BUFFER;
         EvOut "Service failure actions configured successfully.";
         EvCall (CloseServiceHandleE (WinScm.next_handle (m_world WinScm.demo) + 1)) tt;
         EvCall (CloseServiceHandleE (WinScm.next_handle (m_world WinScm.demo))) tt]
    ∧ WinScm.services (m_world m') !! "Svc"%string
      = Some (WinScm.change_config2
                (InfoFailureActions (failure_request {[ "actions" := "restart/60" ]}%string
                                       [mk_action SC_ACTION_RESTART 60000]))
                (WinScm.stopped_service "My Service" "svc.exe")).
Proof.
  apply (SetServiceFailureActions_verify_fails "Svc" {[ "actions" := "restart/60" ]}%string
           (m_world WinScm.demo) 0 [] (WinScm.stopped_service "My Service" "svc.exe")
           [mk_action SC_ACTION_RESTART 60000]); [reflexivity|vm_compute; reflexivity|discriminate].
Defined.

End Failure.
