(* ===== verification/Main.v ===== *)
(** * Main: the command dispatch of [main]

    [main] (src/main-scclone.cpp, lines 1104-1185) checks [argc], takes the
    command name from [argv[1]], checks that a service name follows for the
    commands that need one, parses the options with [ParseArgs] for
    [create], [config] and [failure], and maps the handler's result to the
    exit code: 0 on success, 1 on failure.  [argv] is the list of its
    [argc] strings.  The result [None] is a process that does not return
    from [main]: the uncaught [std::out_of_range] of [config] (line 845)
    or the undefined behaviour of the action loop of [failure]. *)

From Stdlib Require Import ZArith Lia String Ascii.
From stdpp Require Import base list gmap strings.
From S2P Require Import Prelude ArgParse Encoders Registry WinScm Lifecycle Config Query Failure.
Import Win Access Registry.

Open Scope Z_scope.

#[local] Existing Instance WinScm.win_registry.

Module Main.

(** The commands that take a service name in [argv[2]], with the message
    printed when it is missing. *)
Definition needs_name (command : string) : bool :=
  bool_decide (command ∈ ["query"; "qdescription"; "start"; "stop"; "delete"; "config"; "failure"]%string).

Section Dispatch.
Context {W : Type} `{!Registry W}.

(** [return handler(...) ? 0 : 1]. *)
Definition exit_of (ok : bool) : option Z := Some (if ok then 0 else 1).

(** The branch of one command, once [argc >= 3] where it is checked. *)
Definition dispatch (command : string) (argv : list string) : SCM W (option Z) :=
  let name := default ""%string (argv !! 2%nat) in
  if command =ₛ? "query" then (ok ← Query.QueryService name; mret (exit_of ok))
  else if command =ₛ? "create" then (ok ← Config.CreateService (ArgParse.ParseArgs argv 2); mret (exit_of ok))
  else if command =ₛ? "qdescription" then (ok ← Query.QueryServiceDescription name; mret (exit_of ok))
  else if command =ₛ? "start" then (ok ← Lifecycle.StartService name; mret (exit_of ok))
  else if command =ₛ? "stop" then (ok ← Lifecycle.StopService name; mret (exit_of ok))
  else if command =ₛ? "delete" then (ok ← Query.DeleteService name; mret (exit_of ok))
  else if command =ₛ? "config" then
    r ← Config.ConfigService name (ArgParse.ParseArgs argv 3); mret (r ≫= exit_of)
  else if command =ₛ? "failure" then
    r ← Failure.SetServiceFailureActions name (ArgParse.ParseArgs argv 3); mret (r ≫= exit_of)
  else err ("ERROR: Unknown command: " ++ command)%string;; PrintUsage;; mret (Some 1).

(** [main], lines 1104-1185. *)
Definition main (argv : list string) : SCM W (option Z) :=
  if (length argv <? 2)%nat then PrintUsage;; mret (Some 1)
  else
    let command := default ""%string (argv !! 1%nat) in
    if needs_name command && (length argv <? 3)%nat then
      err ("ERROR: Service name required for " ++ command ++ " command.")%string;; mret (Some 1)
    else dispatch command argv.

End Dispatch.

End Main.
