(* ===== verification/Handles.v ===== *)
(** * Handles: every command releases what it acquires

    The spec (section 5) asks that the SCM connection and the service handle
    be released on every exit path.  A trace is read as operations on a
    stack of open handles: a successful [OpenSCManager], [OpenService] or
    [CreateService] pushes its handle, a [CloseServiceHandle] must pop the
    handle on top.  A trace is [neutral] when, from every stack, it ends on
    the same stack: each handle it opens it closes, in the reverse order,
    and it closes nothing it did not open.  For every SCM, every command
    of [main] produces a neutral trace, except when the process does not
    return from [main] ([config] without [/type]). *)

From Stdlib Require Import ZArith Lia String Ascii.
From stdpp Require Import base list gmap strings.
From S2P Require Import Prelude ArgParse Encoders Registry WinScm Lifecycle Config Query Failure Main.
Import Win Access Registry.

Open Scope Z_scope.

Module Handles.

(** The effect of one call on the stack of open handles. *)
Definition call_effect {T} (e : scmE T) : T → list SC_HANDLE → option (list SC_HANDLE) :=
  match e in scmE T return T → list SC_HANDLE → option (list SC_HANDLE) with
  | OpenSCManagerE _ => λ r s, Some (match r with Ok h => h :: s | Err _ => s end)
  | OpenServiceE _ _ _ => λ r s, Some (match r with Ok h => h :: s | Err _ => s end)
  | CreateServiceE _ _ => λ r s, Some (match r with Ok (h, _) => h :: s | Err _ => s end)
  | CloseServiceHandleE h => λ _ s,
      match s with h' :: s' => if h =? h' then Some s' else None | [] => None end
  | _ => λ _ s, Some s
  end.

Fixpoint hstack (tr : list event) (s : list SC_HANDLE) : option (list SC_HANDLE) :=
  match tr with
  | [] => Some s
  | EvCall e r :: tr' => call_effect e r s ≫= hstack tr'
  | _ :: tr' => hstack tr' s
  end.

Definition neutral (tr : list event) : Prop := ∀ s, hstack tr s = Some s.

Lemma hstack_app tr1 tr2 s : hstack (tr1 ++ tr2) s = hstack tr1 s ≫= hstack tr2.
Proof.
  revert s. induction tr1 as [|ev tr1 IH]; intros s; [done|].
  destruct ev as [T e r| | | | |]; cbn [app hstack]; try apply IH.
  destruct (call_effect e r s); cbn; [apply IH|done].
Qed.

Lemma neutral_nil : neutral [].
Proof. done. Qed.

Lemma neutral_app tr1 tr2 : neutral tr1 → neutral tr2 → neutral (tr1 ++ tr2).
Proof. intros H1 H2 s. rewrite hstack_app, H1. apply H2. Qed.

(** A trace without SCM calls leaves the stack alone. *)
Lemma neutral_no_calls tr : count_ev is_call tr = 0%nat → neutral tr.
Proof.
  induction tr as [|ev tr IH]; intros Hc s; [done|].
  rewrite count_ev_cons in Hc. destruct ev; cbn in Hc |- *; [lia|apply IH; lia..].
Qed.

(** ** Specifications of programs by their traces

    [tr_spec p Q]: from every machine, [p] appends a trace [tr] to the
    trace, and [Q] holds of its result and [tr].  The rules are those of a
    Hoare logic for the state monad. *)

Section Spec.
Context {W : Type} `{!Registry W}.

Definition tr_spec {A} (p : SCM W A) (Q : A → list event → Prop) : Prop :=
  ∀ m, ∃ tr, m_trace (p m).2 = m_trace m ++ tr ∧ Q (p m).1 tr.

Lemma spec_ret {A} (a : A) (Q : A → list event → Prop) : Q a [] → tr_spec (mret a) Q.
Proof. intros H m. exists []. by rewrite app_nil_r. Qed.

Lemma spec_bind {A B} (p : SCM W A) (k : A → SCM W B) P Q :
  tr_spec p P → (∀ a tr1, P a tr1 → tr_spec (k a) (λ b tr2, Q b (tr1 ++ tr2))) → tr_spec (p ≫= k) Q.
Proof.
  intros Hp Hk m. destruct (Hp m) as (tr1 & E1 & P1). rewrite bind_run.
  destruct (p m) as [a m1] eqn:Ep. cbn in E1, P1.
  destruct (Hk a tr1 P1 m1) as (tr2 & E2 & Q2). exists (tr1 ++ tr2).
  split; [by rewrite E2, E1, app_assoc|done].
Qed.

Lemma spec_assoc {A B C} (p : SCM W A) (k : A → SCM W B) (g : B → SCM W C) Q :
  tr_spec (p ≫= (λ a, k a ≫= g)) Q → tr_spec ((p ≫= k) ≫= g) Q.
Proof. intros H m. rewrite bind_assoc. apply H. Qed.

Lemma spec_weaken {A} (p : SCM W A) (P Q : A → list event → Prop) :
  tr_spec p P → (∀ a tr, P a tr → Q a tr) → tr_spec p Q.
Proof. intros Hp HPQ m. destruct (Hp m) as (tr & E & HP). eauto. Qed.

(** The strongest specifications of the primitives. *)
Lemma sp_ret {A} (a : A) : tr_spec (mret a) (λ b tr, b = a ∧ tr = []).
Proof. by apply spec_ret. Qed.

Lemma sp_call {T} (e : scmE T) : tr_spec (call e) (λ r tr, tr = [EvCall e r]).
Proof. intros m. rewrite call_run. by eexists. Qed.

Lemma sp_emit ev : tr_spec (emit ev) (λ _ tr, tr = [ev]).
Proof. intros m. by eexists. Qed.

Lemma sp_tick : tr_spec GetTickCount64 (λ t tr, tr = [EvTick t]).
Proof. intros m. by eexists. Qed.

Lemma sp_sleep ms : tr_spec (Sleep ms) (λ _ tr, tr = [EvSleep ms]).
Proof. intros m. by eexists. Qed.

Lemma spec_quiet {A} (p : SCM W A) a : quiet p a → tr_spec p (λ _ tr, neutral tr).
Proof.
  intros Hq m. destruct (Hq m) as (tr & E & C). rewrite E. exists tr.
  split; [done|]. by apply neutral_no_calls.
Qed.

(** A loop whose body is neutral is neutral. *)
Lemma spec_loop_fuel {A B} n (dflt : B) (body : A → SCM W (A + B)) a :
  (∀ a, tr_spec (body a) (λ _ tr, neutral tr)) →
  tr_spec (loop_fuel n dflt body a) (λ _ tr, neutral tr).
Proof.
  intros Hb. revert a. induction n as [|n IH]; intros a; simpl.
  - by apply spec_ret.
  - eapply spec_bind; [apply Hb|]. intros [a'|b] tr1 Hn1.
    + eapply spec_weaken; [apply IH|]. intros b tr2 Hn2. by apply neutral_app.
    + apply spec_ret. rewrite app_nil_r. done.
Qed.

End Spec.

Create HintDb handles discriminated.

(** Symbolic execution of a program against its trace specification:
    primitives take their strongest specification, sub-programs the one
    the hint database [handles] gives, and the branches of the program
    are split on the values they test. *)
Ltac vc_step :=
  match goal with
  | |- tr_spec (mbind _ (mbind _ _)) _ => apply spec_assoc
  | |- tr_spec (mbind _ (call _)) _ => eapply spec_bind; [apply sp_call|intros ?r ?tr ->]
  | |- tr_spec (mbind _ (emit _)) _ => eapply spec_bind; [apply sp_emit|intros [] ?tr ->]
  | |- tr_spec (mbind _ GetTickCount64) _ => eapply spec_bind; [apply sp_tick|intros ?t ?tr ->]
  | |- tr_spec (mbind _ (Sleep _)) _ => eapply spec_bind; [apply sp_sleep|intros [] ?tr ->]
  | |- tr_spec (mbind _ (mret _)) _ => eapply spec_bind; [apply sp_ret|intros ?a ?tr [-> ->]]
  | |- tr_spec (mbind _ _) _ => eapply spec_bind; [solve [eauto with handles]|intros ?a ?tr ?Hn]
  | |- tr_spec (call _) _ => eapply spec_weaken; [apply sp_call|intros ?r ?tr ->]
  | |- tr_spec (emit _) _ => eapply spec_weaken; [apply sp_emit|intros [] ?tr ->]
  | |- tr_spec (mret _) _ => apply spec_ret
  | |- tr_spec _ _ => case_match
  end; cbv beta in *.

Ltac vc := unfold out, err, err_code, CloseServiceHandle; repeat vc_step.

(** Close a goal [neutral tr] where [tr] is a list of known events and of
    segments already known to be neutral. *)
Ltac solve_neutral :=
  try (match goal with H : ?x ≠ None → neutral _ |- _ => destruct x; [specialize (H ltac:(discriminate))|] end);
  try (intros ?Hnone; cbn in Hnone; congruence);
  try (intros _);
  let s := fresh "s" in intros s;
  repeat (rewrite ?hstack_app;
          cbn [hstack call_effect app mbind option_bind];
          rewrite ?Z.eqb_refl;
          try match goal with
              | H : neutral ?t |- context [hstack ?t ?x] => rewrite (H x)
              end);
  reflexivity.

Section Commands.
Context {W : Type} `{!Registry W}.

Lemma wait_neutral fuel svc target okMsg timeoutMsg startTime :
  tr_spec (W := W) (Lifecycle.wait_for_state fuel svc target okMsg timeoutMsg startTime) (λ _ tr, neutral tr).
Proof. apply spec_loop_fuel. intros []. unfold Lifecycle.poll_body. vc; solve_neutral. Qed.

End Commands.

#[export] Hint Resolve wait_neutral : handles.
#[export] Hint Extern 2 (tr_spec _ _) =>
  eapply spec_quiet; solve [eauto using quiet_out_lines, Failure.Failure.reset_log_quiet,
                              Failure.Failure.message_log_quiet, Failure.Failure.actions_block_quiet] : handles.

Section Commands2.
Context {W : Type} `{!Registry W}.

Lemma StartService_neutral name : tr_spec (W := W) (Lifecycle.StartService name) (λ _ tr, neutral tr).
Proof. unfold Lifecycle.StartService. vc; solve_neutral. Qed.

Lemma StopService_neutral name : tr_spec (W := W) (Lifecycle.StopService name) (λ _ tr, neutral tr).
Proof. unfold Lifecycle.StopService. vc; solve_neutral. Qed.

Lemma QueryService_neutral name : tr_spec (W := W) (Query.QueryService name) (λ _ tr, neutral tr).
Proof. unfold Query.QueryService. vc; solve_neutral. Qed.

Lemma QueryServiceDescription_neutral name :
  tr_spec (W := W) (Query.QueryServiceDescription name) (λ _ tr, neutral tr).
Proof. unfold Query.QueryServiceDescription. vc; solve_neutral. Qed.

Lemma DeleteService_neutral name : tr_spec (W := W) (Query.DeleteService name) (λ _ tr, neutral tr).
Proof. unfold Query.DeleteService. vc; solve_neutral. Qed.

Lemma CreateService_neutral args : tr_spec (W := W) (Config.CreateService args) (λ _ tr, neutral tr).
Proof.
  unfold Config.CreateService, Config.secondary_updates, Config.change2_or_warn. vc; solve_neutral.
Qed.

Lemma ConfigService_neutral name args :
  tr_spec (W := W) (Config.ConfigService name args) (λ r tr, r ≠ None → neutral tr).
Proof.
  unfold Config.ConfigService, Config.secondary_updates, Config.change2_or_warn. vc; solve_neutral.
Qed.

Lemma SetServiceFailureActions_neutral name args :
  tr_spec (W := W) (Failure.SetServiceFailureActions name args) (λ r tr, r ≠ None → neutral tr).
Proof.
  unfold Failure.SetServiceFailureActions, Failure.commit, Failure.verify_readback. vc; solve_neutral.
Qed.

End Commands2.

#[export] Hint Resolve StartService_neutral StopService_neutral QueryService_neutral
  QueryServiceDescription_neutral DeleteService_neutral CreateService_neutral ConfigService_neutral
  SetServiceFailureActions_neutral : handles.

Section Main.
Context {W : Type} `{!Registry W}.

Lemma main_spec argv : tr_spec (W := W) (Main.main argv) (λ r tr, r ≠ None → neutral tr).
Proof. unfold Main.main, Main.dispatch. vc; solve_neutral. Qed.

(** C37. Scoped acquisition (spec, section 5): for every SCM and every
    command line, the trace of [main] releases every handle it acquires,
    in the reverse order of acquisition, and closes no handle it did not
    acquire: from any stack of open handles the trace ends on the same
    stack.  The one exception is a run that does not return from [main]
    ([config] without [/type]). *)
Theorem main_releases_handles argv (m : machine W) :
  ∃ tr, m_trace (Main.main argv m).2 = m_trace m ++ tr
    ∧ ((Main.main argv m).1 ≠ None → ∀ s, hstack tr s = Some s).
Proof. apply main_spec. Qed.

End Main.

End Handles.
