(* ===== verification/StateMachine.v ===== *)
(** * StateMachine: the lifecycle controller of the spec, and its refinement

    Section 4.4 of the spec describes [start] and [stop] as a state machine
    with the states [Idle], [ControlRequested], [Waiting], [Settled],
    [TimedOut] and [Failed]: issuing the request, its acceptance or
    rejection, each poll that has not reached the target, a failed poll,
    reaching the target, the timeout, and for [stop] the shortcut from
    [Idle] to [Settled] when the service is already stopped.  [lc_step] is
    that machine as a labelled step relation, [lc_next] the same as a
    function.  [labels] reads a trace of the program as labels of the
    machine: the request and its reply, each status query, each [Sleep]
    (one more poll), and the timeout message.  The refinement theorems say
    that every trace of [StartService] and [StopService], for every SCM,
    is a run of the machine from [Idle], that the run never stops in
    [ControlRequested] or [Waiting], and that the command succeeds exactly
    when the run ends in [Settled]. *)

From Stdlib Require Import ZArith Lia String Ascii.
From stdpp Require Import base list gmap strings.
From S2P Require Import Prelude Encoders Registry Lifecycle Handles.
Import Win Access Registry Handles.

Open Scope Z_scope.

Module StateMachine.

Inductive lc_state := Idle | ControlRequested | Waiting | Settled | TimedOut | Failed.

Inductive lc_label :=
| LRequest       (** the start or stop request is issued and accepted at once *)
| LAccepted      (** the request is acknowledged as pending *)
| LRejected      (** the request fails synchronously *)
| LPoll          (** a poll below the target within the timeout *)
| LPollFail      (** a status query fails *)
| LReached       (** a status query reports the target state *)
| LTimeout.      (** more than 30000 ms without reaching the target *)

(** The machine of section 4.4; [stop] enables the shortcut. *)
Inductive lc_step (stop : bool) : lc_state → lc_label → lc_state → Prop :=
| step_request : lc_step stop Idle LRequest ControlRequested
| step_reject : lc_step stop Idle LRejected Failed
| step_idle_fail : lc_step stop Idle LPollFail Failed
| step_shortcut : stop = true → lc_step stop Idle LReached Settled
| step_accept : lc_step stop ControlRequested LAccepted Waiting
| step_poll : lc_step stop Waiting LPoll Waiting
| step_poll_fail : lc_step stop Waiting LPollFail Failed
| step_settle : lc_step stop Waiting LReached Settled
| step_timeout : lc_step stop Waiting LTimeout TimedOut.

(** Runs of the machine: its reflexive-transitive closure, with labels. *)
Inductive lc_steps (stop : bool) : lc_state → list lc_label → lc_state → Prop :=
| steps_nil q : lc_steps stop q [] q
| steps_cons q l q' ls q'' : lc_step stop q l q' → lc_steps stop q' ls q'' → lc_steps stop q (l :: ls) q''.

Definition lc_next (stop : bool) (q : lc_state) (l : lc_label) : option lc_state :=
  match q, l with
  | Idle, LRequest => Some ControlRequested
  | Idle, LRejected => Some Failed
  | Idle, LPollFail => Some Failed
  | Idle, LReached => if stop then Some Settled else None
  | ControlRequested, LAccepted => Some Waiting
  | Waiting, LPoll => Some Waiting
  | Waiting, LPollFail => Some Failed
  | Waiting, LReached => Some Settled
  | Waiting, LTimeout => Some TimedOut
  | _, _ => None
  end.

Fixpoint lc_run (stop : bool) (q : lc_state) (ls : list lc_label) : option lc_state :=
  match ls with
  | [] => Some q
  | l :: ls' => lc_next stop q l ≫= λ q', lc_run stop q' ls'
  end.

(** The two timeout messages. *)
Definition is_timeout_msg (l : string) : bool :=
  (l =ₛ? "Service start timed out.") || (l =ₛ? "Service stop timed out.").

(** The labels of one call. *)
Definition call_labels (target : Z) {T} (e : scmE T) : T → list lc_label :=
  match e in scmE T return T → list lc_label with
  | StartServiceE _ => λ r, match r with Ok _ => [LRequest; LAccepted] | Err _ => [LRejected] end
  | ControlServiceE _ _ => λ r, match r with Ok _ => [LRequest; LAccepted] | Err _ => [LRejected] end
  | QueryServiceStatusExE _ => λ r,
      match r with
      | Ok st => if dwCurrentState st =? target then [LReached] else []
      | Err _ => [LPollFail]
      end
  | _ => λ _, []
  end.

Definition ev_labels (target : Z) (ev : event) : list lc_label :=
  match ev with
  | EvCall e r => call_labels target e r
  | EvSleep _ => [LPoll]
  | EvErr l => if is_timeout_msg l then [LTimeout] else []
  | _ => []
  end.

Fixpoint labels (target : Z) (tr : list event) : list lc_label :=
  match tr with
  | [] => []
  | ev :: tr' => ev_labels target ev ++ labels target tr'
  end.

(** The state a poll loop ends in. *)
Definition outcome_state (o : Lifecycle.poll_outcome) : lc_state :=
  match o with
  | Lifecycle.PollReached => Settled
  | Lifecycle.PollQueryFailed _ => Failed
  | Lifecycle.PollTimedOut => TimedOut
  | Lifecycle.PollOutOfFuel => Waiting
  end.

(** ** The machine *)

Lemma lc_next_step stop q l q' : lc_next stop q l = Some q' ↔ lc_step stop q l q'.
Proof.
  split.
  - destruct q, l; cbn; try discriminate; try (intros [= <-]; by constructor).
    destruct stop; intros [= <-]; by constructor.
  - intros H; destruct H as [| | |Hs| | | | |]; cbn; try done. by rewrite Hs.
Qed.

Lemma lc_run_steps stop q ls q' : lc_run stop q ls = Some q' → lc_steps stop q ls q'.
Proof.
  revert q. induction ls as [|l ls IH]; intros q; cbn; [intros [= <-]; constructor|].
  destruct (lc_next stop q l) as [q1|] eqn:E; cbn; [|discriminate].
  intros H. econstructor; [by apply lc_next_step|by apply IH].
Qed.

(** [Settled], [TimedOut] and [Failed] are terminal. *)
Lemma lc_terminal stop q l q' : lc_step stop q l q' → q ≠ Settled ∧ q ≠ TimedOut ∧ q ≠ Failed.
Proof. by intros []. Qed.

Lemma lc_run_app stop q ls1 ls2 : lc_run stop q (ls1 ++ ls2) = lc_run stop q ls1 ≫= λ q', lc_run stop q' ls2.
Proof.
  revert q. induction ls1 as [|l ls1 IH]; intros q; [done|]. cbn.
  destruct (lc_next stop q l); cbn; [apply IH|done].
Qed.

Lemma labels_app target tr1 tr2 : labels target (tr1 ++ tr2) = labels target tr1 ++ labels target tr2.
Proof. induction tr1 as [|ev tr1 IH]; cbn; [done|]. by rewrite IH, app_assoc. Qed.

Lemma is_timeout_start : is_timeout_msg "Service start timed out." = true.
Proof. reflexivity. Qed.

Lemma is_timeout_stop : is_timeout_msg "Service stop timed out." = true.
Proof. reflexivity. Qed.

(** Compute the run of the machine over a trace of known events and of
    segments whose run is known. *)
Ltac lc_compute :=
  repeat (rewrite ?labels_app, ?lc_run_app;
          cbn [labels ev_labels call_labels app lc_run lc_next mbind option_bind];
          rewrite ?is_timeout_start, ?is_timeout_stop;
          try match goal with
              | H : lc_run ?b ?q (labels ?t ?tr) = _ |- context [lc_run ?b ?q (labels ?t ?tr)] => rewrite H
              | H : (?x =? ?y) = _ |- context [?x =? ?y] => rewrite H
              | H : is_timeout_msg ?l = true |- context [is_timeout_msg ?l] => rewrite H
              end).

(** ** The poll loop is a run from [Waiting] *)

Section Loop.
Context {W : Type} `{!Registry W}.

Lemma poll_body_lc stop svc target okMsg timeoutMsg st :
  is_timeout_msg timeoutMsg = true →
  tr_spec (W := W) (Lifecycle.poll_body svc target okMsg timeoutMsg st tt)
    (λ r tr, lc_run stop Waiting (labels target tr)
             = Some (match r with inl _ => Waiting | inr o => outcome_state o end)).
Proof. intros Ht. unfold Lifecycle.poll_body. vc; lc_compute; reflexivity. Qed.

Lemma wait_lc stop fuel svc target okMsg timeoutMsg st :
  is_timeout_msg timeoutMsg = true →
  tr_spec (W := W) (Lifecycle.wait_for_state fuel svc target okMsg timeoutMsg st)
    (λ o tr, lc_run stop Waiting (labels target tr) = Some (outcome_state o)).
Proof.
  intros Ht. unfold Lifecycle.wait_for_state. generalize tt.
  induction fuel as [|fuel IH]; intros u; cbn [loop_fuel]; [by apply spec_ret|].
  eapply spec_bind; [apply poll_body_lc, Ht|]. intros [u'|o] tr1 H1.
  - eapply spec_weaken; [apply IH|]. intros o tr2 H2. by rewrite labels_app, lc_run_app, H1.
  - apply spec_ret. by rewrite app_nil_r.
Qed.

(** The clock read just before the loop: the loop then never runs out of
    fuel ([Lifecycle.wait_total_from]). *)
Lemma tick_wait_lc {B} stop svc target okMsg timeoutMsg (k : Lifecycle.poll_outcome → SCM W B) Q :
  is_timeout_msg timeoutMsg = true →
  (∀ o tr1, o ≠ Lifecycle.PollOutOfFuel → lc_run stop Waiting (labels target tr1) = Some (outcome_state o) →
     tr_spec (k o) (λ b tr2, Q b (tr1 ++ tr2))) →
  tr_spec (GetTickCount64 ≫= λ t, Lifecycle.wait_for_state Lifecycle.poll_fuel svc target okMsg timeoutMsg t ≫= k) Q.
Proof.
  intros Ht Hk m. rewrite bind_run. cbn [GetTickCount64]. rewrite bind_run.
  set (M1 := mk_machine (m_world m) (m_clock m) (m_trace m ++ [EvTick (to_u64 (m_clock m))])).
  destruct (wait_lc stop Lifecycle.poll_fuel svc target okMsg timeoutMsg (to_u64 (m_clock m)) Ht M1)
    as (tr1 & E1 & L1).
  destruct (Lifecycle.wait_total_from svc target okMsg timeoutMsg (m_clock m) 121
              Lifecycle.poll_fuel Lifecycle.poll_fuel M1) as [_ Hne]; [lia|cbn; lia|cbv; lia|cbv; lia|].
  unfold Lifecycle.wait_for_state in E1, L1 |- *.
  destruct (loop_fuel _ _ _ _ M1) as [o M2] eqn:Ew. cbn in E1, L1, Hne.
  assert (HL : lc_run stop Waiting (labels target ([EvTick (to_u64 (m_clock m))] ++ tr1))
               = Some (outcome_state o)) by (by rewrite labels_app).
  destruct (Hk o _ Hne HL M2) as (tr2 & E2 & Q2).
  exists (([EvTick (to_u64 (m_clock m))] ++ tr1) ++ tr2). split; [|done].
  rewrite E2, E1. cbn. by rewrite <- !app_assoc.
Qed.

End Loop.

Ltac lc_vc stop :=
  unfold out, err, err_code, CloseServiceHandle;
  repeat first
    [ match goal with
      | |- tr_spec (mbind _ GetTickCount64) _ =>
          eapply (tick_wait_lc stop); [reflexivity|intros ?o ?tr ?Hof ?Hlc]; cbv beta in *
      end
    | vc_step ].

(** The result of a command is the state its run ends in. *)
Definition refines (target : Z) (stop : bool) (ok : bool) (tr : list event) : Prop :=
  ∃ q, lc_run stop Idle (labels target tr) = Some q ∧ (ok = true ↔ q = Settled)
       ∧ q ≠ ControlRequested ∧ q ≠ Waiting.

Ltac solve_refines :=
  unfold refines; lc_compute;
  try match goal with o : Lifecycle.poll_outcome |- _ => destruct o end;
  cbn [outcome_state Lifecycle.reached];
  try (exfalso; match goal with H : ?x ≠ ?x |- _ => by apply H end);
  (eexists; split_and!; [reflexivity|split; discriminate + done|discriminate|discriminate]).

Section Refinement.
Context {W : Type} `{!Registry W}.

Lemma StartService_spec name :
  tr_spec (W := W) (Lifecycle.StartService name) (refines SERVICE_RUNNING false).
Proof. unfold Lifecycle.StartService. lc_vc false; solve_refines. Qed.

Lemma StopService_spec name :
  tr_spec (W := W) (Lifecycle.StopService name) (refines SERVICE_STOPPED true).
Proof. unfold Lifecycle.StopService. lc_vc true; solve_refines. Qed.

(** C39. Refinement of the spec's lifecycle machine by [start]: for every
    SCM, the trace of [StartService] read as labels is a run of the machine
    of section 4.4 from [Idle]; the run never ends in [ControlRequested]
    or [Waiting] (the poll loop always ends, by success, failure or
    timeout), and the command succeeds exactly when the run ends in
    [Settled]. *)
Theorem StartService_refines name (m : machine W) :
  ∃ tr q, m_trace (Lifecycle.StartService name m).2 = m_trace m ++ tr
    ∧ lc_steps false Idle (labels SERVICE_RUNNING tr) q
    ∧ ((Lifecycle.StartService name m).1 = true ↔ q = Settled)
    ∧ q ≠ ControlRequested ∧ q ≠ Waiting.
Proof.
  destruct (StartService_spec name m) as (tr & E & q & R & Hok & H1 & H2).
  exists tr, q. split_and!; try done. by apply lc_run_steps.
Qed.

(** C40. Refinement by [stop]: the same for [StopService], with the
    shortcut from [Idle] to [Settled] when the first status query already
    reports the stopped state. *)
Theorem StopService_refines name (m : machine W) :
  ∃ tr q, m_trace (Lifecycle.StopService name m).2 = m_trace m ++ tr
    ∧ lc_steps true Idle (labels SERVICE_STOPPED tr) q
    ∧ ((Lifecycle.StopService name m).1 = true ↔ q = Settled)
    ∧ q ≠ ControlRequested ∧ q ≠ Waiting.
Proof.
  destruct (StopService_spec name m) as (tr & E & q & R & Hok & H1 & H2).
  exists tr, q. split_and!; try done. by apply lc_run_steps.
Qed.

End Refinement.

End StateMachine.
