(* ===== verification/Conformance.v ===== *)
(** * Conformance: the command line of [main]

    [main] (src/main-scclone.cpp, lines 1104-1185) against the command
    line interface of the spec (section 6): [cli_table] lists, for each
    command, the handler it runs and the positions of [argv] it reads (the
    service name in [argv[2]], the options from [argv[2]] for [create] and
    from [argv[3]] for [config] and [failure]); [exit_status] is the exit
    code the spec asks for, 0 on success and 1 on any failure.  The
    theorems hold for every SCM. *)

From Stdlib Require Import ZArith Lia String Ascii.
From stdpp Require Import base list gmap strings.
From S2P Require Import Prelude ArgParse Registry WinScm Lifecycle Config Query Failure Main.
Import Registry.

Open Scope Z_scope.

Module Conformance.

Section Cli.
Context {W : Type} `{!Registry W}.

(** A handler that reports success or failure, seen as one that may also
    end the process without a status ([ConfigService] and
    [SetServiceFailureActions] may). *)
Definition returns (h : SCM W bool) : SCM W (option bool) := ok ← h; mret (Some ok).

(** The commands of the spec, section 6, with their handlers. *)
Definition cli_table (argv : list string) : list (string * SCM W (option bool)) :=
  let name := default ""%string (argv !! 2%nat) in
  [("query", returns (Query.QueryService name));
   ("create", returns (Config.CreateService (ArgParse.ParseArgs argv 2)));
   ("qdescription", returns (Query.QueryServiceDescription name));
   ("start", returns (Lifecycle.StartService name));
   ("stop", returns (Lifecycle.StopService name));
   ("delete", returns (Query.DeleteService name));
   ("config", Config.ConfigService name (ArgParse.ParseArgs argv 3));
   ("failure", Failure.SetServiceFailureActions name (ArgParse.ParseArgs argv 3))]%string.

(** Exit code: 0 on success, 1 on any failure. *)
Definition exit_status (r : option bool) : option Z :=
  match r with Some true => Some 0 | Some false => Some 1 | None => None end.

(** The commands of the table. *)
Definition commands : list string :=
  ["query"; "create"; "qdescription"; "start"; "stop"; "delete"; "config"; "failure"]%string.

Lemma main_long argv command :
  argv !! 1%nat = Some command → (3 ≤ length argv)%nat → Main.main (W := W) argv = Main.dispatch command argv.
Proof.
  intros Hc Hl. unfold Main.main. rewrite Hc. cbn [default].
  rewrite (proj2 (Nat.ltb_ge (length argv) 2)), (proj2 (Nat.ltb_ge (length argv) 3)) by lia.
  by rewrite andb_false_r.
Qed.

Lemma main_create argv :
  argv !! 1%nat = Some "create"%string → Main.main (W := W) argv = Main.dispatch "create" argv.
Proof.
  intros Hc. pose proof (lookup_lt_Some _ _ _ Hc). unfold Main.main. rewrite Hc. cbn [default].
  by rewrite (proj2 (Nat.ltb_ge (length argv) 2)) by lia.
Qed.

Lemma returns_exit (h : SCM W bool) (m : machine W) :
  ((ok ← h; mret (Main.exit_of ok)) : SCM W (option Z)) m
  = (exit_status (returns h m).1, (returns h m).2).
Proof. unfold returns. rewrite !bind_run. by destruct (h m) as [[] m']. Qed.

Lemma option_exit (h : SCM W (option bool)) (m : machine W) :
  ((r ← h; mret (r ≫= Main.exit_of)) : SCM W (option Z)) m = (exit_status (h m).1, (h m).2).
Proof. rewrite bind_run. by destruct (h m) as [[[]|] m']. Qed.

(** C36. [main] implements the command table of the spec (section 6):
    when [argv[1]] is a command of the table and the service name is
    there (or the command is [create]), [main] runs exactly the handler of
    the table, on the arguments at the positions the table reads, and
    returns 0 when it succeeds, 1 when it fails, and no status when the
    handler ends the process. *)
Theorem main_refines_cli argv command h (m : machine W) :
  argv !! 1%nat = Some command → (command, h) ∈ cli_table argv →
  command = "create"%string ∨ (3 ≤ length argv)%nat →
  Main.main argv m = (exit_status (h m).1, (h m).2).
Proof.
  intros Hc Hin Hl. unfold cli_table in Hin.
  repeat (rewrite elem_of_cons in Hin; destruct Hin as [Hin|Hin]; [simplify_eq|]);
    [..|by apply not_elem_of_nil in Hin];
    (destruct Hl as [Hl|Hl]; [discriminate Hl || (rewrite main_create by done)
                               | rewrite (main_long _ _ Hc Hl)]);
    first [apply returns_exit | apply option_exit].
Qed.

(** C21. The argument errors of [main] (spec, section 6: exit 1 on
    missing arguments or an unknown command), for every SCM, without any
    SCM call: no command prints the usage text; a command of the table
    other than [create] without its service name prints the
    ["Service name required"] error; [create] alone fails on its missing
    parameters; an unknown command prints its error and the usage text. *)
Theorem main_argument_errors prog command (m : machine W) :
  Main.main [prog] m = (Some 1, mk_machine (m_world m) (m_clock m) (m_trace m ++ (EvOut <$> usage_lines)))
  ∧ (command ∈ commands → command ≠ "create"%string →
     Main.main [prog; command] m
     = (Some 1, mk_machine (m_world m) (m_clock m)
                  (m_trace m ++ [EvErr ("ERROR: Service name required for " ++ command ++ " command.")])))
  ∧ Main.main [prog; "create"]%string m
    = (Some 1, mk_machine (m_world m) (m_clock m)
                 (m_trace m ++ [EvErr "ERROR: Missing required parameters. Required: /servicename and /binpath"]))
  ∧ (command ∉ commands → ∀ rest, Main.main (prog :: command :: rest) m
       = (Some 1, mk_machine (m_world m) (m_clock m)
                    (m_trace m ++ EvErr ("ERROR: Unknown command: " ++ command) :: (EvOut <$> usage_lines)))).
Proof.
  split_and!.
  - unfold Main.main. cbn [length Nat.ltb Nat.leb]. unfold PrintUsage. rewrite bind_run, out_lines_run. reflexivity.
  - intros Hin Hne. unfold Main.main. cbn [length Nat.ltb Nat.leb lookup list_lookup default id].
    assert (Main.needs_name command = true) as ->.
    { unfold Main.needs_name, commands in *. apply bool_decide_eq_true.
      set_solver. }
    cbn [andb]. scm_unfold. reflexivity.
  - reflexivity.
  - intros Hout rest. unfold Main.main. cbn [length Nat.ltb Nat.leb lookup list_lookup default id].
    assert (Main.needs_name command = false) as ->.
    { unfold Main.needs_name, commands in *. apply bool_decide_eq_false. set_solver. }
    cbn [andb]. unfold Main.dispatch. unfold commands in Hout.
    repeat (rewrite (proj2 (String.eqb_neq _ _)) by set_solver).
    unfold PrintUsage. scm_unfold. rewrite out_lines_run. cbn. by rewrite <- app_assoc.
Qed.

End Cli.

(** The examples run on the system of [WinScm.demo]. *)

#[local] Existing Instance WinScm.win_registry.

Lemma main_refines_cli_witness :
  Main.main ["scclone"; "query"; "Svc"]%string WinScm.demo
  = (exit_status (returns (Query.QueryService "Svc") WinScm.demo).1,
     (returns (Query.QueryService "Svc") WinScm.demo).2).
Proof. apply (main_refines_cli _ "query"); [reflexivity|apply list_elem_of_here|right; cbn; lia]. Defined.

Lemma main_argument_errors_witness :
  Main.main ["scclone"; "stop"]%string WinScm.demo
  = (Some 1, mk_machine (m_world WinScm.demo) (m_clock WinScm.demo)
               (m_trace WinScm.demo ++ [EvErr "ERROR: Service name required for stop command."]))
  ∧ Main.main ["scclone"; "restart"; "Svc"]%string WinScm.demo
  = (Some 1, mk_machine (m_world WinScm.demo) (m_clock WinScm.demo)
               (m_trace WinScm.demo ++ EvErr "ERROR: Unknown command: restart" :: (EvOut <$> usage_lines))).
Proof.
  split.
  - apply (proj1 (proj2 (main_argument_errors "scclone" "stop" WinScm.demo))); [|discriminate].
    apply (bool_decide_unpack _). vm_compute. exact I.
  - apply (proj2 (proj2 (proj2 (main_argument_errors "scclone" "restart" WinScm.demo)))). 
    apply (bool_decide_unpack _). vm_compute. exact I.
Defined.

End Conformance.
