(* ===== verification/Session.v ===== *)
(** * Session: command lines run one after the other on the reference SCM

    Each invocation of the tool is a fresh process running [main]
    (src/main-scclone.cpp, lines 1104-1185) on its command line; what one
    invocation leaves for the next is the state of the service control
    manager.  [session] runs a list of command lines in order on one
    machine.  The theorems take the reference SCM of [WinScm] and show what
    a user of the tool sees across invocations:
    - round trips: what [create] (lines 299-455) or [config] (lines
      724-891) sends is what a later [query] (lines 212-290) reports, and
      the description of [create] is what [qdescription] (lines 464-512)
      prints (C16, C17, C20, C23);
    - [delete] (lines 683-714) then [query] fails on the missing service
      (C18);
    - [stop] (lines 593-674) brings a running service to the stopped
      state one poll later (C19);
    - a second [create] of a registered name fails on
      [ERROR_SERVICE_EXISTS] and changes nothing (C22);
    - [qdescription] of a service created without a description prints
      ["(no description)"] (C38).
    The byte-for-byte round trip of [create] then [query] (C16) is stated
    for 7-bit ASCII names and paths ([Prelude.ascii7]): the SCM stores the
    ANSI strings of [CreateServiceA] as UTF-16 and [WStringToString]
    converts them to UTF-8, which gives back the same bytes exactly on
    such strings.
    The first part runs each handler on the reference SCM for an arbitrary
    world ([QueryService_win], [CreateService_win], ...), by the step
    lemmas and the tactic [win_call] of [WinScm]. *)

From Stdlib Require Import ZArith Lia String Ascii.
From stdpp Require Import base list gmap strings.
From S2P Require Import Prelude ArgParse Encoders Registry WinScm Lifecycle Config Query Failure Main.
Import Win Access Registry WinScm.

Open Scope Z_scope.

#[local] Existing Instance WinScm.win_registry.

Module Session.

Section Run.
Context {W : Type} `{!Registry W}.

(** A shell session: the invocations of the tool, one after the other,
    each a fresh process running [main] on its command line; what persists
    from one to the next is the SCM, its clock and the record of what was
    printed and called. *)
Fixpoint session (cmds : list (list string)) : SCM W (list (option Z)) :=
  match cmds with
  | [] => mret []
  | argv :: rest => r ← Main.main argv; rs ← session rest; mret (r :: rs)
  end.

Lemma session_cons argv rest (m : machine W) :
  session (argv :: rest) m
  = let '(r, m1) := Main.main argv m in let '(rs, m2) := session rest m1 in (r :: rs, m2).
Proof. simpl. unfold mbind, St_bind, mret, St_ret. by destruct (Main.main argv m), (session rest _). Qed.

Lemma session_nil (m : machine W) : session [] m = ([], m).
Proof. reflexivity. Qed.

(** [main] reaches the branch of its command once [argc] is enough. *)
Lemma main_dispatch argv command :
  argv !! 1%nat = Some command → (3 ≤ length argv)%nat →
  Main.main (W := W) argv = Main.dispatch command argv.
Proof.
  intros Hc Hl. unfold Main.main. rewrite Hc. cbn [default].
  rewrite (proj2 (Nat.ltb_ge (length argv) 2)), (proj2 (Nat.ltb_ge (length argv) 3)) by lia.
  by rewrite andb_false_r.
Qed.

(** One handler run inside [main], with its result mapped to the exit
    status. *)
Lemma run_exit (p : SCM W bool) (m m' : machine W) b :
  p m = (b, m') → (ok ← p; mret (Main.exit_of ok)) m = (Main.exit_of b, m').
Proof. intros H. rewrite bind_run, H. reflexivity. Qed.

(** The branches of the dispatch, one per command. *)
Lemma dispatch_query argv :
  Main.dispatch (W := W) "query" argv
  = (ok ← Query.QueryService (default ""%string (argv !! 2%nat)); mret (Main.exit_of ok)).
Proof. reflexivity. Qed.

Lemma dispatch_create argv :
  Main.dispatch (W := W) "create" argv
  = (ok ← Config.CreateService (ArgParse.ParseArgs argv 2); mret (Main.exit_of ok)).
Proof. reflexivity. Qed.

Lemma dispatch_qdescription argv :
  Main.dispatch (W := W) "qdescription" argv
  = (ok ← Query.QueryServiceDescription (default ""%string (argv !! 2%nat)); mret (Main.exit_of ok)).
Proof. reflexivity. Qed.

Lemma dispatch_start argv :
  Main.dispatch (W := W) "start" argv
  = (ok ← Lifecycle.StartService (default ""%string (argv !! 2%nat)); mret (Main.exit_of ok)).
Proof. reflexivity. Qed.

Lemma dispatch_stop argv :
  Main.dispatch (W := W) "stop" argv
  = (ok ← Lifecycle.StopService (default ""%string (argv !! 2%nat)); mret (Main.exit_of ok)).
Proof. reflexivity. Qed.

Lemma dispatch_delete argv :
  Main.dispatch (W := W) "delete" argv
  = (ok ← Query.DeleteService (default ""%string (argv !! 2%nat)); mret (Main.exit_of ok)).
Proof. reflexivity. Qed.

Lemma dispatch_config argv :
  Main.dispatch (W := W) "config" argv
  = (r ← Config.ConfigService (default ""%string (argv !! 2%nat)) (ArgParse.ParseArgs argv 3);
     mret (r ≫= Main.exit_of)).
Proof. reflexivity. Qed.

End Run.

(** An option parsed from [argv[startIdx]] on means there is such an
    argument. *)
Lemma ParseArgs_length argv i k v :
  ArgParse.ParseArgs argv i !! k = Some v → (i < length argv)%nat.
Proof.
  unfold ArgParse.ParseArgs. intros H. destruct (decide (i < length argv)%nat); [done|].
  rewrite drop_ge in H by lia. cbn in H. by rewrite lookup_empty in H.
Qed.

Lemma QueryService_win name s (w : world) clk tr0 :
  services w !! name = Some s →
  ∃ m' tr, Query.QueryService name (mk_machine w clk tr0) = (true, m')
    ∧ services (m_world m') = <[name := with_state (settle (sv_state s)) s]> (services w)
    ∧ m_clock m' = clk ∧ m_trace m' = tr0 ++ tr ∧ outs tr = Query.report_lines (sv_config s) (status_of s).
Proof.
  intros Hs. unfold Query.QueryService.
  win_call. win_call. win_call. win_call.
  rewrite sized_short by apply config_size_pos. cbn [probe_size]. rewrite Z.eqb_refl.
  win_call. rewrite sized_fill.
  rewrite out_lines_run. cbn [m_world m_clock m_trace]. win_call. win_call.
  eexists _, _. split_and!; [reflexivity|reflexivity|reflexivity|by rewrite <- !app_assoc|].
  autorewrite with scc_rw. cbn [outs]. rewrite outs_fmap_out, app_nil_r. reflexivity.
Qed.

Lemma CreateService_win args n p t (w : world) clk tr0 :
  args !! "servicename"%string = Some n → args !! "binpath"%string = Some p →
  Encoders.CreateService_serviceType args = inr t → services w !! n = None →
  ∃ m' s', Config.CreateService args (mk_machine w clk tr0) = (true, m')
    ∧ services (m_world m') = <[n := s']> (services w)
    ∧ sv_config s' = sv_config (new_service (Config.create_request args n p t))
    ∧ sv_state s' = SERVICE_STOPPED ∧ sv_pid s' = 0
    ∧ sv_description s' = args !! "description"%string
    ∧ sv_delayed s' = Encoders.wants_delayed_auto args
    ∧ m_clock m' = clk
    ∧ ∃ tr, m_trace m' = tr0 ++ tr
      ∧ outs tr = ("Service created successfully: " ++ n)%string
                  :: (if cr_tagRequested (Config.create_request args n p t) then ["Tag ID: 1"%string] else []).
Proof.
  intros Hn Hp Ht Hs. unfold Config.CreateService. rewrite Hn, Hp, Ht.
  win_call. win_call.
  unfold Config.secondary_updates, Config.change2_or_warn.
  destruct (args !! "description"%string) as [d|] eqn:Hd; scm_unfold;
    [win_call|]; destruct (Encoders.wants_delayed_auto args) eqn:Hw; scm_unfold;
    try win_call; destruct (cr_tagRequested _); scm_unfold; win_call; win_call;
    (eexists _, _; split_and!;
      [reflexivity | cbn [m_world services]; rewrite ?insert_insert_eq; reflexivity
      | reflexivity.. | eexists; split; [by rewrite <- !app_assoc | by autorewrite with scc_rw]]).
Qed.

Lemma CreateService_exists_win args n p t s (w : world) clk tr0 :
  args !! "servicename"%string = Some n → args !! "binpath"%string = Some p →
  Encoders.CreateService_serviceType args = inr t → services w !! n = Some s →
  ∃ m' tr, Config.CreateService args (mk_machine w clk tr0) = (false, m')
    ∧ services (m_world m') = services w ∧ m_clock m' = clk ∧ m_trace m' = tr0 ++ tr
    ∧ EvErrCode "Failed to create service: " ERROR_SERVICE_EXISTS ∈ tr ∧ outs tr = [].
Proof.
  intros Hn Hp Ht Hs. unfold Config.CreateService. rewrite Hn, Hp, Ht.
  win_call. win_call. win_call.
  eexists _, _. split_and!; [reflexivity..|by rewrite <- !app_assoc| |by autorewrite with scc_rw].
  rewrite !elem_of_app, !list_elem_of_singleton. tauto.
Qed.

Lemma QueryService_absent_win name (w : world) clk tr0 :
  services w !! name = None →
  ∃ m' tr, Query.QueryService name (mk_machine w clk tr0) = (false, m')
    ∧ services (m_world m') = services w ∧ m_trace m' = tr0 ++ tr
    ∧ EvErrCode "Failed to open service: " ERROR_SERVICE_DOES_NOT_EXIST ∈ tr ∧ outs tr = [].
Proof.
  intros Hs. unfold Query.QueryService. win_call. win_call. win_call.
  eexists _, _. split_and!; [reflexivity|reflexivity|by rewrite <- !app_assoc| |].
  - set_solver.
  - by autorewrite with scc_rw.
Qed.

Lemma DeleteService_win name s (w : world) clk tr0 :
  services w !! name = Some s →
  ∃ m' tr, Query.DeleteService name (mk_machine w clk tr0) = (true, m')
    ∧ services (m_world m') = delete name (services w) ∧ m_trace m' = tr0 ++ tr.
Proof.
  intros Hs. unfold Query.DeleteService. win_call. win_call. win_call. win_call. win_call.
  eexists _, _. split_and!; [reflexivity|reflexivity|by rewrite <- !app_assoc].
Qed.

Lemma QueryServiceDescription_win name s d (w : world) clk tr0 :
  services w !! name = Some s → sv_description s = Some d →
  ∃ m' tr, Query.QueryServiceDescription name (mk_machine w clk tr0) = (true, m')
    ∧ services (m_world m') = services w ∧ m_trace m' = tr0 ++ tr
    ∧ outs tr = [("SERVICE_NAME: " ++ name); ("DESCRIPTION: " ++ d)]%string.
Proof.
  intros Hs Hd. unfold Query.QueryServiceDescription. win_call. win_call. win_call.
  rewrite Hd, sized_short by (unfold sizeof_SERVICE_DESCRIPTION, Query.sizeof_SERVICE_DESCRIPTIONA, str_size; lia).
  rewrite probe_size_insufficient. win_call. rewrite Hd, sized_fill. win_call. win_call.
  eexists _, _. split_and!; [reflexivity|reflexivity|by rewrite <- !app_assoc|].
  by autorewrite with scc_rw.
Qed.

Lemma QueryServiceDescription_absent_win name s (w : world) clk tr0 :
  services w !! name = Some s → sv_description s = None →
  ∃ m' tr, Query.QueryServiceDescription name (mk_machine w clk tr0) = (true, m')
    ∧ services (m_world m') = services w ∧ m_trace m' = tr0 ++ tr
    ∧ outs tr = [("SERVICE_NAME: " ++ name); "DESCRIPTION: (no description)"]%string.
Proof.
  intros Hs Hd. unfold Query.QueryServiceDescription. win_call. win_call. win_call.
  rewrite Hd, sized_fits by (unfold sizeof_SERVICE_DESCRIPTION, Query.sizeof_SERVICE_DESCRIPTIONA, str_size; lia).
  cbn [probe_size]. scm_unfold. win_call. rewrite Hd, sized_fill. win_call. win_call.
  eexists _, _. split_and!; [reflexivity|reflexivity|by rewrite <- !app_assoc|].
  by autorewrite with scc_rw.
Qed.

Lemma ConfigService_win name s ty args (w : world) clk tr0 :
  services w !! name = Some s → args !! "type"%string = Some ty →
  ∃ m' s', Config.ConfigService name args (mk_machine w clk tr0) = (Some true, m')
    ∧ services (m_world m') = <[name := s']> (services w)
    ∧ sv_config s' = change_config (Config.change_request args) (sv_config s)
    ∧ sv_state s' = sv_state s ∧ sv_pid s' = sv_pid s
    ∧ sv_description s' = default (sv_description s) (Some <$> args !! "description"%string)
    ∧ sv_delayed s' = Encoders.wants_delayed_auto args || sv_delayed s
    ∧ m_clock m' = clk ∧ ∃ tr, m_trace m' = tr0 ++ tr.
Proof.
  intros Hs Hty. unfold Config.ConfigService. win_call. win_call. rewrite Hty. win_call.
  unfold Config.secondary_updates, Config.change2_or_warn. scm_unfold.
  destruct (args !! "description"%string) as [d|] eqn:Hd; scm_unfold;
    [win_call|]; (destruct (Encoders.wants_delayed_auto args) eqn:Hw; scm_unfold; [win_call|]);
    win_call; win_call;
    (eexists _, _; split_and!;
      [reflexivity | cbn [m_world services]; rewrite ?insert_insert_eq; reflexivity
      | reflexivity.. | eexists; by rewrite <- !app_assoc]).
Qed.

Lemma StopService_win name s (w : world) clk tr0 :
  services w !! name = Some s → sv_state s = SERVICE_RUNNING →
  ∃ m' tr, Lifecycle.StopService name (mk_machine w clk tr0) = (true, m')
    ∧ services (m_world m') = <[name := with_state SERVICE_STOPPED s]> (services w)
    ∧ m_clock m' = clk + 250 ∧ m_trace m' = tr0 ++ tr.
Proof.
  intros Hs Hst. unfold Lifecycle.StopService. win_call. win_call. win_call.
  autorewrite with win_rw. rewrite Hst. autorewrite with win_rw.
  change (SERVICE_RUNNING =? SERVICE_STOPPED) with false. scm_unfold. win_call.
  unfold Lifecycle.wait_for_state, Lifecycle.poll_fuel. rewrite loop_fuel_S.
  rewrite (Lifecycle.poll_body_run _ _ _ _ clk 0) by (cbn; lia).
  cbn [m_world]. erewrite status_run by win_side. autorewrite with win_rw.
  change (SERVICE_STOP_PENDING =? SERVICE_STOPPED) with false. change (121 <=? 0) with false.
  cbn [m_world m_clock m_trace]. rewrite loop_fuel_S.
  rewrite (Lifecycle.poll_body_run _ _ _ _ clk 1) by (cbn; lia).
  cbn [m_world]. erewrite status_run by win_side. cbn [set_service services]. autorewrite with win_rw.
  rewrite Z.eqb_refl. scm_unfold. win_call. win_call.
  eexists _, _. split_and!; [reflexivity| |cbn [m_clock]; unfold Lifecycle.poll_interval; lia|by rewrite <- !app_assoc].
  cbn [services set_service m_world]. by rewrite !insert_insert_eq.
Qed.

(** ** Command lines on the reference SCM *)

Lemma main_run {W} `{!Registry W} argv command (p : SCM W bool) (m m' : machine W) b :
  argv !! 1%nat = Some command → (3 ≤ length argv)%nat →
  Main.dispatch command argv = (ok ← p; mret (Main.exit_of ok)) → p m = (b, m') →
  Main.main argv m = (Main.exit_of b, m').
Proof. intros Hc Hl Hd Hp. rewrite (main_dispatch _ command), Hd by done. by apply run_exit. Qed.

Lemma main_query_win prog name s (m : machine world) :
  services (m_world m) !! name = Some s →
  ∃ m' tr, Main.main [prog; "query"; name]%string m = (Some 0, m')
    ∧ services (m_world m') = <[name := with_state (settle (sv_state s)) s]> (services (m_world m))
    ∧ m_clock m' = m_clock m ∧ m_trace m' = m_trace m ++ tr
    ∧ outs tr = Query.report_lines (sv_config s) (status_of s).
Proof.
  destruct m as [w clk tr0]. intros Hs.
  destruct (QueryService_win name s w clk tr0 Hs) as (m' & tr & Hrun & ?).
  exists m', tr. split; [|done]. eapply (main_run _ "query" _ _ _ true); [done|cbn; lia|apply dispatch_query|exact Hrun].
Qed.


(** [create] from a command line on the reference SCM: the service is
    registered with the configuration of the create request, stopped,
    with the description of [/description]. *)
Lemma main_create_win argv n p t (m : machine world) :
  argv !! 1%nat = Some "create"%string →
  ArgParse.ParseArgs argv 2 !! "servicename"%string = Some n →
  ArgParse.ParseArgs argv 2 !! "binpath"%string = Some p →
  Encoders.CreateService_serviceType (ArgParse.ParseArgs argv 2) = inr t →
  services (m_world m) !! n = None →
  let req := Config.create_request (ArgParse.ParseArgs argv 2) n p t in
  ∃ m1 s1, Main.main argv m = (Some 0, m1)
    ∧ services (m_world m1) !! n = Some s1 ∧ status_of s1 = status_of (new_service req)
    ∧ sv_config s1 = sv_config (new_service req)
    ∧ sv_description s1 = ArgParse.ParseArgs argv 2 !! "description"%string
    ∧ ∃ tr1, m_trace m1 = m_trace m ++ tr1
      ∧ outs tr1 = ("Service created successfully: " ++ n)%string
                   :: (if cr_tagRequested req then ["Tag ID: 1"%string] else []).
Proof.
  destruct m as [w clk tr0]. intros Hc Hn Hp Ht Hs req.
  destruct (CreateService_win _ n p t w clk tr0 Hn Hp Ht Hs)
    as (m1 & s1 & Hrun & Hsv & Hcfg & Hst & Hpid & Hdesc & _ & _ & tr1 & Htr1 & Hout1).
  exists m1, s1. split_and!; [|by rewrite Hsv, lookup_insert_eq|by unfold status_of; rewrite Hcfg, Hst, Hpid
    |done|done|eauto].
  eapply (main_run _ "create" _ _ _ true); [done| |apply dispatch_create|exact Hrun].
  apply ParseArgs_length in Hn. lia.
Qed.

Lemma main_qdescription_win prog name s d (m : machine world) :
  services (m_world m) !! name = Some s → sv_description s = Some d →
  ∃ m' tr, Main.main [prog; "qdescription"; name]%string m = (Some 0, m') ∧ m_trace m' = m_trace m ++ tr
    ∧ outs tr = [("SERVICE_NAME: " ++ name); ("DESCRIPTION: " ++ d)]%string.
Proof.
  destruct m as [w clk tr0]. intros Hs Hd.
  destruct (QueryServiceDescription_win name s d w clk tr0 Hs Hd) as (m' & tr & Hrun & _ & ?).
  exists m', tr. split; [|done].
  eapply (main_run _ "qdescription" _ _ _ true); [done|cbn; lia|apply dispatch_qdescription|exact Hrun].
Qed.

Lemma main_qdescription_absent_win prog name s (m : machine world) :
  services (m_world m) !! name = Some s → sv_description s = None →
  ∃ m' tr, Main.main [prog; "qdescription"; name]%string m = (Some 0, m') ∧ m_trace m' = m_trace m ++ tr
    ∧ outs tr = [("SERVICE_NAME: " ++ name); "DESCRIPTION: (no description)"]%string.
Proof.
  destruct m as [w clk tr0]. intros Hs Hd.
  destruct (QueryServiceDescription_absent_win name s w clk tr0 Hs Hd) as (m' & tr & Hrun & _ & ?).
  exists m', tr. split; [|done].
  eapply (main_run _ "qdescription" _ _ _ true); [done|cbn; lia|apply dispatch_qdescription|exact Hrun].
Qed.

Lemma main_delete_win prog name s (m : machine world) :
  services (m_world m) !! name = Some s →
  ∃ m', Main.main [prog; "delete"; name]%string m = (Some 0, m')
    ∧ services (m_world m') = delete name (services (m_world m)).
Proof.
  destruct m as [w clk tr0]. intros Hs.
  destruct (DeleteService_win name s w clk tr0 Hs) as (m' & tr & Hrun & ? & _).
  exists m'. split; [|done].
  eapply (main_run _ "delete" _ _ _ true); [done|cbn; lia|apply dispatch_delete|exact Hrun].
Qed.

Lemma main_query_absent_win prog name (m : machine world) :
  services (m_world m) !! name = None →
  ∃ m' tr, Main.main [prog; "query"; name]%string m = (Some 1, m')
    ∧ services (m_world m') = services (m_world m) ∧ m_trace m' = m_trace m ++ tr
    ∧ EvErrCode "Failed to open service: " ERROR_SERVICE_DOES_NOT_EXIST ∈ tr.
Proof.
  destruct m as [w clk tr0]. intros Hs.
  destruct (QueryService_absent_win name w clk tr0 Hs) as (m' & tr & Hrun & ? & ? & ? & _).
  exists m', tr. split_and!; [|done..].
  eapply (main_run _ "query" _ _ _ false); [done|cbn; lia|apply dispatch_query|exact Hrun].
Qed.

Lemma main_stop_win prog name s (m : machine world) :
  services (m_world m) !! name = Some s → sv_state s = SERVICE_RUNNING →
  ∃ m' tr, Main.main [prog; "stop"; name]%string m = (Some 0, m')
    ∧ services (m_world m') = <[name := with_state SERVICE_STOPPED s]> (services (m_world m))
    ∧ m_clock m' = m_clock m + 250 ∧ m_trace m' = m_trace m ++ tr.
Proof.
  destruct m as [w clk tr0]. intros Hs Hst.
  destruct (StopService_win name s w clk tr0 Hs Hst) as (m' & tr & Hrun & ?).
  exists m', tr. split; [|done].
  eapply (main_run _ "stop" _ _ _ true); [done|cbn; lia|apply dispatch_stop|exact Hrun].
Qed.

Lemma main_config_win argv n s ty (m : machine world) :
  argv !! 1%nat = Some "config"%string → argv !! 2%nat = Some n →
  services (m_world m) !! n = Some s → ArgParse.ParseArgs argv 3 !! "type"%string = Some ty →
  ∃ m' s', Main.main argv m = (Some 0, m')
    ∧ services (m_world m') = <[n := s']> (services (m_world m))
    ∧ sv_config s' = change_config (Config.change_request (ArgParse.ParseArgs argv 3)) (sv_config s)
    ∧ sv_state s' = sv_state s ∧ sv_pid s' = sv_pid s
    ∧ ∃ tr, m_trace m' = m_trace m ++ tr.
Proof.
  destruct m as [w clk tr0]. intros Hc Hn Hs Hty.
  destruct (ConfigService_win n s ty _ w clk tr0 Hs Hty)
    as (m' & s' & Hrun & Hsv & Hcfg & Hst & Hpid & _ & _ & _ & ?).
  exists m', s'. split_and!; [|done..].
  rewrite (main_dispatch _ "config"), dispatch_config by (done || (apply lookup_lt_Some in Hn; lia)).
  rewrite bind_run, Hn. cbn [default id]. by rewrite Hrun.
Qed.

(** Run the invocations of a session one by one, from the equations of
    their runs. *)
Ltac run_session :=
  repeat match goal with
  | H : Main.main ?argv ?m = _ |- context [session (?argv :: _) ?m] =>
      rewrite session_cons, H; cbv beta iota zeta
  end;
  rewrite ?session_nil; cbv beta iota zeta.

(** ** Properties *)

(** C16. Round trip [create] then [query], on the reference SCM: after
    [create] with any options that name a service [n] not yet registered
    and a binary path [p] (and no bare [/type interact]), [query n]
    succeeds and its report shows exactly what [create] encoded: the
    display name ([/displayname], or [n]), the type, the start type and
    error control of the encoders, the binary path, and a stopped service
    without process; [create] printed its success line (and the tag when
    [/tag yes] was given).  The name, path and display name are 7-bit
    ASCII: the ANSI to UTF-16 conversion of the SCM and the UTF-16 to
    UTF-8 conversion of [WStringToString] then give back the same bytes. *)
Theorem create_then_query argv n p t (w : world) clk tr0 :
  argv !! 1%nat = Some "create"%string →
  ArgParse.ParseArgs argv 2 !! "servicename"%string = Some n →
  ArgParse.ParseArgs argv 2 !! "binpath"%string = Some p →
  Encoders.CreateService_serviceType (ArgParse.ParseArgs argv 2) = inr t →
  services w !! n = None →
  let args := ArgParse.ParseArgs argv 2 in
  ascii7 n = true → ascii7 p = true → ascii7 (default n (args !! "displayname"%string)) = true →
  ∃ m' tr1 tr2,
    session [argv; ["scclone"; "query"; n]%string] (mk_machine w clk tr0) = ([Some 0; Some 0], m')
    ∧ m_trace m' = tr0 ++ tr1 ++ tr2
    ∧ outs tr1 = ("Service created successfully: " ++ n)%string
                 :: (if bool_decide (args !! "tag"%string = Some "yes"%string) then ["Tag ID: 1"%string] else [])
    ∧ outs tr2 = Query.report_lines
        (mk_config t (Encoders.CreateService_startType args) (Encoders.CreateService_errorControl args)
           (Some p) (Some (default n (args !! "displayname"%string))))
        (mk_status t SERVICE_STOPPED 0).
Proof.
  intros Hc Hn Hp Ht Hs args _ _ _.
  destruct (main_create_win argv n p t (mk_machine w clk tr0) Hc Hn Hp Ht Hs)
    as (m1 & s1 & Hm1 & Hs1 & Hst1 & Hcfg1 & _ & tr1 & Htr1 & Hout1).
  destruct (main_query_win "scclone" n s1 m1 Hs1) as (m2 & tr2 & Hm2 & _ & _ & Htr2 & Hout2).
  exists m2, tr1, tr2. run_session. split_and!; [done| |exact Hout1|].
  - by rewrite Htr2, Htr1, <- app_assoc.
  - rewrite Hout2, Hcfg1, Hst1. reflexivity.
Qed.

(** The options of [config n /type ty /start disabled], for a type value
    that is not itself an option. *)
Lemma ParseArgs_config_type_start n ty :
  ArgParse.is_option ty = false →
  ArgParse.ParseArgs ["scclone"; "config"; n; "/type"; ty; "/start"; "disabled"]%string 3
  = <["start" := "disabled"]> (<["type" := ty]> ∅).
Proof.
  intros H. unfold ArgParse.ParseArgs. cbn [drop].
  by rewrite !ArgParse.parse_opt_val by done.
Qed.

Lemma change_request_type_start ty t :
  Encoders.service_type_table ty = Some t →
  Config.change_request (<["start" := "disabled"]> (<["type" := ty]> ∅))
  = mk_change t SERVICE_DISABLED SERVICE_NO_CHANGE None None None None None None.
Proof.
  intros H. unfold Config.change_request, Encoders.ConfigService_serviceType.
  rewrite lookup_insert_ne by done. by rewrite lookup_insert_eq, H.
Qed.

Lemma service_type_table_change ty t :
  Encoders.service_type_table ty = Some t → t ≠ SERVICE_NO_CHANGE.
Proof. unfold Encoders.service_type_table. case_streq; intros H; simplify_eq; discriminate. Qed.

(** C17. Round trip [config] then [query], on the reference SCM: after
    [config n /type ty /start disabled] on a registered service, with [ty]
    a value of the type table, [query n] succeeds and reports the type of
    the table, the start type [SERVICE_DISABLED], and the error control,
    binary path and display name the service had before; its state and
    process are unchanged. *)
Theorem config_then_query n s ty t (w : world) clk tr0 :
  services w !! n = Some s → ArgParse.is_option ty = false →
  Encoders.service_type_table ty = Some t →
  ∃ m' tr1 tr2,
    session [["scclone"; "config"; n; "/type"; ty; "/start"; "disabled"]; ["scclone"; "query"; n]]%string
      (mk_machine w clk tr0) = ([Some 0; Some 0], m')
    ∧ m_trace m' = tr0 ++ tr1 ++ tr2
    ∧ outs tr2 = Query.report_lines
        (mk_config t SERVICE_DISABLED (cfg_dwErrorControl (sv_config s))
           (cfg_lpBinaryPathName (sv_config s)) (cfg_lpDisplayName (sv_config s)))
        (mk_status t (sv_state s) (sv_pid s)).
Proof.
  intros Hs Hty Ht.
  destruct (main_config_win ["scclone"; "config"; n; "/type"; ty; "/start"; "disabled"]%string n s ty
              (mk_machine w clk tr0)) as (m1 & s1 & Hm1 & Hsv1 & Hcfg1 & Hst1 & Hpid1 & tr1 & Htr1);
    [done|done|done|by rewrite ParseArgs_config_type_start, lookup_insert_ne, lookup_insert_eq|].
  rewrite ParseArgs_config_type_start, (change_request_type_start _ _ Ht) in Hcfg1 by done.
  assert (Hs1 : services (m_world m1) !! n = Some s1) by (rewrite Hsv1; apply lookup_insert_eq).
  destruct (main_query_win "scclone" n s1 m1 Hs1) as (m2 & tr2 & Hm2 & _ & _ & Htr2 & Hout2).
  exists m2, tr1, tr2. run_session. split_and!; [done|by rewrite Htr2, Htr1, <- app_assoc|].
  rewrite Hout2. unfold status_of. rewrite Hcfg1, Hst1, Hpid1. unfold change_config, keep_or. cbn.
  by rewrite (proj2 (Z.eqb_neq _ _) (service_type_table_change _ _ Ht)).
Qed.

(** C18. [delete] then [query], on the reference SCM: [delete n] of a
    registered service succeeds and removes it; the [query n] that
    follows fails on opening the service with
    [ERROR_SERVICE_DOES_NOT_EXIST], and the service stays absent. *)
Theorem delete_then_query n s (w : world) clk tr0 :
  services w !! n = Some s →
  ∃ m', session [["scclone"; "delete"; n]; ["scclone"; "query"; n]]%string (mk_machine w clk tr0)
        = ([Some 0; Some 1], m')
    ∧ services (m_world m') !! n = None
    ∧ EvErrCode "Failed to open service: " ERROR_SERVICE_DOES_NOT_EXIST ∈ m_trace m'.
Proof.
  intros Hs.
  destruct (main_delete_win "scclone" n s (mk_machine w clk tr0) Hs) as (m1 & Hm1 & Hsv1).
  assert (Hn1 : services (m_world m1) !! n = None) by (rewrite Hsv1; apply lookup_delete_eq).
  destruct (main_query_absent_win "scclone" n m1 Hn1) as (m2 & tr2 & Hm2 & Hsv2 & Htr2 & Herr).
  exists m2. run_session. split_and!; [done|by rewrite Hsv2|rewrite Htr2; set_solver].
Qed.

(** C19. Progress of [stop], on the reference SCM: [stop n] on a running
    service brings it to the stopped state and succeeds one poll interval
    (250 ms) after the request, and the [query n] that follows reports
    it stopped. *)
Theorem stop_then_query n s (w : world) clk tr0 :
  services w !! n = Some s → sv_state s = SERVICE_RUNNING →
  ∃ m' tr1 tr2,
    session [["scclone"; "stop"; n]; ["scclone"; "query"; n]]%string (mk_machine w clk tr0)
      = ([Some 0; Some 0], m')
    ∧ m_clock m' = clk + 250 ∧ m_trace m' = tr0 ++ tr1 ++ tr2
    ∧ services (m_world m') !! n = Some (with_state SERVICE_STOPPED s)
    ∧ outs tr2 = Query.report_lines (sv_config s)
                   (mk_status (cfg_dwServiceType (sv_config s)) SERVICE_STOPPED (sv_pid s)).
Proof.
  intros Hs Hst.
  destruct (main_stop_win "scclone" n s (mk_machine w clk tr0) Hs Hst) as (m1 & tr1 & Hm1 & Hsv1 & Hc1 & Htr1).
  assert (Hs1 : services (m_world m1) !! n = Some (with_state SERVICE_STOPPED s))
    by (rewrite Hsv1; apply lookup_insert_eq).
  destruct (main_query_win "scclone" n _ m1 Hs1) as (m2 & tr2 & Hm2 & Hsv2 & Hc2 & Htr2 & Hout2).
  exists m2, tr1, tr2. run_session.
  split_and!; [done|by rewrite Hc2, Hc1|by rewrite Htr2, Htr1, <- app_assoc| |exact Hout2].
  rewrite Hsv2, lookup_insert_eq. done.
Qed.

(** C20. Round trip [create /description d] then [qdescription], on the
    reference SCM: the description set by the follow-up request of
    [create] is the one [qdescription] prints. *)
Theorem create_then_qdescription argv n p t d (w : world) clk tr0 :
  argv !! 1%nat = Some "create"%string →
  ArgParse.ParseArgs argv 2 !! "servicename"%string = Some n →
  ArgParse.ParseArgs argv 2 !! "binpath"%string = Some p →
  Encoders.CreateService_serviceType (ArgParse.ParseArgs argv 2) = inr t →
  ArgParse.ParseArgs argv 2 !! "description"%string = Some d →
  services w !! n = None →
  ∃ m' tr1 tr2,
    session [argv; ["scclone"; "qdescription"; n]%string] (mk_machine w clk tr0) = ([Some 0; Some 0], m')
    ∧ m_trace m' = tr0 ++ tr1 ++ tr2
    ∧ outs tr2 = [("SERVICE_NAME: " ++ n); ("DESCRIPTION: " ++ d)]%string.
Proof.
  intros Hc Hn Hp Ht Hd Hs.
  destruct (main_create_win argv n p t (mk_machine w clk tr0) Hc Hn Hp Ht Hs)
    as (m1 & s1 & Hm1 & Hs1 & _ & _ & Hdesc1 & tr1 & Htr1 & _).
  rewrite Hd in Hdesc1.
  destruct (main_qdescription_win "scclone" n s1 d m1 Hs1 Hdesc1) as (m2 & tr2 & Hm2 & Htr2 & Hout2).
  exists m2, tr1, tr2. run_session. split_and!; [done|by rewrite Htr2, Htr1, <- app_assoc|exact Hout2].
Qed.

Lemma is_option_lit k : ArgParse.is_option (String "/" k) = true.
Proof. reflexivity. Qed.

(** The options of [create /servicename n /binpath p /start bogus]. *)
Lemma ParseArgs_bogus_start n p :
  ArgParse.is_option n = false → ArgParse.is_option p = false →
  ArgParse.ParseArgs ["scclone"; "create"; "/servicename"; n; "/binpath"; p; "/start"; "bogus"]%string 2
  = <["start" := "bogus"]> (<["binpath" := p]> (<["servicename" := n]> ∅))%string.
Proof.
  intros Hn Hp. unfold ArgParse.ParseArgs. cbn [drop].
  repeat (cbn [ArgParse.parse_tokens]; rewrite ?is_option_lit, ?Hn, ?Hp).
  reflexivity.
Qed.

(** C22. [create] twice with the same name, on the reference SCM: the
    first run registers the service and exits with 0; the second fails on
    [CreateServiceA] with [ERROR_SERVICE_EXISTS], prints nothing on its
    output, exits with 1 and leaves the registry as the first run left it
    (no follow-up request is sent). *)
Theorem create_twice argv n p t (w : world) clk tr0 :
  argv !! 1%nat = Some "create"%string →
  ArgParse.ParseArgs argv 2 !! "servicename"%string = Some n →
  ArgParse.ParseArgs argv 2 !! "binpath"%string = Some p →
  Encoders.CreateService_serviceType (ArgParse.ParseArgs argv 2) = inr t →
  services w !! n = None →
  ∃ m' s1 tr1 tr2, session [argv; argv] (mk_machine w clk tr0) = ([Some 0; Some 1], m')
    ∧ services (m_world m') = <[n := s1]> (services w)
    ∧ sv_config s1 = sv_config (new_service (Config.create_request (ArgParse.ParseArgs argv 2) n p t))
    ∧ m_trace m' = tr0 ++ tr1 ++ tr2
    ∧ EvErrCode "Failed to create service: " ERROR_SERVICE_EXISTS ∈ tr2 ∧ outs tr2 = [].
Proof.
  intros Hc Hn Hp Ht Hs.
  assert (Hl : (3 ≤ length argv)%nat) by (apply ParseArgs_length in Hn; lia).
  destruct (CreateService_win _ n p t w clk tr0 Hn Hp Ht Hs)
    as ([w1 clk1 tr1'] & s1 & Hrun1 & Hsv1 & Hcfg1 & _ & _ & _ & _ & Hclk1 & tr1 & Htr1 & _).
  assert (Hs1 : services w1 !! n = Some s1) by (cbn in Hsv1; rewrite Hsv1; apply lookup_insert_eq).
  destruct (CreateService_exists_win _ n p t s1 w1 clk1 tr1' Hn Hp Ht Hs1)
    as (m2 & tr2 & Hrun2 & Hsv2 & _ & Htr2 & Herr & Hout2).
  assert (Hm1 : Main.main argv (mk_machine w clk tr0) = (Some 0, mk_machine w1 clk1 tr1'))
    by (eapply (main_run _ "create" _ _ _ true); [done|done|apply dispatch_create|exact Hrun1]).
  assert (Hm2 : Main.main argv (mk_machine w1 clk1 tr1') = (Some 1, m2))
    by (eapply (main_run _ "create" _ _ _ false); [done|done|apply dispatch_create|exact Hrun2]).
  exists m2, s1, tr1, tr2. run_session.
  split_and!; [done|by rewrite Hsv2|done|by rewrite Htr2; cbn in Htr1; rewrite Htr1, <- app_assoc|done|done].
Qed.

(** C23. An unrecognised [/start] value silently encodes as demand start
    (spec, section 8): after [create /servicename n /binpath p /start
    bogus] on the reference SCM, [query n] succeeds and its start-type
    line reads [DEMAND]. *)
Theorem create_bogus_start n p (w : world) clk tr0 :
  ArgParse.is_option n = false → ArgParse.is_option p = false → services w !! n = None →
  ∃ m' tr1 tr2,
    session [["scclone"; "create"; "/servicename"; n; "/binpath"; p; "/start"; "bogus"];
             ["scclone"; "query"; n]]%string (mk_machine w clk tr0) = ([Some 0; Some 0], m')
    ∧ m_trace m' = tr0 ++ tr1 ++ tr2
    ∧ outs tr2 !! 2%nat = Some "START_TYPE  : DEMAND"%string.
Proof.
  intros Hn Hp Hs.
  pose proof (ParseArgs_bogus_start n p Hn Hp) as Hargs.
  destruct (main_create_win ["scclone"; "create"; "/servicename"; n; "/binpath"; p; "/start"; "bogus"]%string
              n p SERVICE_WIN32_OWN_PROCESS (mk_machine w clk tr0))
    as (m1 & s1 & Hm1 & Hs1 & _ & Hcfg1 & _ & tr1 & Htr1 & _); rewrite ?Hargs; try done.
  destruct (main_query_win "scclone" n s1 m1 Hs1) as (m2 & tr2 & Hm2 & _ & _ & Htr2 & Hout2).
  exists m2, tr1, tr2. run_session. split_and!; [done|by rewrite Htr2, Htr1, <- app_assoc|].
  rewrite Hout2, Hcfg1, Hargs. reflexivity.
Qed.

(** C38. [qdescription] of a service created without [/description], on
    the reference SCM: the first description query fits the minimal buffer
    and reports the size it took, the second query with that size
    succeeds, and the command prints the service name and
    ["(no description)"] and exits with 0. *)
Theorem create_then_qdescription_absent argv n p t (w : world) clk tr0 :
  argv !! 1%nat = Some "create"%string →
  ArgParse.ParseArgs argv 2 !! "servicename"%string = Some n →
  ArgParse.ParseArgs argv 2 !! "binpath"%string = Some p →
  Encoders.CreateService_serviceType (ArgParse.ParseArgs argv 2) = inr t →
  ArgParse.ParseArgs argv 2 !! "description"%string = None →
  services w !! n = None →
  ∃ m' tr1 tr2,
    session [argv; ["scclone"; "qdescription"; n]%string] (mk_machine w clk tr0) = ([Some 0; Some 0], m')
    ∧ m_trace m' = tr0 ++ tr1 ++ tr2
    ∧ outs tr2 = [("SERVICE_NAME: " ++ n); "DESCRIPTION: (no description)"]%string.
Proof.
  intros Hc Hn Hp Ht Hd Hs.
  destruct (main_create_win argv n p t (mk_machine w clk tr0) Hc Hn Hp Ht Hs)
    as (m1 & s1 & Hm1 & Hs1 & _ & _ & Hdesc1 & tr1 & Htr1 & _).
  rewrite Hd in Hdesc1.
  destruct (main_qdescription_absent_win "scclone" n s1 m1 Hs1 Hdesc1) as (m2 & tr2 & Hm2 & Htr2 & Hout2).
  exists m2, tr1, tr2. run_session. split_and!; [done|by rewrite Htr2, Htr1, <- app_assoc|exact Hout2].
Qed.

(** ** Witnesses, on the system of [WinScm.demo] *)

Definition running_demo : world :=
  m_world (boot [("Svc", with_state SERVICE_RUNNING (stopped_service "My Service" "svc.exe"))]%string).

Lemma create_then_query_witness :
  ∃ m', session [["scclone"; "create"; "/servicename"; "New"; "/binpath"; "new.exe"; "/start"; "auto"];
                 ["scclone"; "query"; "New"]]%string (mk_machine (m_world demo) 0 []) = ([Some 0; Some 0], m').
Proof.
  destruct (create_then_query ["scclone"; "create"; "/servicename"; "New"; "/binpath"; "new.exe"; "/start"; "auto"]%string
              "New" "new.exe" SERVICE_WIN32_OWN_PROCESS (m_world demo) 0 []) as (m' & _ & _ & H & _);
    [reflexivity..|]. eauto.
Defined.

Lemma config_then_query_witness :
  ∃ m', session [["scclone"; "config"; "Svc"; "/type"; "share"; "/start"; "disabled"];
                 ["scclone"; "query"; "Svc"]]%string (mk_machine (m_world demo) 0 []) = ([Some 0; Some 0], m').
Proof.
  destruct (config_then_query "Svc" (stopped_service "My Service" "svc.exe") "share" SERVICE_WIN32_SHARE_PROCESS
              (m_world demo) 0 []) as (m' & _ & _ & H & _); [reflexivity..|]. eauto.
Defined.

Lemma delete_then_query_witness :
  ∃ m', session [["scclone"; "delete"; "Svc"]; ["scclone"; "query"; "Svc"]]%string
          (mk_machine (m_world demo) 0 []) = ([Some 0; Some 1], m').
Proof.
  destruct (delete_then_query "Svc" (stopped_service "My Service" "svc.exe") (m_world demo) 0 [])
    as (m' & H & _); [reflexivity|]. eauto.
Defined.

Lemma stop_then_query_witness :
  ∃ m', session [["scclone"; "stop"; "Svc"]; ["scclone"; "query"; "Svc"]]%string
          (mk_machine running_demo 0 []) = ([Some 0; Some 0], m') ∧ m_clock m' = 250.
Proof.
  destruct (stop_then_query "Svc" (with_state SERVICE_RUNNING (stopped_service "My Service" "svc.exe"))
              running_demo 0 []) as (m' & _ & _ & H & Hc & _); [reflexivity..|]. eauto.
Defined.

Lemma create_then_qdescription_witness :
  ∃ m', session [["scclone"; "create"; "/servicename"; "New"; "/binpath"; "new.exe"; "/description"; "A new one"];
                 ["scclone"; "qdescription"; "New"]]%string (mk_machine (m_world demo) 0 []) = ([Some 0; Some 0], m').
Proof.
  destruct (create_then_qdescription
              ["scclone"; "create"; "/servicename"; "New"; "/binpath"; "new.exe"; "/description"; "A new one"]%string
              "New" "new.exe" SERVICE_WIN32_OWN_PROCESS "A new one" (m_world demo) 0 [])
    as (m' & _ & _ & H & _); [reflexivity..|]. eauto.
Defined.

Lemma create_twice_witness :
  ∃ m', session [["scclone"; "create"; "/servicename"; "New"; "/binpath"; "new.exe"];
                 ["scclone"; "create"; "/servicename"; "New"; "/binpath"; "new.exe"]]%string
          (mk_machine (m_world demo) 0 []) = ([Some 0; Some 1], m').
Proof.
  destruct (create_twice ["scclone"; "create"; "/servicename"; "New"; "/binpath"; "new.exe"]%string
              "New" "new.exe" SERVICE_WIN32_OWN_PROCESS (m_world demo) 0 []) as (m' & _ & _ & _ & H & _);
    [reflexivity..|]. eauto.
Defined.

Lemma create_bogus_start_witness :
  ∃ m', session [["scclone"; "create"; "/servicename"; "New"; "/binpath"; "new.exe"; "/start"; "bogus"];
                 ["scclone"; "query"; "New"]]%string (mk_machine (m_world demo) 0 []) = ([Some 0; Some 0], m').
Proof.
  destruct (create_bogus_start "New" "new.exe" (m_world demo) 0 []) as (m' & _ & _ & H & _);
    [reflexivity..|]. eauto.
Defined.

Lemma create_then_qdescription_absent_witness :
  ∃ m', session [["scclone"; "create"; "/servicename"; "New"; "/binpath"; "new.exe"];
                 ["scclone"; "qdescription"; "New"]]%string (mk_machine (m_world demo) 0 []) = ([Some 0; Some 0], m').
Proof.
  destruct (create_then_qdescription_absent ["scclone"; "create"; "/servicename"; "New"; "/binpath"; "new.exe"]%string
              "New" "new.exe" SERVICE_WIN32_OWN_PROCESS (m_world demo) 0 []) as (m' & _ & _ & H & _);
    [reflexivity..|]. eauto.
Defined.

End Session.
